(** * IPFS Solana Manager: the session handling of the frontend (src/app.js)
    and the authentication core it talks to.

  The frontend is embedded from the source.  [src/app.js] holds two
  revisions of the script one after the other; the functions modelled here
  are textually the same in both, except [init], [checkFirstTimeSetup],
  [showFirstTimeCredentials] and [resetApplication], which only the second
  revision has.

  An [async] function is a value of the resumption monad [Proc]: it reads
  and writes the page's [Store], suspends at [await fetch(...)] and is
  resumed with the outcome of the request against whatever the store is by
  then.  A call that is not awaited ([handleLogout()] in [apiRequest],
  [checkHealth()] in [showMainApp]) is a [Spawn].

  The backend (the Python API server) is not part of the sources at hand;
  module [Backend] models its authentication core from the specification. *)

From Stdlib Require Import ZArith NArith String Ascii List Lia Reals Lra.
From stdpp Require Import base option gmap strings list pretty.

(* ===================================================================== *)
(** ** JavaScript values                                                  *)
(* ===================================================================== *)

Module Js.

(** The values that the fields of the protocol's JSON bodies and of
    [state] take: absent ([undefined]), [null], booleans and strings. *)
Inductive JsVal : Type :=
| JUndefined
| JNull
| JBool (b : bool)
| JStr (s : string).

#[global] Instance JsVal_eq_dec : EqDecision JsVal.
Proof. solve_decision. Defined.

(** ToBoolean, as applied by [if (v)], [!v], [a && b] and [a || b]. *)
Definition truthy (v : JsVal) : bool :=
  match v with
  | JUndefined | JNull => false
  | JBool b => b
  | JStr s => negb (String.eqb s "")
  end.

(** ToString, as applied by template literals and [localStorage.setItem]. *)
Definition toString (v : JsVal) : string :=
  match v with
  | JUndefined => "undefined"
  | JNull => "null"
  | JBool true => "true"
  | JBool false => "false"
  | JStr s => s
  end.

(** [a || b] *)
Definition js_or (a b : JsVal) : JsVal := if truthy a then a else b.

(** [String.prototype.trim] on the white space and line terminators of the
    ASCII range: TAB, LF, VT, FF, CR and SPACE. *)
Definition isWhiteSpace (c : ascii) : bool :=
  let n := nat_of_ascii c in
  (9 <=? n)%nat && (n <=? 13)%nat || (n =? 32)%nat.

Fixpoint trimStart (s : string) : string :=
  match s with
  | EmptyString => EmptyString
  | String c r => if isWhiteSpace c then trimStart r else s
  end.

Fixpoint trimEnd (s : string) : string :=
  match s with
  | EmptyString => EmptyString
  | String c r =>
      match trimEnd r with
      | EmptyString => if isWhiteSpace c then EmptyString else String c EmptyString
      | r' => String c r'
      end
  end.

Definition trim (s : string) : string := trimEnd (trimStart s).

End Js.
Export Js.

(* ===================================================================== *)
(** ** HTTP as seen through [fetch]                                       *)
(* ===================================================================== *)

Module Http.

(** A JSON object; [JSON.stringify] on the way out and the parser on the
    way in are taken to be inverse, so a body is the object itself. *)
Abbreviation Json := (gmap string JsVal).

Record Request : Type := mkRequest {
  req_method : string;
  req_url : string;                       (* the path after API_BASE *)
  req_headers : gmap string string;
  req_body : option Json
}.

(** What [await response.json()] finds. *)
Inductive Body : Type :=
| BodyInvalid                 (* not JSON: response.json() rejects *)
| BodyNull                    (* JSON null: reading a property throws *)
| BodyOther                   (* number, string, boolean, array: every field read is undefined *)
| BodyObject (o : Json).

Record Response : Type := mkResponse {
  status : Z;
  body : Body
}.

(** response.ok *)
Definition ok (r : Response) : bool := (200 <=? status r)%Z && (status r <=? 299)%Z.

(** How the promise returned by [fetch] settles. *)
Inductive Outcome : Type :=
| Responded (r : Response)
| Rejected (e : string).

End Http.
Export Http.

(* ===================================================================== *)
(** ** The page: [state], the DOM elements the script touches, the window *)
(* ===================================================================== *)

Module Page.

(** const state = { ... } *)
Record AppState : Type := mkAppState {
  selectedFilePath : JsVal;
  lastCID : JsVal;
  isWalletVerified : bool;
  authToken : JsVal;
  username : JsVal
}.

(** The properties of [loginElements] and [elements] that the modelled
    functions assign, and the credential modals appended to the body. *)
Record Dom : Type := mkDom {
  loginScreen_display : string;       (* loginElements.loginScreen.style.display *)
  mainApp_display : string;           (* loginElements.mainApp.style.display *)
  usernameInput_value : string;
  passwordInput_value : string;
  loginResult_textContent : string;
  loginResult_className : string;
  userInfo_textContent : string;
  ipfsStatus : option bool;           (* Some true: 'Connected'; None: never updated *)
  solanaStatus : option bool;
  modals : list (string * string);    (* username and password rendered in each modal *)
  mainListeners : bool                (* setupEventListeners has run *)
}.

Record Store : Type := mkStore {
  state : AppState;
  dom : Dom;
  localStorage : gmap string string;
  alerts : list string;               (* alert(...) *)
  consoleErrors : list string;        (* console.error(...) *)
  reloads : nat                       (* window.location.reload() *)
}.

Definition upd_state (f : AppState -> AppState) (s : Store) : Store :=
  mkStore (f (state s)) (dom s) (localStorage s) (alerts s) (consoleErrors s) (reloads s).
Definition upd_dom (f : Dom -> Dom) (s : Store) : Store :=
  mkStore (state s) (f (dom s)) (localStorage s) (alerts s) (consoleErrors s) (reloads s).
Definition upd_localStorage (f : gmap string string -> gmap string string) (s : Store) : Store :=
  mkStore (state s) (dom s) (f (localStorage s)) (alerts s) (consoleErrors s) (reloads s).

Definition set_authToken (v : JsVal) (a : AppState) : AppState :=
  mkAppState (selectedFilePath a) (lastCID a) (isWalletVerified a) v (username a).
Definition set_username (v : JsVal) (a : AppState) : AppState :=
  mkAppState (selectedFilePath a) (lastCID a) (isWalletVerified a) (authToken a) v.

Definition set_loginScreen_display (v : string) (d : Dom) : Dom :=
  mkDom v (mainApp_display d) (usernameInput_value d) (passwordInput_value d)
    (loginResult_textContent d) (loginResult_className d) (userInfo_textContent d)
    (ipfsStatus d) (solanaStatus d) (modals d) (mainListeners d).
Definition set_mainApp_display (v : string) (d : Dom) : Dom :=
  mkDom (loginScreen_display d) v (usernameInput_value d) (passwordInput_value d)
    (loginResult_textContent d) (loginResult_className d) (userInfo_textContent d)
    (ipfsStatus d) (solanaStatus d) (modals d) (mainListeners d).
Definition set_usernameInput_value (v : string) (d : Dom) : Dom :=
  mkDom (loginScreen_display d) (mainApp_display d) v (passwordInput_value d)
    (loginResult_textContent d) (loginResult_className d) (userInfo_textContent d)
    (ipfsStatus d) (solanaStatus d) (modals d) (mainListeners d).
Definition set_passwordInput_value (v : string) (d : Dom) : Dom :=
  mkDom (loginScreen_display d) (mainApp_display d) (usernameInput_value d) v
    (loginResult_textContent d) (loginResult_className d) (userInfo_textContent d)
    (ipfsStatus d) (solanaStatus d) (modals d) (mainListeners d).
Definition set_loginResult_textContent (v : string) (d : Dom) : Dom :=
  mkDom (loginScreen_display d) (mainApp_display d) (usernameInput_value d) (passwordInput_value d)
    v (loginResult_className d) (userInfo_textContent d)
    (ipfsStatus d) (solanaStatus d) (modals d) (mainListeners d).
Definition set_loginResult_className (v : string) (d : Dom) : Dom :=
  mkDom (loginScreen_display d) (mainApp_display d) (usernameInput_value d) (passwordInput_value d)
    (loginResult_textContent d) v (userInfo_textContent d)
    (ipfsStatus d) (solanaStatus d) (modals d) (mainListeners d).
Definition set_userInfo_textContent (v : string) (d : Dom) : Dom :=
  mkDom (loginScreen_display d) (mainApp_display d) (usernameInput_value d) (passwordInput_value d)
    (loginResult_textContent d) (loginResult_className d) v
    (ipfsStatus d) (solanaStatus d) (modals d) (mainListeners d).
Definition set_ipfsStatus (v : option bool) (d : Dom) : Dom :=
  mkDom (loginScreen_display d) (mainApp_display d) (usernameInput_value d) (passwordInput_value d)
    (loginResult_textContent d) (loginResult_className d) (userInfo_textContent d)
    v (solanaStatus d) (modals d) (mainListeners d).
Definition set_solanaStatus (v : option bool) (d : Dom) : Dom :=
  mkDom (loginScreen_display d) (mainApp_display d) (usernameInput_value d) (passwordInput_value d)
    (loginResult_textContent d) (loginResult_className d) (userInfo_textContent d)
    (ipfsStatus d) v (modals d) (mainListeners d).
Definition set_modals (v : list (string * string)) (d : Dom) : Dom :=
  mkDom (loginScreen_display d) (mainApp_display d) (usernameInput_value d) (passwordInput_value d)
    (loginResult_textContent d) (loginResult_className d) (userInfo_textContent d)
    (ipfsStatus d) (solanaStatus d) v (mainListeners d).
Definition set_mainListeners (v : bool) (d : Dom) : Dom :=
  mkDom (loginScreen_display d) (mainApp_display d) (usernameInput_value d) (passwordInput_value d)
    (loginResult_textContent d) (loginResult_className d) (userInfo_textContent d)
    (ipfsStatus d) (solanaStatus d) (modals d) v.

(** The page as the script finds it when it is loaded: [state] as in its
    initialiser, the DOM as the markup has it, local storage as the
    previous pages left it. *)
Definition initialState : AppState := mkAppState JNull JNull false JNull JNull.
Definition initialDom : Dom := mkDom "" "" "" "" "" "" "" None None [] false.
Definition freshPage (ls : gmap string string) : Store :=
  mkStore initialState initialDom ls [] [] 0.

(** The login screen is the one on display / the main application is. *)
Definition loginShown (s : Store) : Prop :=
  loginScreen_display (dom s) = "flex" /\ mainApp_display (dom s) = "none".
Definition mainAppShown (s : Store) : Prop :=
  loginScreen_display (dom s) = "none" /\ mainApp_display (dom s) = "block".

(** Token, user name and both stored keys are gone. *)
Definition sessionCleared (s : Store) : Prop :=
  authToken (state s) = JNull /\ username (state s) = JNull /\
  localStorage s !! "authToken" = None /\ localStorage s !! "username" = None.

End Page.
Export Page.

(* ===================================================================== *)
(** ** Asynchronous functions as resumptions                              *)
(* ===================================================================== *)

Module Async.

(** The body of an [async] function.  [Fetch] is [await fetch(...)]: the
    function is suspended, and everything after it runs against the store
    of the moment the request settles.  [Spawn child k] is a call [child()]
    whose promise is dropped: [child] runs up to its first [await], then
    [k] goes on. *)
Inductive Proc (A : Type) : Type :=
| Ret (a : A)
| Throw (e : string)
| Get (k : Store -> Proc A)
| Put (s : Store) (k : Proc A)
| Fetch (req : Request) (k : Outcome -> Proc A)
| Spawn (child : Proc unit) (k : Proc A).

Arguments Ret {A} a.
Arguments Throw {A} e.
Arguments Get {A} k.
Arguments Put {A} s k.
Arguments Fetch {A} req k.
Arguments Spawn {A} child k.

Fixpoint bind {A B : Type} (p : Proc A) (f : A -> Proc B) : Proc B :=
  match p with
  | Ret a => f a
  | Throw e => Throw e
  | Get k => Get (fun s => bind (k s) f)
  | Put s k => Put s (bind k f)
  | Fetch req k => Fetch req (fun o => bind (k o) f)
  | Spawn child k => Spawn child (bind k f)
  end.

#[global] Instance Proc_ret : MRet Proc := @Ret.
#[global] Instance Proc_bind : MBind Proc := fun A B f p => bind p f.

(** try { p } catch (error) { h error }: an exception of a spawned call is
    not the caller's. *)
Fixpoint try_catch {A : Type} (p : Proc A) (h : string -> Proc A) : Proc A :=
  match p with
  | Ret a => Ret a
  | Throw e => h e
  | Get k => Get (fun s => try_catch (k s) h)
  | Put s k => Put s (try_catch k h)
  | Fetch req k => Fetch req (fun o => try_catch (k o) h)
  | Spawn child k => Spawn child (try_catch k h)
  end.

Definition gets {A : Type} (f : Store -> A) : Proc A := Get (fun s => Ret (f s)).
Definition modify (f : Store -> Store) : Proc unit := Get (fun s => Put (f s) (Ret tt)).

(** [await fetch(...)]: the response, or the rejection thrown. *)
Definition fetch (req : Request) : Proc Response :=
  Fetch req (fun o => match o with Responded r => Ret r | Rejected e => Throw e end).

(** [await response.json()] *)
Definition response_json (r : Response) : Proc Body :=
  match body r with
  | BodyInvalid => Throw "SyntaxError"
  | b => Ret b
  end.

(** [data.key] *)
Definition prop (data : Body) (key : string) : Proc JsVal :=
  match data with
  | BodyObject o => Ret (default JUndefined (o !! key))
  | BodyOther => Ret JUndefined
  | BodyNull | BodyInvalid => Throw "TypeError"
  end.

(** How a call ended. *)
Inductive Completion (A : Type) : Type :=
| Returned (a : A)
| Thrown (e : string).
Arguments Returned {A} a.
Arguments Thrown {A} e.

(** A request in flight together with what its settling resumes. *)
Abbreviation Pending := (Request * (Outcome -> Proc unit))%type.

(** One turn of a function: it runs until it ends or suspends at a request.
    [bg] are the suspended calls it has spawned meanwhile. *)
Inductive Step (A : Type) : Type :=
| Finished (c : Completion A) (s : Store) (bg : list Pending)
| Blocked (req : Request) (k : Outcome -> Proc A) (s : Store) (bg : list Pending).
Arguments Finished {A} c s bg.
Arguments Blocked {A} req k s bg.

Definition step_store {A : Type} (t : Step A) : Store :=
  match t with Finished _ s _ | Blocked _ _ s _ => s end.
Definition step_bg {A : Type} (t : Step A) : list Pending :=
  match t with Finished _ _ bg | Blocked _ _ _ bg => bg end.
(** the requests a turn has put in flight, its own last *)
Definition step_requests {A : Type} (t : Step A) : list Request :=
  match t with
  | Finished _ _ bg => fst <$> bg
  | Blocked req _ _ bg => (fst <$> bg) ++ [req]
  end.
Definition add_bg {A : Type} (bg0 : list Pending) (t : Step A) : Step A :=
  match t with
  | Finished c s bg => Finished c s (bg0 ++ bg)
  | Blocked req k s bg => Blocked req k s (bg0 ++ bg)
  end.
(** a spawned call that suspended stays behind as a pending request *)
Definition detach (t : Step unit) : list Pending :=
  match t with
  | Finished _ _ bg => bg
  | Blocked req k _ bg => bg ++ [(req, k)]
  end.

(** what a suspended turn goes on with when its request settles *)
Definition resumption {A : Type} (t : Step A) : Outcome -> Proc A :=
  match t with
  | Blocked _ k _ _ => k
  | Finished (Returned a) _ _ => fun _ => Ret a
  | Finished (Thrown e) _ _ => fun _ => Throw e
  end.

Fixpoint run {A : Type} (p : Proc A) (s : Store) : Step A :=
  match p with
  | Ret a => Finished (Returned a) s []
  | Throw e => Finished (Thrown e) s []
  | Get k => run (k s) s
  | Put s' k => run k s'
  | Fetch req k => Blocked req k s []
  | Spawn child k =>
      let t := run child s in
      add_bg (detach t) (run k (step_store t))
  end.

(** The event loop: the page and the requests in flight. *)
Record Machine : Type := mkMachine {
  store : Store;
  pending : list Pending
}.

(** The browser calls an event handler (or resumes a suspended call). *)
Definition dispatch (h : Proc unit) (m : Machine) : Machine :=
  let t := run h (store m) in
  mkMachine (step_store t) (pending m ++ detach t).

(** The [i]-th request in flight settles. *)
Definition settle (i : nat) (o : Outcome) (m : Machine) : Machine :=
  match pending m !! i with
  | Some (_, k) => dispatch (k o) (mkMachine (store m) (delete i (pending m)))
  | None => m
  end.

End Async.
Export Async.

(* ===================================================================== *)
(** ** The frontend script                                                *)
(* ===================================================================== *)

Module Frontend.

(** *** Browser interfaces *)

Definition localStorage_getItem (key : string) : Proc JsVal :=
  gets (fun s => match localStorage s !! key with
                 | Some v => JStr v
                 | None => JNull
                 end).

Definition localStorage_setItem (key : string) (v : JsVal) : Proc unit :=
  modify (upd_localStorage (insert key (toString v))).

Definition localStorage_removeItem (key : string) : Proc unit :=
  modify (upd_localStorage (delete key)).

Definition console_error (label e : string) : Proc unit :=
  modify (fun s => mkStore (state s) (dom s) (localStorage s) (alerts s)
                     (consoleErrors s ++ [label +:+ " " +:+ e]) (reloads s)).

Definition alert (msg : string) : Proc unit :=
  modify (fun s => mkStore (state s) (dom s) (localStorage s) (alerts s ++ [msg])
                     (consoleErrors s) (reloads s)).

Definition location_reload : Proc unit :=
  modify (fun s => mkStore (state s) (dom s) (localStorage s) (alerts s)
                     (consoleErrors s) (S (reloads s))).

(** *** Screens *)

(** function showLoginError(message) *)
Definition showLoginError (message : string) : Proc unit :=
  modify (upd_dom (set_loginResult_textContent message));;
  modify (upd_dom (set_loginResult_className "login-result error")).

(** function updateStatus(element, isConnected), on one of the two status
    indicators *)
Definition updateStatus (element : option bool -> Dom -> Dom) (isConnected : JsVal) : Proc unit :=
  modify (upd_dom (element (Some (truthy isConnected)))).

Definition healthRequest : Request := mkRequest "GET" "/health" ∅ None.

(** async function checkHealth() *)
Definition checkHealth : Proc unit :=
  try_catch
    (response ← fetch healthRequest;
     data ← response_json response;
     ipfs_connected ← prop data "ipfs_connected";
     updateStatus set_ipfsStatus ipfs_connected;;
     solana_connected ← prop data "solana_connected";
     updateStatus set_solanaStatus solana_connected)
    (fun error =>
       console_error "Health check failed:" error;;
       updateStatus set_ipfsStatus (JBool false);;
       updateStatus set_solanaStatus (JBool false)).

(** [checkHealth] from its [await fetch] on *)
Definition checkHealth_resumed : Outcome -> Proc unit :=
  resumption (run checkHealth (freshPage ∅)).

(** function setupEventListeners(): the buttons of the main application get
    their handlers *)
Definition setupEventListeners : Proc unit :=
  modify (upd_dom (set_mainListeners true)).

(** function showMainApp() *)
Definition showMainApp : Proc unit :=
  modify (upd_dom (set_loginScreen_display "none"));;
  modify (upd_dom (set_mainApp_display "block"));;
  name ← gets (fun s => username (state s));
  modify (upd_dom (set_userInfo_textContent ("Logged in as: " +:+ toString name)));;
  setupEventListeners;;
  Spawn checkHealth (Ret tt).

(** function showLoginScreen() *)
Definition showLoginScreen : Proc unit :=
  modify (upd_dom (set_loginScreen_display "flex"));;
  modify (upd_dom (set_mainApp_display "none"));;
  modify (upd_dom (set_usernameInput_value ""));;
  modify (upd_dom (set_passwordInput_value ""));;
  modify (upd_dom (set_loginResult_className "login-result")).

(** *** Session *)

(** function checkExistingSession() *)
Definition checkExistingSession : Proc unit :=
  token ← localStorage_getItem "authToken";
  name ← localStorage_getItem "username";
  if truthy token && truthy name then
    modify (upd_state (set_authToken token));;
    modify (upd_state (set_username name));;
    showMainApp
  else Ret tt.

Definition loginRequest (name password : string) : Request :=
  mkRequest "POST" "/auth/login" {[ "Content-Type" := "application/json" ]}
    (Some {[ "username" := JStr name; "password" := JStr password ]}).

(** async function handleLogin(e) *)
Definition handleLogin : Proc unit :=
  name ← gets (fun s => trim (usernameInput_value (dom s)));
  password ← gets (fun s => passwordInput_value (dom s));
  if String.eqb name "" || String.eqb password "" then
    showLoginError "Please enter username and password"
  else
    try_catch
      (response ← fetch (loginRequest name password);
       data ← response_json response;
       success ← prop data "success";
       if truthy success then
         token ← prop data "token";
         modify (upd_state (set_authToken token));;
         uname ← prop data "username";
         modify (upd_state (set_username uname));;
         localStorage_setItem "authToken" token;;
         localStorage_setItem "username" uname;;
         showMainApp
       else
         error ← prop data "error";
         showLoginError (toString (js_or error (JStr "Login failed"))))
      (fun error =>
         console_error "Login error:" error;;
         showLoginError "Connection error. Please check if the server is running.").

Definition logoutRequest (token : JsVal) : Request :=
  mkRequest "POST" "/auth/logout" {[ "Authorization" := "Bearer " +:+ toString token ]} None.

(** async function handleLogout() *)
Definition handleLogout : Proc unit :=
  try_catch
    (token ← gets (fun s => authToken (state s));
     if truthy token then
       _ ← fetch (logoutRequest token); Ret tt
     else Ret tt)
    (fun error => console_error "Logout error:" error);;
  modify (upd_state (set_authToken JNull));;
  modify (upd_state (set_username JNull));;
  localStorage_removeItem "authToken";;
  localStorage_removeItem "username";;
  showLoginScreen.

(** The [options] argument of [apiRequest]. *)
Record Options : Type := mkOptions {
  opt_method : option string;
  opt_headers : gmap string string;
  opt_body : option Json
}.

Definition apiHeaders (token : JsVal) (options : Options) : gmap string string :=
  let headers := opt_headers options ∪ {[ "Content-Type" := "application/json" ]} in
  if truthy token then <[ "Authorization" := "Bearer " +:+ toString token ]> headers
  else headers.

(** async function apiRequest(endpoint, options = {}) *)
Definition apiRequest (endpoint : string) (options : Options) : Proc Response :=
  token ← gets (fun s => authToken (state s));
  response ← fetch (mkRequest (default "GET" (opt_method options)) endpoint
                      (apiHeaders token options) (opt_body options));
  if (status response =? 401)%Z then
    Spawn handleLogout (Throw "Session expired. Please login again.")
  else Ret response.

(** *** First start and reset (second revision) *)

(** function showFirstTimeCredentials(username, password) *)
Definition showFirstTimeCredentials (name password : JsVal) : Proc unit :=
  modify (upd_dom (fun d => set_modals (modals d ++ [(toString name, toString password)]) d));;
  modify (upd_dom (set_usernameInput_value (toString name)));;
  modify (upd_dom (set_passwordInput_value (toString password))).

Definition firstTimeRequest : Request := mkRequest "GET" "/auth/first-time-check" ∅ None.

(** async function checkFirstTimeSetup() *)
Definition checkFirstTimeSetup : Proc unit :=
  try_catch
    (response ← fetch firstTimeRequest;
     data ← response_json response;
     is_first_time ← prop data "is_first_time";
     if truthy is_first_time then
       name ← prop data "username";
       if truthy name then
         password ← prop data "password";
         if truthy password then showFirstTimeCredentials name password
         else Ret tt
       else Ret tt
     else Ret tt)
    (fun error => console_error "First-time check failed:" error).

(** [checkFirstTimeSetup] from its [await fetch] on *)
Definition checkFirstTimeSetup_resumed : Outcome -> Proc unit :=
  resumption (run checkFirstTimeSetup (freshPage ∅)).

Definition resetRequest : Request := mkRequest "POST" "/auth/reset-application" ∅ None.

(** async function resetApplication(): its [try] statement, reached once the
    dialogs are passed *)
Definition resetApplication_confirmed : Proc unit :=
  try_catch
    (response ← fetch resetRequest;
     data ← response_json response;
     success ← prop data "success";
     if truthy success then
       alert "Application reset successful!

New credentials will be shown in a moment.

Please reload the page.";;
       location_reload
     else
       error ← prop data "error";
       alert ("Reset failed: " +:+ toString (js_or error (JStr "Unknown error"))))
    (fun error =>
       console_error "Reset error:" error;;
       alert ("Reset failed: " +:+ error)).

(** async function resetApplication(), with the answers the user gives to
    the two [confirm] dialogs and to the [prompt] ([None]: cancelled) *)
Definition resetApplication (confirmed doubleConfirmed : bool) (finalCheck : option string)
  : Proc unit :=
  if negb confirmed then Ret tt
  else if negb doubleConfirmed then Ret tt
  else if negb (bool_decide (finalCheck = Some "RESET"%string)) then alert "Reset cancelled."
  else resetApplication_confirmed.

(** [resetApplication] from its [await fetch] on *)
Definition resetApplication_resumed : Outcome -> Proc unit :=
  resumption (run resetApplication_confirmed (freshPage ∅)).

(** function setupLoginListeners(): registers [handleLogin], [handleLogout]
    and [resetApplication] as handlers; calling them is the event loop's
    part.  (The five clicks on the logo that uncover the reset button only
    change what is visible.) *)
Definition setupLoginListeners : Proc unit := Ret tt.

(** async function init() *)
Definition init : Proc unit :=
  setupLoginListeners;;
  checkFirstTimeSetup;;
  checkExistingSession.

(** [init] from the [await fetch] of [checkFirstTimeSetup] on *)
Definition init_resumed : Outcome -> Proc unit :=
  resumption (run init (freshPage ∅)).


End Frontend.
Export Frontend.

(* ===================================================================== *)
(** ** formatBytes                                                        *)
(* ===================================================================== *)

Module Format.

(** Numbers are taken exactly: a byte count is a natural number, and the
    logarithms, quotients and roundings of [formatBytes] are those of the
    reals, not of double precision. *)

(** const sizes = ['Bytes', 'KB', 'MB', 'GB'] *)
Definition sizes : list string := ["Bytes"; "KB"; "MB"; "GB"]%string.

(** const k = 1024 *)
Definition k : N := 1024.

(** const i = Math.floor(Math.log(bytes) / Math.log(k)), the logarithms and
    the quotient taken exactly: the largest [i] with [k ^ i <= bytes]
    (see [unitIndex_floor]). *)
Definition unitIndex (bytes : N) : N := (N.log2 bytes / 10)%N.

(** sizes[i], as the string concatenation renders it *)
Definition unitName (i : N) : string :=
  match sizes !! N.to_nat i with
  | Some u => u
  | None => "undefined"
  end.

(** parseFloat((bytes / Math.pow(k, i)).toFixed(2)) as the concatenation
    renders it: the quotient rounded to hundredths, half up, written without
    trailing zeros. *)
Definition hundredths (bytes i : N) : N := ((200 * bytes + k ^ i) / (2 * k ^ i))%N.

Definition renderHundredths (n : N) : string :=
  let whole := pretty (n / 100)%N in
  let frac := (n mod 100)%N in
  if (frac =? 0)%N then whole
  else if (frac mod 10 =? 0)%N then whole +:+ "." +:+ pretty (frac / 10)%N
  else whole +:+ "." +:+ pretty (frac / 10)%N +:+ pretty (frac mod 10)%N.

(** function formatBytes(bytes), for a byte count *)
Definition formatBytes (bytes : N) : string :=
  if (bytes =? 0)%N then "0 Bytes"
  else
    let i := unitIndex bytes in
    renderHundredths (hundredths bytes i) +:+ " " +:+ unitName i.

(** [s] ends in [suffix] *)
Definition endsWith (s suffix : string) : Prop := exists p : string, s = p +:+ suffix.

End Format.
Export Format.

(* ===================================================================== *)
(** ** The authentication core of the backend                             *)
(* ===================================================================== *)

Module Backend.

(** Modelled from the spec: the Password Hasher (section 4.2), whose code is
    not among the sources.  [hash] takes the salt it draws as an argument;
    [verify] recomputes from the salt embedded in the digest. *)
Class PasswordHasher : Type := {
  Digest : Type;
  hash : string -> string -> Digest;
  verify : string -> Digest -> bool;
  verify_hash : forall salt plaintext, verify plaintext (hash salt plaintext) = true
}.

(** Modelled from the spec: the error taxonomy of section 7. *)
Inductive AuthError : Type :=
| InvalidCredentials
| LockedOut (retry_after : Z)
| Unauthorized
| AlreadyProvisioned.

(** Modelled from the spec: what an operation of the gateway answers, a
    value or one of these errors. *)
Inductive Result (A : Type) : Type :=
| Ok (a : A)
| Err (e : AuthError).
Arguments Ok {A} a.
Arguments Err {A} e.

(** Modelled from the spec: the values the backend draws from its random
    source: a session token, and the user name, password and salt of a
    bootstrap. *)
Record Entropy : Type := mkEntropy {
  rnd_token : string;
  rnd_username : string;
  rnd_password : string;
  rnd_salt : string
}.

(** Modelled from the spec: the threshold and the two durations, in seconds
    (sections 3 and 4.3). *)
Definition threshold : nat := 5.
Definition lockout_duration : Z := 15 * 60.
Definition fixed_ttl : Z := 24 * 60 * 60.

(** Modelled from the spec: LoginAttemptCounter (section 3). *)
Record LoginAttemptCounter : Type := mkCounter {
  failure_count : nat;
  locked_until : option Z
}.

(** Modelled from the spec: Session (section 3); the token is the key of
    the session table. *)
Record Session : Type := mkSession {
  session_username : string;
  issued_at : Z;
  expires_at : Z
}.

Section WithHasher.
Context `{PasswordHasher}.

(** Modelled from the spec: Identity (section 3). *)
Record Identity : Type := mkIdentity {
  identity_username : string;
  password_hash : Digest;
  created_at : Z
}.

(** Modelled from the spec: the process-wide state owned by the Auth
    Gateway (section 3): the credential store, the counters, the session
    table, and the plaintext pair of a bootstrap for as long as it has not
    been handed out. *)
Record Server : Type := mkServer {
  identity : option Identity;
  counters : gmap string LoginAttemptCounter;
  sessions : gmap string Session;
  unshown : option (string * string)
}.

(** Modelled from the spec: the counter of an identity; one that has never
    failed has failure_count 0 and no locked_until. *)
Definition counter (who : string) (srv : Server) : LoginAttemptCounter :=
  default (mkCounter 0 None) (counters srv !! who).

(** Modelled from the spec: writing one counter, respectively the session
    table, of the process-wide state. *)
Definition set_counter (who : string) (c : LoginAttemptCounter) (srv : Server) : Server :=
  mkServer (identity srv) (<[who := c]> (counters srv)) (sessions srv) (unshown srv).

Definition set_sessions (t : gmap string Session) (srv : Server) : Server :=
  mkServer (identity srv) (counters srv) t (unshown srv).

(** Modelled from the spec: Rate Limiter (section 4.3), record_failure. *)
Definition record_failure (who : string) (now : Z) (srv : Server) : Server :=
  let c := counter who srv in
  let n := S (failure_count c) in
  if (threshold <=? n)%nat
  then set_counter who (mkCounter 0 (Some (now + lockout_duration)%Z)) srv
  else set_counter who (mkCounter n (locked_until c)) srv.

(** Modelled from the spec: Rate Limiter (section 4.3), record_success. *)
Definition record_success (who : string) (srv : Server) : Server :=
  set_counter who (mkCounter 0 None) srv.

(** Modelled from the spec: Rate Limiter (section 4.3), is_locked: true iff
    locked_until is set and in the future. *)
Definition is_locked (who : string) (now : Z) (srv : Server) : bool :=
  match locked_until (counter who srv) with
  | Some t => (now <? t)%Z
  | None => false
  end.

(** Modelled from the spec: Session Manager (section 4.4), issue, with the
    token it draws. *)
Definition issue (who : string) (now : Z) (token : string) (srv : Server) : Server :=
  set_sessions (<[token := mkSession who now (now + fixed_ttl)%Z]> (sessions srv)) srv.

(** Modelled from the spec: Session Manager (section 4.4), validate; an
    expired session is purged when it is met. *)
Definition validate (token : string) (now : Z) (srv : Server) : Server * Result string :=
  match sessions srv !! token with
  | None => (srv, Err Unauthorized)
  | Some sess =>
      if (expires_at sess <=? now)%Z
      then (set_sessions (delete token (sessions srv)) srv, Err Unauthorized)
      else (srv, Ok (session_username sess))
  end.

(** Modelled from the spec: Session Manager (section 4.4), revoke. *)
Definition revoke (token : string) (srv : Server) : Server :=
  set_sessions (delete token (sessions srv)) srv.

(** Modelled from the spec: Bootstrap Generator (section 4.1): the hash is
    stored, the plaintext pair is kept to be handed out once. *)
Definition bootstrap (now : Z) (e : Entropy) (srv : Server) : Server * Result (string * string) :=
  match identity srv with
  | Some _ => (srv, Err AlreadyProvisioned)
  | None =>
      (mkServer (Some (mkIdentity (rnd_username e) (hash (rnd_salt e) (rnd_password e)) now))
         (counters srv) (sessions srv) (Some (rnd_username e, rnd_password e)),
       Ok (rnd_username e, rnd_password e))
  end.

(** Modelled from the spec: the credentials are those of the Identity. *)
Definition credentials_ok (who password : string) (srv : Server) : bool :=
  match identity srv with
  | Some id => String.eqb who (identity_username id) && verify password (password_hash id)
  | None => false
  end.

(** Modelled from the spec: Auth Gateway (section 4.5), login: the lockout
    check comes before any verification. *)
Definition login (who password : string) (now : Z) (e : Entropy) (srv : Server)
  : Server * Result string :=
  if is_locked who now srv then
    (srv, Err (LockedOut (default 0%Z (locked_until (counter who srv)) - now)))
  else if credentials_ok who password srv then
    (issue who now (rnd_token e) (record_success who srv), Ok (rnd_token e))
  else
    (record_failure who now srv, Err InvalidCredentials).

(** Modelled from the spec: Auth Gateway (section 4.5), logout. *)
Definition logout (token : string) (srv : Server) : Server := revoke token srv.

(** Modelled from the spec: Auth Gateway (section 4.5), authenticate. *)
Definition authenticate (token : string) (now : Z) (srv : Server) : Server * Result string :=
  validate token now srv.

(** Modelled from the spec: Auth Gateway (section 4.5), reset: the Identity
    and all Sessions are destroyed and the Bootstrap Generator runs again. *)
Definition reset (now : Z) (e : Entropy) (srv : Server) : Server * Result (string * string) :=
  bootstrap now e (mkServer None (counters srv) ∅ None).

(** Modelled from the spec: GET /auth/first-time-check (section 6): the
    plaintext pair is returned once. *)
Definition first_time_check (srv : Server) : Server * option (string * string) :=
  (mkServer (identity srv) (counters srv) (sessions srv) None, unshown srv).

(** Modelled from the spec: an installation that has never been started. *)
Definition emptyServer : Server := mkServer None ∅ ∅ None.

(** Modelled from the spec: a start: the Bootstrap Generator runs if no
    Identity exists. *)
Definition startup (now : Z) (e : Entropy) (srv : Server) : Server :=
  match identity srv with
  | Some _ => srv
  | None => fst (bootstrap now e srv)
  end.

(** Modelled from the spec: what reaches the gateway, one request at a
    time. *)
Inductive Op : Type :=
| OpLogin (who password : string)
| OpLogout (token : string)
| OpAuthenticate (token : string)
| OpFirstTimeCheck
| OpReset.

(** Modelled from the spec: the state the gateway is left in by a request
    served at time [now] with the draws [e]. *)
Definition apply (op : Op) (now : Z) (e : Entropy) (srv : Server) : Server :=
  match op with
  | OpLogin who password => fst (login who password now e srv)
  | OpLogout token => logout token srv
  | OpAuthenticate token => fst (authenticate token now srv)
  | OpFirstTimeCheck => fst (first_time_check srv)
  | OpReset => fst (reset now e srv)
  end.

(** Modelled from the spec: a history of requests, each with the time it
    arrives at and the draws it may consume. *)
Fixpoint applyAll (ops : list (Op * Z * Entropy)) (srv : Server) : Server :=
  match ops with
  | [] => srv
  | (op, now, e) :: rest => applyAll rest (apply op now e srv)
  end.

(** Modelled from the spec: one login attempt after the other for the same
    identity, each with its password, its time and its draws; the answers
    are collected. *)
Fixpoint attempts (who : string) (tries : list (string * Z * Entropy)) (srv : Server)
  : Server * list (Result string) :=
  match tries with
  | [] => (srv, [])
  | (password, now, e) :: rest =>
      let '(srv1, r) := login who password now e srv in
      let '(srv2, rs) := attempts who rest srv1 in
      (srv2, r :: rs)
  end.


(** [op] neither revokes [token], nor issues it anew, nor resets. *)
Definition keeps (token : string) (opd : Op * Z * Entropy) : Prop :=
  match opd with
  | (OpLogout t, _, _) => t <> token
  | (OpLogin _ _, _, e) => rnd_token e <> token
  | (OpReset, _, _) => False
  | (OpAuthenticate _, _, _) | (OpFirstTimeCheck, _, _) => True
  end.

End WithHasher.

(** Modelled from the spec: a Password Hasher to run the model on; its
    digest keeps salt and plaintext. *)
Definition plainHasher : PasswordHasher :=
  {| Digest := string * string;
     hash := fun salt plaintext => (salt, plaintext);
     verify := fun plaintext d => String.eqb plaintext (snd d);
     verify_hash := fun _ plaintext => String.eqb_refl plaintext |}.

End Backend.

(* ===================================================================== *)
(** ** Page and backend together                                          *)
(* ===================================================================== *)

Module System.
Import Backend.

(** [s] without its prefix [p] *)
Fixpoint strip_prefix (p s : string) : option string :=
  match p, s with
  | EmptyString, _ => Some s
  | String a p', String b s' => if Ascii.eqb a b then strip_prefix p' s' else None
  | String _ _, EmptyString => None
  end.

(** Modelled from the spec: the token of an [Authorization: Bearer <token>]
    header (section 6). *)
Definition bearer (req : Request) : option string :=
  req_headers req !! "Authorization" ≫= strip_prefix "Bearer ".

(** Modelled from the spec: a string field of a request body. *)
Definition field (req : Request) (key : string) : option string :=
  match req_body req with
  | Some o => match o !! key with Some (JStr v) => Some v | _ => None end
  | None => None
  end.

(** Modelled from the spec: Unauthorized is surfaced as HTTP 401 (section
    7). *)
Definition unauthorized : Response :=
  mkResponse 401 (BodyObject {[ "error" := JStr "Unauthorized" ]}).

(** Modelled from the spec: the endpoints that require a bearer token
    (section 6). *)
Definition isProtected (url : string) : bool :=
  bool_decide (is_Some (strip_prefix "/ipfs/" url)) ||
  bool_decide (is_Some (strip_prefix "/solana/" url)).

Section WithHasher.
Context `{PasswordHasher}.

(** Modelled from the spec: the HTTP surface of the Auth Gateway (section
    6).  The spec fixes the bodies; a refused login is given status 401, which
    the frontend does not read.  What lies behind the guard of the protected
    endpoints belongs to the external collaborators: its answer is left
    empty. *)
Definition serve (now : Z) (e : Entropy) (req : Request) (srv : Server) : Server * Response :=
  if bool_decide (req_url req = "/auth/login") then
    match field req "username", field req "password" with
    | Some who, Some password =>
        match login who password now e srv with
        | (srv', Ok token) =>
            (srv', mkResponse 200 (BodyObject {[ "success" := JBool true;
                                                 "token" := JStr token;
                                                 "username" := JStr who ]}))
        | (srv', Err (LockedOut _)) =>
            (srv', mkResponse 401 (BodyObject {[ "success" := JBool false;
                                                 "error" := JStr "Too many failed attempts" ]}))
        | (srv', Err _) =>
            (srv', mkResponse 401 (BodyObject {[ "success" := JBool false;
                                                 "error" := JStr "Invalid credentials" ]}))
        end
    | _, _ => (srv, mkResponse 400 (BodyObject {[ "success" := JBool false;
                                                  "error" := JStr "Bad request" ]}))
    end
  else if bool_decide (req_url req = "/auth/logout") then
    match bearer req with
    | Some token => (logout token srv, mkResponse 200 (BodyObject {[ "success" := JBool true ]}))
    | None => (srv, mkResponse 200 (BodyObject {[ "success" := JBool true ]}))
    end
  else if bool_decide (req_url req = "/auth/first-time-check") then
    match first_time_check srv with
    | (srv', Some (name, password)) =>
        (srv', mkResponse 200 (BodyObject {[ "is_first_time" := JBool true;
                                             "username" := JStr name;
                                             "password" := JStr password ]}))
    | (srv', None) => (srv', mkResponse 200 (BodyObject {[ "is_first_time" := JBool false ]}))
    end
  else if bool_decide (req_url req = "/auth/reset-application") then
    (fst (reset now e srv), mkResponse 200 (BodyObject {[ "success" := JBool true ]}))
  else if isProtected (req_url req) then
    match bearer req with
    | Some token =>
        match authenticate token now srv with
        | (srv', Ok _) => (srv', mkResponse 200 (BodyObject ∅))
        | (srv', Err _) => (srv', unauthorized)
        end
    | None => (srv, unauthorized)
    end
  else (srv, mkResponse 404 BodyOther).

(** The page in its browser and the backend it talks to. *)
Record System : Type := mkSystem {
  page : Machine;
  server : Server
}.

(** The [i]-th request in flight reaches the backend and its response the
    page. *)
Definition deliver (i : nat) (now : Z) (e : Entropy) (sys : System) : System :=
  match pending (page sys) !! i with
  | Some (req, _) =>
      let '(srv', response) := serve now e req (server sys) in
      mkSystem (settle i (Responded response) (page sys)) srv'
  | None => sys
  end.

(** The [i]-th request in flight fails before it reaches the backend:
    [fetch] rejects. *)
Definition lose (i : nat) (error : string) (sys : System) : System :=
  mkSystem (settle i (Rejected error) (page sys)) (server sys).

(** The user triggers a handler of the page. *)
Definition user (h : Proc unit) (sys : System) : System :=
  mkSystem (dispatch h (page sys)) (server sys).


End WithHasher.

End System.

(* ===================================================================== *)
(** ** Notions used in the statements, and sample inputs                  *)
(* ===================================================================== *)

Module Statements.

(** The suspended logout [k] ends, whatever the outcome of its request and
    whatever the store it is resumed in, with the session cleared and the
    login screen shown. *)
Definition logsOutWhenSettled (k : Outcome -> Proc unit) : Prop :=
  forall (o : Outcome) (s : Store),
    exists s', run (k o) s = Finished (Returned tt) s' [] /\ sessionCleared s' /\ loginShown s'.

(** The page is logged out, or is left with exactly one request in flight,
    a POST /auth/logout, whose settling logs it out. *)
Definition loggingOut (s : Store) (bg : list Pending) : Prop :=
  (bg = [] /\ sessionCleared s /\ loginShown s) \/
  (exists token k, bg = [(logoutRequest token, k)] /\ logsOutWhenSettled k).


(** [after] has the session of [before]. *)
Definition sessionUnchanged (before after : Store) : Prop :=
  state after = state before /\ localStorage after = localStorage before.

(** The store once [showLoginError(message)] has run. *)
Definition loginErrorShown (message : string) (s : Store) : Store :=
  upd_dom (set_loginResult_className "login-result error")
    (upd_dom (set_loginResult_textContent message) s).

(** [after] differs from [before] in nothing that concerns the session or
    the screen on display. *)
Definition sessionAndScreenKept (before after : Store) : Prop :=
  sessionUnchanged before after /\
  loginScreen_display (dom after) = loginScreen_display (dom before) /\
  mainApp_display (dom after) = mainApp_display (dom before).

(** The suspended health check [k] ends, however its request settles,
    without touching the session or the screen on display. *)
Definition healthSettles (k : Outcome -> Proc unit) : Prop :=
  forall (o : Outcome) (s : Store),
    exists s', run (k o) s = Finished (Returned tt) s' [] /\ sessionAndScreenKept s s'.

(** The answer to POST /auth/login that [handleLogin] takes for a success:
    a JSON object whose [success] is truthy. *)
Definition accepted (o : Outcome) : bool :=
  match o with
  | Responded r =>
      match body r with
      | BodyObject obj => truthy (default JUndefined (obj !! "success"))
      | _ => false
      end
  | Rejected _ => false
  end.

(** The key is in local storage with a value that is not empty. *)
Definition nonEmptyItem (ls : gmap string string) (key : string) : Prop :=
  exists v : string, ls !! key = Some v /\ v <> ""%string.

(** The store once [showMainApp()] has run. *)
Definition mainAppStore (s : Store) : Store :=
  upd_dom (set_mainListeners true)
    (upd_dom (set_userInfo_textContent ("Logged in as: " +:+ toString (username (state s))))
       (upd_dom (set_mainApp_display "block")
          (upd_dom (set_loginScreen_display "none") s))).

(** The store once [showFirstTimeCredentials(name, password)] has run: one
    more modal with the pair, the login form filled in with it. *)
Definition credentialsShown (name password : string) (s : Store) : Store :=
  upd_dom (set_passwordInput_value password)
    (upd_dom (set_usernameInput_value name)
       (upd_dom (fun d => set_modals (modals d ++ [(name, password)]) d) s)).


(** A field of a JSON object, [undefined] when it is missing. *)
Definition get (o : Json) (key : string) : JsVal := default JUndefined (o !! key).

(** A field of a response body; a body that is no JSON object has none. *)
Definition bodyField (b : Body) (key : string) : JsVal :=
  match b with
  | BodyObject obj => get obj key
  | _ => JUndefined
  end.





End Statements.
Export Statements.

Module Samples.
Import Backend System.

Definition noOptions : Options := mkOptions None ∅ None.

(** a page with a session, as [handleLogin] leaves it *)
Definition loggedInPage : Store :=
  mkStore (mkAppState JNull JNull false (JStr "tok-1") (JStr "swiftpanda247"))
    (mkDom "none" "block" "" "" "" "" "Logged in as: swiftpanda247" None None [] true)
    {[ "authToken" := "tok-1"; "username" := "swiftpanda247" ]} [] [] 0.

(** the login form filled in *)
Definition filledForm : Store :=
  upd_dom (set_passwordInput_value "k3Xp!9vQz#Lm2@Rt7&Wy")
    (upd_dom (set_usernameInput_value " swiftpanda247 ") (freshPage ∅)).

Definition draws1 : Entropy := mkEntropy "tok-1" "swiftpanda247" "k3Xp!9vQz#Lm2@Rt7&Wy" "salt-1".
Definition draws2 : Entropy := mkEntropy "tok-2" "bravewolf421" "Zq8$Tn4^Hb6*Jc1%Ud5+" "salt-2".

(** an installation after its first start at time 0 *)
Definition provisioned : Server (H := plainHasher) :=
  startup (H := plainHasher) 0 draws1 emptyServer.

(** ... whose operator has logged in at time 100 *)
Definition withSession : Server (H := plainHasher) :=
  fst (login (H := plainHasher) "swiftpanda247" "k3Xp!9vQz#Lm2@Rt7&Wy" 100 draws1
         (fst (first_time_check provisioned))).

(** requests that keep the session of tok-1: a validation, a logout of
    another token, a refused login *)
Definition history1 : list (Op * Z * Entropy) :=
  [ (OpAuthenticate "tok-1", 150%Z, draws2);
    (OpLogout "tok-0", 160%Z, draws2);
    (OpLogin "swiftpanda247" "guess", 170%Z, draws2) ].

(** four wrong passwords, then a fifth *)
Definition fourWrong : list (string * Z * Entropy) :=
  [ ("a"%string, 200%Z, draws2); ("b"%string, 201%Z, draws2);
    ("c"%string, 202%Z, draws2); ("d"%string, 203%Z, draws2) ].

(** a page just loaded over the local storage of an earlier session *)
Definition returningPage : Store :=
  freshPage {[ "authToken" := "tok-1"; "username" := "swiftpanda247" ]}.

(** answers to POST /auth/login *)
Definition loginOkBody : Json :=
  {[ "success" := JBool true; "token" := JStr "tok-1"; "username" := JStr "swiftpanda247" ]}.
Definition loginOk : Response := mkResponse 200 (BodyObject loginOkBody).
Definition loginRefused : Response :=
  mkResponse 401 (BodyObject {[ "success" := JBool false;
                                "error" := JStr "Invalid credentials" ]}).


(** the page of that operator, in front of that backend *)
Definition sysLoggedIn : System (H := plainHasher) :=
  mkSystem (mkMachine loggedInPage []) withSession.

End Samples.
Export Samples.

(* ===================================================================== *)
(** ** The handlers from their [await] on                                 *)
(* ===================================================================== *)

Module Resumed.

(** [handleLogout] from its [await fetch] on (reached when [state] has a
    token) *)
Definition handleLogout_resumed : Outcome -> Proc unit :=
  resumption (run handleLogout loggedInPage).

(** [handleLogin] from its [await fetch] on (reached when the form is
    filled in) *)
Definition handleLogin_resumed : Outcome -> Proc unit :=
  resumption (run handleLogin filledForm).

(** [apiRequest] from its [await fetch] on *)
Definition apiRequest_resumed : Outcome -> Proc Response :=
  resumption (run (apiRequest "" noOptions) (freshPage ∅)).

(** The store once [handleLogout] has run to its end. *)
Definition loggedOut (s : Store) : Store :=
  upd_dom (set_loginResult_className "login-result")
    (upd_dom (set_passwordInput_value "")
       (upd_dom (set_usernameInput_value "")
          (upd_dom (set_mainApp_display "none")
             (upd_dom (set_loginScreen_display "flex")
                (upd_localStorage (delete "username")
                   (upd_localStorage (delete "authToken")
                      (upd_state (set_username JNull)
                         (upd_state (set_authToken JNull) s)))))))).

(** console.error(label, e) has been called *)
Definition consoleLogged (label e : string) (s : Store) : Store :=
  mkStore (state s) (dom s) (localStorage s) (alerts s)
    (consoleErrors s ++ [label +:+ " " +:+ e]) (reloads s).

(** alert(msg) has been called *)
Definition alerted (msg : string) (s : Store) : Store :=
  mkStore (state s) (dom s) (localStorage s) (alerts s ++ [msg])
    (consoleErrors s) (reloads s).

End Resumed.
Export Resumed.

Module MoreStatements.

(** A field of the body of a settled request; a rejected one has none. *)
Definition outcomeField (o : Outcome) (key : string) : JsVal :=
  match o with
  | Responded r => bodyField (body r) key
  | Rejected _ => JUndefined
  end.

(** The request failed, or its body cannot be read as a JSON value with
    properties: [await response.json()] or the first property read throws. *)
Definition unreadable (o : Outcome) : Prop :=
  match o with
  | Responded r => body r = BodyInvalid \/ body r = BodyNull
  | Rejected _ => True
  end.

(** Both keys of the session are stored with values that are not empty. *)
Definition sessionStoredLocally (ls : gmap string string) : Prop :=
  nonEmptyItem ls "authToken" /\ nonEmptyItem ls "username".

End MoreStatements.
Export MoreStatements.

(* ===================================================================== *)
(** ** The main application: its elements and the whole page              *)
(* ===================================================================== *)

Module MainPage.

(** A button, as [setButtonLoading] and the handlers use it. *)
Record Button : Type := mkButton {
  btn_disabled : bool;
  btn_textContent : string;
  btn_spinner : bool;                  (* its HTML holds the span of class 'loading' *)
  btn_originalText : option string     (* dataset.originalText, [None] while unset *)
}.

(** A result element: its class list and the title and message of its
    HTML. *)
Record Panel : Type := mkPanel {
  panel_classes : list string;
  panel_title : string;
  panel_message : string
}.

(** The properties of [elements] that the handlers of the main application
    read or assign. *)
Record MainDom : Type := mkMainDom {
  selectedFileName_textContent : string;
  selectedFileName_selected : bool;    (* classList holds 'selected' *)
  uploadBtn : Button;
  verifyWalletBtn : Button;
  registerBtn : Button;
  downloadBtn : Button;
  privateKeyInput_value : string;
  privateKeyInput_type : string;
  toggleKeyBtn_textContent : string;
  cidInput_value : string;
  uploadResult : Panel;
  walletResult : Panel;
  accessResult : Panel
}.

(** The whole page: the part the login code works on, the elements of the
    main application, and the window. *)
Record Full : Type := mkFull {
  core : Store;
  main : MainDom;
  tauri_internals : bool;              (* window.__TAURI_INTERNALS__ is there *)
  tauri_global : bool;                 (* window.__TAURI__ with its dialog and shell is there *)
  tabs : list JsVal;                   (* window.open(url, '_blank') *)
  hideTimers : nat                     (* setTimeout(() => hideResult(accessResult), 2000) pending *)
}.

Definition upd_core (g : Store -> Store) (f : Full) : Full :=
  mkFull (g (core f)) (main f) (tauri_internals f) (tauri_global f) (tabs f) (hideTimers f).
Definition upd_main (g : MainDom -> MainDom) (f : Full) : Full :=
  mkFull (core f) (g (main f)) (tauri_internals f) (tauri_global f) (tabs f) (hideTimers f).
Definition upd_tabs (g : list JsVal -> list JsVal) (f : Full) : Full :=
  mkFull (core f) (main f) (tauri_internals f) (tauri_global f) (g (tabs f)) (hideTimers f).
Definition upd_hideTimers (g : nat -> nat) (f : Full) : Full :=
  mkFull (core f) (main f) (tauri_internals f) (tauri_global f) (tabs f) (g (hideTimers f)).

Definition set_selectedFilePath (v : JsVal) (a : AppState) : AppState :=
  mkAppState v (lastCID a) (isWalletVerified a) (authToken a) (username a).
Definition set_lastCID (v : JsVal) (a : AppState) : AppState :=
  mkAppState (selectedFilePath a) v (isWalletVerified a) (authToken a) (username a).
Definition set_isWalletVerified (v : bool) (a : AppState) : AppState :=
  mkAppState (selectedFilePath a) (lastCID a) v (authToken a) (username a).

Definition set_selectedFileName (text : string) (selected : bool) (d : MainDom) : MainDom :=
  mkMainDom text selected (uploadBtn d) (verifyWalletBtn d) (registerBtn d) (downloadBtn d)
    (privateKeyInput_value d) (privateKeyInput_type d) (toggleKeyBtn_textContent d)
    (cidInput_value d) (uploadResult d) (walletResult d) (accessResult d).
Definition upd_uploadBtn (g : Button -> Button) (d : MainDom) : MainDom :=
  mkMainDom (selectedFileName_textContent d) (selectedFileName_selected d)
    (g (uploadBtn d)) (verifyWalletBtn d) (registerBtn d) (downloadBtn d)
    (privateKeyInput_value d) (privateKeyInput_type d) (toggleKeyBtn_textContent d)
    (cidInput_value d) (uploadResult d) (walletResult d) (accessResult d).
Definition upd_verifyWalletBtn (g : Button -> Button) (d : MainDom) : MainDom :=
  mkMainDom (selectedFileName_textContent d) (selectedFileName_selected d)
    (uploadBtn d) (g (verifyWalletBtn d)) (registerBtn d) (downloadBtn d)
    (privateKeyInput_value d) (privateKeyInput_type d) (toggleKeyBtn_textContent d)
    (cidInput_value d) (uploadResult d) (walletResult d) (accessResult d).
Definition upd_registerBtn (g : Button -> Button) (d : MainDom) : MainDom :=
  mkMainDom (selectedFileName_textContent d) (selectedFileName_selected d)
    (uploadBtn d) (verifyWalletBtn d) (g (registerBtn d)) (downloadBtn d)
    (privateKeyInput_value d) (privateKeyInput_type d) (toggleKeyBtn_textContent d)
    (cidInput_value d) (uploadResult d) (walletResult d) (accessResult d).
Definition upd_downloadBtn (g : Button -> Button) (d : MainDom) : MainDom :=
  mkMainDom (selectedFileName_textContent d) (selectedFileName_selected d)
    (uploadBtn d) (verifyWalletBtn d) (registerBtn d) (g (downloadBtn d))
    (privateKeyInput_value d) (privateKeyInput_type d) (toggleKeyBtn_textContent d)
    (cidInput_value d) (uploadResult d) (walletResult d) (accessResult d).
Definition set_privateKeyInput_value (v : string) (d : MainDom) : MainDom :=
  mkMainDom (selectedFileName_textContent d) (selectedFileName_selected d)
    (uploadBtn d) (verifyWalletBtn d) (registerBtn d) (downloadBtn d)
    v (privateKeyInput_type d) (toggleKeyBtn_textContent d)
    (cidInput_value d) (uploadResult d) (walletResult d) (accessResult d).
Definition set_privateKeyInput_type (v : string) (d : MainDom) : MainDom :=
  mkMainDom (selectedFileName_textContent d) (selectedFileName_selected d)
    (uploadBtn d) (verifyWalletBtn d) (registerBtn d) (downloadBtn d)
    (privateKeyInput_value d) v (toggleKeyBtn_textContent d)
    (cidInput_value d) (uploadResult d) (walletResult d) (accessResult d).
Definition set_toggleKeyBtn_textContent (v : string) (d : MainDom) : MainDom :=
  mkMainDom (selectedFileName_textContent d) (selectedFileName_selected d)
    (uploadBtn d) (verifyWalletBtn d) (registerBtn d) (downloadBtn d)
    (privateKeyInput_value d) (privateKeyInput_type d) v
    (cidInput_value d) (uploadResult d) (walletResult d) (accessResult d).
Definition set_cidInput_value (v : string) (d : MainDom) : MainDom :=
  mkMainDom (selectedFileName_textContent d) (selectedFileName_selected d)
    (uploadBtn d) (verifyWalletBtn d) (registerBtn d) (downloadBtn d)
    (privateKeyInput_value d) (privateKeyInput_type d) (toggleKeyBtn_textContent d)
    v (uploadResult d) (walletResult d) (accessResult d).
Definition upd_uploadResult (g : Panel -> Panel) (d : MainDom) : MainDom :=
  mkMainDom (selectedFileName_textContent d) (selectedFileName_selected d)
    (uploadBtn d) (verifyWalletBtn d) (registerBtn d) (downloadBtn d)
    (privateKeyInput_value d) (privateKeyInput_type d) (toggleKeyBtn_textContent d)
    (cidInput_value d) (g (uploadResult d)) (walletResult d) (accessResult d).
Definition upd_walletResult (g : Panel -> Panel) (d : MainDom) : MainDom :=
  mkMainDom (selectedFileName_textContent d) (selectedFileName_selected d)
    (uploadBtn d) (verifyWalletBtn d) (registerBtn d) (downloadBtn d)
    (privateKeyInput_value d) (privateKeyInput_type d) (toggleKeyBtn_textContent d)
    (cidInput_value d) (uploadResult d) (g (walletResult d)) (accessResult d).
Definition upd_accessResult (g : Panel -> Panel) (d : MainDom) : MainDom :=
  mkMainDom (selectedFileName_textContent d) (selectedFileName_selected d)
    (uploadBtn d) (verifyWalletBtn d) (registerBtn d) (downloadBtn d)
    (privateKeyInput_value d) (privateKeyInput_type d) (toggleKeyBtn_textContent d)
    (cidInput_value d) (uploadResult d) (walletResult d) (g (accessResult d)).

(** Assignments to a button and to a result element. *)
Definition set_btn_disabled (v : bool) (b : Button) : Button :=
  mkButton v (btn_textContent b) (btn_spinner b) (btn_originalText b).
Definition set_btn_originalText (v : string) (b : Button) : Button :=
  mkButton (btn_disabled b) (btn_textContent b) (btn_spinner b) (Some v).
(** button.innerHTML = '<span class=loading></span> Processing...': the
    span is empty, so the text is what follows it *)
Definition set_btn_innerHTML_loading (b : Button) : Button :=
  mkButton (btn_disabled b) " Processing..." true (btn_originalText b).
(** button.textContent = v: the text replaces whatever the button held *)
Definition set_btn_textContent (v : string) (b : Button) : Button :=
  mkButton (btn_disabled b) v false (btn_originalText b).

Definition set_panel_classes (v : list string) (p : Panel) : Panel :=
  mkPanel v (panel_title p) (panel_message p).
Definition set_panel_innerHTML (title message : string) (p : Panel) : Panel :=
  mkPanel (panel_classes p) title message.

(** the element is on display: its class list holds 'show' *)
Definition shown (p : Panel) : bool := bool_decide ("show"%string ∈ panel_classes p).

(** What assigning [v] to the [value] of an input leaves there: null
    becomes the empty string, everything else its string form. *)
Definition inputValue (v : JsVal) : string :=
  match v with
  | JNull => ""
  | _ => toString v
  end.

End MainPage.
Export MainPage.

(* ===================================================================== *)
(** ** Asynchronous functions over the whole page                         *)
(* ===================================================================== *)

Module AsyncMain.

(** What is thrown, or what a promise is rejected with: an Error object
    (an Error made by the script, the TypeError of a failed [fetch], a
    TypeError or SyntaxError of the engine) or a string, as a plugin may
    reject with. *)
Inductive Raised : Type :=
| ErrorObject (message : string)
| RaisedString (s : string).

(** [error.message] *)
Definition message_of (error : Raised) : JsVal :=
  match error with
  | ErrorObject m => JStr m
  | RaisedString _ => JUndefined
  end.

(** [String(error)]; the Error objects are taken to be named 'Error'. *)
Definition String_of (error : Raised) : string :=
  match error with
  | ErrorObject m => if String.eqb m "" then "Error" else "Error: " +:+ m
  | RaisedString s => s
  end.

(** How the promise of the dialog plugin's [open] settles: with the path
    chosen ([JNull] when the dialog is cancelled), or rejected. *)
Inductive DialogOutcome : Type :=
| Picked (path : JsVal)
| DialogFailed (error : Raised).

(** How the promise of the shell plugin's [open] settles. *)
Inductive ShellOutcome : Type :=
| ShellOpened
| ShellFailed (error : Raised).

(** The body of an [async] function of the main application: [Proc] over
    the whole page, with the two plugin calls that are awaited besides
    [fetch]. *)
Inductive GProc (A : Type) : Type :=
| GRet (a : A)
| GThrow (error : Raised)
| GGet (k : Full -> GProc A)
| GPut (f : Full) (k : GProc A)
| GFetch (req : Request) (k : Outcome -> GProc A)
| GDialog (directory : bool) (k : DialogOutcome -> GProc A)
| GShell (url : JsVal) (k : ShellOutcome -> GProc A)
| GSpawn (child : GProc unit) (k : GProc A).

Arguments GRet {A} a.
Arguments GThrow {A} error.
Arguments GGet {A} k.
Arguments GPut {A} f k.
Arguments GFetch {A} req k.
Arguments GDialog {A} directory k.
Arguments GShell {A} url k.
Arguments GSpawn {A} child k.

Fixpoint gbind {A B : Type} (p : GProc A) (g : A -> GProc B) : GProc B :=
  match p with
  | GRet a => g a
  | GThrow e => GThrow e
  | GGet k => GGet (fun f => gbind (k f) g)
  | GPut f k => GPut f (gbind k g)
  | GFetch req k => GFetch req (fun o => gbind (k o) g)
  | GDialog d k => GDialog d (fun o => gbind (k o) g)
  | GShell u k => GShell u (fun o => gbind (k o) g)
  | GSpawn child k => GSpawn child (gbind k g)
  end.

#[global] Instance GProc_ret : MRet GProc := @GRet.
#[global] Instance GProc_bind : MBind GProc := fun A B g p => gbind p g.

(** try { p } catch (error) { h error } *)
Fixpoint gtry_catch {A : Type} (p : GProc A) (h : Raised -> GProc A) : GProc A :=
  match p with
  | GRet a => GRet a
  | GThrow e => h e
  | GGet k => GGet (fun f => gtry_catch (k f) h)
  | GPut f k => GPut f (gtry_catch k h)
  | GFetch req k => GFetch req (fun o => gtry_catch (k o) h)
  | GDialog d k => GDialog d (fun o => gtry_catch (k o) h)
  | GShell u k => GShell u (fun o => gtry_catch (k o) h)
  | GSpawn child k => GSpawn child (gtry_catch k h)
  end.

(** try { p } finally { fin }: [fin] runs when [p] has returned and when it
    has thrown, and the outcome of [p] stands. *)
Fixpoint gfinally {A : Type} (p : GProc A) (fin : GProc unit) : GProc A :=
  match p with
  | GRet a => gbind fin (fun _ => GRet a)
  | GThrow e => gbind fin (fun _ => GThrow e)
  | GGet k => GGet (fun f => gfinally (k f) fin)
  | GPut f k => GPut f (gfinally k fin)
  | GFetch req k => GFetch req (fun o => gfinally (k o) fin)
  | GDialog d k => GDialog d (fun o => gfinally (k o) fin)
  | GShell u k => GShell u (fun o => gfinally (k o) fin)
  | GSpawn child k => GSpawn child (gfinally k fin)
  end.

Definition ggets {A : Type} (g : Full -> A) : GProc A := GGet (fun f => GRet (g f)).
Definition gmodify (g : Full -> Full) : GProc unit := GGet (fun f => GPut (g f) (GRet tt)).

(** A function of the login code, called from the main application: it
    works on the [core] of the page, and what it throws are Error objects. *)
Fixpoint embed {A : Type} (p : Proc A) : GProc A :=
  match p with
  | Ret a => GRet a
  | Throw e => GThrow (ErrorObject e)
  | Get k => GGet (fun f => embed (k (core f)))
  | Put s k => GGet (fun f => GPut (upd_core (fun _ => s) f) (embed k))
  | Fetch req k => GFetch req (fun o => embed (k o))
  | Spawn child k => GSpawn (embed child) (embed k)
  end.

(** What a suspended call waits for, with what its settling resumes. *)
Inductive Waiting (A : Type) : Type :=
| WFetch (req : Request) (k : Outcome -> GProc A)
| WDialog (directory : bool) (k : DialogOutcome -> GProc A)
| WShell (url : JsVal) (k : ShellOutcome -> GProc A).
Arguments WFetch {A} req k.
Arguments WDialog {A} directory k.
Arguments WShell {A} url k.

Inductive GCompletion (A : Type) : Type :=
| GReturned (a : A)
| GThrown (error : Raised).
Arguments GReturned {A} a.
Arguments GThrown {A} error.

Inductive GStep (A : Type) : Type :=
| GFinished (c : GCompletion A) (f : Full) (bg : list (Waiting unit))
| GBlocked (w : Waiting A) (f : Full) (bg : list (Waiting unit)).
Arguments GFinished {A} c f bg.
Arguments GBlocked {A} w f bg.

Definition gstep_full {A : Type} (t : GStep A) : Full :=
  match t with GFinished _ f _ | GBlocked _ f _ => f end.
Definition gadd_bg {A : Type} (bg0 : list (Waiting unit)) (t : GStep A) : GStep A :=
  match t with
  | GFinished c f bg => GFinished c f (bg0 ++ bg)
  | GBlocked w f bg => GBlocked w f (bg0 ++ bg)
  end.
Definition gdetach (t : GStep unit) : list (Waiting unit) :=
  match t with
  | GFinished _ _ bg => bg
  | GBlocked w _ bg => bg ++ [w]
  end.

(** the request among what is waited for *)
Definition waiting_request {A : Type} (w : Waiting A) : option Request :=
  match w with
  | WFetch req _ => Some req
  | _ => None
  end.

(** the requests a turn has put in flight, its own last *)
Definition gstep_requests {A : Type} (t : GStep A) : list Request :=
  match t with
  | GFinished _ _ bg => omap waiting_request bg
  | GBlocked w _ bg => omap waiting_request bg ++ option_list (waiting_request w)
  end.

(** the turn has ended, returning *)
Definition greturned {A : Type} (t : GStep A) : bool :=
  match t with
  | GFinished (GReturned _) _ _ => true
  | _ => false
  end.

Fixpoint grun {A : Type} (p : GProc A) (f : Full) : GStep A :=
  match p with
  | GRet a => GFinished (GReturned a) f []
  | GThrow e => GFinished (GThrown e) f []
  | GGet k => grun (k f) f
  | GPut f' k => grun k f'
  | GFetch req k => GBlocked (WFetch req k) f []
  | GDialog d k => GBlocked (WDialog d k) f []
  | GShell u k => GBlocked (WShell u k) f []
  | GSpawn child k =>
      let t := grun child f in
      gadd_bg (gdetach t) (grun k (gstep_full t))
  end.

(** what is resumed, inside a larger function *)
Definition wmap {A B : Type} (g : GProc A -> GProc B) (w : Waiting A) : Waiting B :=
  match w with
  | WFetch req k => WFetch req (fun o => g (k o))
  | WDialog directory k => WDialog directory (fun o => g (k o))
  | WShell url k => WShell url (fun o => g (k o))
  end.

(** What has settled: a request, a dialog or a call of the shell. *)
Inductive Answer : Type :=
| Fetched (o : Outcome)
| Chosen (o : DialogOutcome)
| Shelled (o : ShellOutcome).

(** The suspended turn [t] goes on when what it waits for settles with [a],
    against the page [f1] of that moment; a turn that does not wait for [a]
    stays as it is. *)
Definition resume {A : Type} (t : GStep A) (a : Answer) (f1 : Full) : GStep A :=
  match t, a with
  | GBlocked (WFetch _ k) _ _, Fetched o => grun (k o) f1
  | GBlocked (WDialog _ k) _ _, Chosen o => grun (k o) f1
  | GBlocked (WShell _ k) _ _, Shelled o => grun (k o) f1
  | _, _ => t
  end.

(** the turn waits for a dialog (for a directory or not) / for the shell *)
Definition waits_for_dialog {A : Type} (t : GStep A) : option bool :=
  match t with
  | GBlocked (WDialog directory _) _ _ => Some directory
  | _ => None
  end.
Definition waits_for_shell {A : Type} (t : GStep A) : option JsVal :=
  match t with
  | GBlocked (WShell url _) _ _ => Some url
  | _ => None
  end.

(** A suspended call of the login code, seen from the whole page. *)
Definition embedPending (p : Pending) : Waiting unit :=
  WFetch (fst p) (fun o => embed (snd p o)).

Definition embedCompletion {A : Type} (c : Completion A) : GCompletion A :=
  match c with
  | Returned a => GReturned a
  | Thrown e => GThrown (ErrorObject e)
  end.

(** A turn of the login code, seen from the whole page [f]. *)
Definition embedStep {A : Type} (f : Full) (t : Step A) : GStep A :=
  match t with
  | Finished c s bg =>
      GFinished (embedCompletion c) (upd_core (fun _ => s) f) (embedPending <$> bg)
  | Blocked req k s bg =>
      GBlocked (WFetch req (fun o => embed (k o))) (upd_core (fun _ => s) f)
        (embedPending <$> bg)
  end.

End AsyncMain.
Export AsyncMain.

(* ===================================================================== *)
(** ** The handlers of the main application                               *)
(* ===================================================================== *)

Module MainApp.

(** *** Plugins and helpers *)

(** [await open(...)] of the dialog plugin *)
Definition dialog_open (directory : bool) : GProc JsVal :=
  GDialog directory (fun o => match o with
                              | Picked path => GRet path
                              | DialogFailed error => GThrow error
                              end).

(** [await open(url)] of the shell plugin *)
Definition shell_open (url : JsVal) : GProc unit :=
  GShell url (fun o => match o with
                       | ShellOpened => GRet tt
                       | ShellFailed error => GThrow error
                       end).

(** const { open } = window.__TAURI__.dialog, and the same for the shell:
    a TypeError where window.__TAURI__ is not there *)
Definition tauri_plugin : GProc unit :=
  plugins ← ggets tauri_global;
  if negb plugins then GThrow (ErrorObject "TypeError") else GRet tt.

(** window.open(url, '_blank') *)
Definition window_open (url : JsVal) (f : Full) : Full :=
  upd_tabs (fun l => l ++ [url]) f.

(** function showResult(element, type, title, message) *)
Definition showResult (element : (Panel -> Panel) -> MainDom -> MainDom)
    (type title message : string) (f : Full) : Full :=
  upd_main (element (set_panel_innerHTML title message))
    (upd_main (element (set_panel_classes ["result"; type; "show"])) f).

(** function hideResult(element) *)
Definition hideResult (element : (Panel -> Panel) -> MainDom -> MainDom) (f : Full) : Full :=
  upd_main (element (fun p =>
    set_panel_classes (filter (fun c => c <> "show"%string) (panel_classes p)) p)) f.

(** function setButtonLoading(button, isLoading) *)
Definition setButtonLoading (button : (Button -> Button) -> MainDom -> MainDom)
    (isLoading : bool) (f : Full) : Full :=
  if isLoading then
    upd_main (button set_btn_innerHTML_loading)
      (upd_main (button (fun b => set_btn_originalText (btn_textContent b) b))
         (upd_main (button (set_btn_disabled true)) f))
  else
    upd_main (button (fun b =>
        set_btn_textContent
          (match btn_originalText b with
           | Some t => if String.eqb t "" then btn_textContent b else t
           | None => btn_textContent b
           end) b))
      (upd_main (button (set_btn_disabled false)) f).

(** console.error(label, error) *)
Definition gconsole_error (label : string) (error : Raised) (f : Full) : Full :=
  upd_core (consoleLogged label (String_of error)) f.

(** [s.split(sep)] for a separator of one character *)
Fixpoint split (sep : ascii) (s : string) : list string :=
  match s with
  | EmptyString => [EmptyString]
  | String c r =>
      if Ascii.eqb c sep then EmptyString :: split sep r
      else match split sep r with
           | x :: xs => String c x :: xs
           | [] => [String c EmptyString]
           end
  end.

(** [selected.split('/').pop()] *)
Definition fileName (selected : string) : string := List.last (split "/" selected) "".

(** the double quote of the HTML attributes *)
Definition dq : string := String "034"%char "".

(** the line break of the messages, as the template literals have it *)
Definition br : string := "<br>
             ".

(** *** File upload *)

(** async function selectFile() *)
Definition selectFile : GProc unit :=
  gtry_catch
    (internals ← ggets tauri_internals;
     if negb internals then
       gmodify (showResult upd_uploadResult "error" "Not a Desktop App"
         "This application must be run as a desktop app using ./run.sh, not in a web browser. Please close the browser and run: ./run.sh")
     else
       tauri_plugin;;
       selected ← dialog_open false;
       if truthy selected then
         gmodify (upd_core (upd_state (set_selectedFilePath selected)));;
         name ← match selected with
                | JStr path => GRet (fileName path)
                | _ => GThrow (ErrorObject "TypeError")
                end;
         gmodify (upd_main (fun d => set_selectedFileName name (selectedFileName_selected d) d));;
         gmodify (upd_main (fun d => set_selectedFileName (selectedFileName_textContent d) true d));;
         gmodify (upd_main (upd_uploadBtn (set_btn_disabled false)))
       else GRet tt)
    (fun error =>
       gmodify (gconsole_error "File selection error:" error);;
       gmodify (showResult upd_uploadResult "error" "File Selection Error"
                  (toString (js_or (message_of error) (JStr (String_of error)))))).

(** [formatBytes(data.size)], with the number the response carries as
    [size], [None] where it carries none: Math.log(undefined) is NaN, and
    so are the quotient and the index. *)
Definition formatSize (size : option N) : string :=
  match size with
  | Some bytes => formatBytes bytes
  | None => "NaN undefined"
  end.

(** async function uploadFile(), for a response whose [size] is the
    number [size] *)
Definition uploadFile (size : option N) : GProc unit :=
  path ← ggets (fun f => selectedFilePath (state (core f)));
  if negb (truthy path) then
    gmodify (showResult upd_uploadResult "error" "Error" "Please select a file first")
  else
    gmodify (setButtonLoading upd_uploadBtn true);;
    gfinally
      (gtry_catch
         (file_path ← ggets (fun f => selectedFilePath (state (core f)));
          response ← embed (apiRequest "/ipfs/upload"
                              (mkOptions (Some "POST"%string) ∅
                                 (Some {[ "file_path" := file_path ]})));
          data ← embed (response_json response);
          (if negb (ok response) then
             error ← embed (prop data "error");
             GThrow (ErrorObject (toString (js_or error (JStr "Upload failed"))))
           else GRet tt);;
          cid ← embed (prop data "cid");
          gmodify (upd_core (upd_state (set_lastCID cid)));;
          gmodify (upd_main (set_cidInput_value (inputValue cid)));;
          gmodify (upd_main (upd_registerBtn (set_btn_disabled false)));;
          filename ← embed (prop data "filename");
          gateway_url ← embed (prop data "gateway_url");
          gmodify (showResult upd_uploadResult "success" "✅ Upload Successful"
            ("File: " +:+ toString filename +:+ br +:+
             "CID: <code>" +:+ toString cid +:+ "</code>" +:+ br +:+
             "Size: " +:+ formatSize size +:+ br +:+
             "<a href=" +:+ dq +:+ toString gateway_url +:+ dq +:+
             " target=" +:+ dq +:+ "_blank" +:+ dq +:+ ">View on Gateway</a>")))
         (fun error =>
            gmodify (showResult upd_uploadResult "error" "❌ Upload Failed"
              (toString (message_of error)))))
      (gmodify (setButtonLoading upd_uploadBtn false)).

(** *** Wallet *)

(** function toggleKeyVisibility() *)
Definition toggleKeyVisibility (f : Full) : Full :=
  if String.eqb (privateKeyInput_type (main f)) "password" then
    upd_main (set_toggleKeyBtn_textContent "Hide") (upd_main (set_privateKeyInput_type "text") f)
  else
    upd_main (set_toggleKeyBtn_textContent "Show")
      (upd_main (set_privateKeyInput_type "password") f).

(** async function verifyWallet(), for a response whose [balance_sol] is a
    number that [toFixed(6)] renders as [balance], [None] where it is no
    number *)
Definition verifyWallet (balance : option string) : GProc unit :=
  privateKey ← ggets (fun f => trim (privateKeyInput_value (main f)));
  if String.eqb privateKey "" then
    gmodify (showResult upd_walletResult "error" "Error" "Please enter your private key")
  else
    gmodify (setButtonLoading upd_verifyWalletBtn true);;
    gfinally
      (gtry_catch
         (response ← embed (apiRequest "/solana/validate-wallet"
                              (mkOptions (Some "POST"%string) ∅
                                 (Some {[ "private_key" := JStr privateKey ]})));
          data ← embed (response_json response);
          (if negb (ok response) then
             error ← embed (prop data "error");
             GThrow (ErrorObject (toString (js_or error (JStr "Validation failed"))))
           else GRet tt);;
          gmodify (upd_core (upd_state (set_isWalletVerified true)));;
          lastCID ← ggets (fun f => lastCID (state (core f)));
          gmodify (upd_main (upd_registerBtn (set_btn_disabled (negb (truthy lastCID)))));;
          _ ← embed (prop data "balance_sol");
          fixed ← match balance with
                  | Some text => GRet text
                  | None => GThrow (ErrorObject "TypeError")
                  end;
          network ← embed (prop data "network");
          public_key_preview ← embed (prop data "public_key_preview");
          gmodify (showResult upd_walletResult "success" "✅ Wallet Verified"
            ("Balance: " +:+ fixed +:+ " SOL" +:+ br +:+
             "Network: " +:+ toString network +:+ br +:+
             "Public Key: " +:+ toString public_key_preview +:+ br +:+
             "Status: Connected")))
         (fun error =>
            gmodify (upd_core (upd_state (set_isWalletVerified false)));;
            gmodify (showResult upd_walletResult "error" "❌ Validation Failed"
              (toString (message_of error)))))
      (gmodify (setButtonLoading upd_verifyWalletBtn false)).

(** [data.signature.substring(0, 20)] *)
Definition signaturePreview (signature : JsVal) : GProc string :=
  match signature with
  | JStr s => GRet (substring 0 20 s)
  | _ => GThrow (ErrorObject "TypeError")
  end.

Definition registerRequestBody (privateKey : string) (cid : JsVal) : Json :=
  {[ "private_key" := JStr privateKey; "cid" := cid ]}.

(** async function registerOnSolana(), first revision *)
Definition registerOnSolana1 : GProc unit :=
  privateKey ← ggets (fun f => trim (privateKeyInput_value (main f)));
  cid ← ggets (fun f => js_or (lastCID (state (core f))) (JStr (trim (cidInput_value (main f)))));
  if String.eqb privateKey "" then
    gmodify (showResult upd_walletResult "error" "Error" "Please enter your private key")
  else if negb (truthy cid) then
    gmodify (showResult upd_walletResult "error" "Error" "No CID available. Upload a file first.")
  else
    gmodify (setButtonLoading upd_registerBtn true);;
    gfinally
      (gtry_catch
         (response ← embed (apiRequest "/solana/register"
                              (mkOptions (Some "POST"%string) ∅
                                 (Some (registerRequestBody privateKey cid))));
          data ← embed (response_json response);
          (if negb (ok response) then
             error ← embed (prop data "error");
             GThrow (ErrorObject (toString (js_or error (JStr "Registration failed"))))
           else GRet tt);;
          data_cid ← embed (prop data "cid");
          signature ← embed (prop data "signature");
          preview ← signaturePreview signature;
          network ← embed (prop data "network");
          explorer_url ← embed (prop data "explorer_url");
          gmodify (showResult upd_walletResult "success" "✅ Transaction Successful"
            ("CID: <code>" +:+ toString data_cid +:+ "</code>" +:+ br +:+
             "Signature: <code>" +:+ preview +:+ "...</code>" +:+ br +:+
             "Network: " +:+ toString network +:+ br +:+
             "<a href=" +:+ dq +:+ toString explorer_url +:+ dq +:+
             " target=" +:+ dq +:+ "_blank" +:+ dq +:+ ">View on Explorer</a>")))
         (fun error =>
            gmodify (showResult upd_walletResult "error" "❌ Transaction Failed"
              (toString (message_of error)))))
      (gmodify (setButtonLoading upd_registerBtn false)).

(** async function registerOnSolana(), second revision: the private key is
    taken out of the input once the response is there *)
Definition registerOnSolana : GProc unit :=
  privateKey ← ggets (fun f => trim (privateKeyInput_value (main f)));
  cid ← ggets (fun f => js_or (lastCID (state (core f))) (JStr (trim (cidInput_value (main f)))));
  if String.eqb privateKey "" then
    gmodify (showResult upd_walletResult "error" "Error" "Please enter your private key")
  else if negb (truthy cid) then
    gmodify (showResult upd_walletResult "error" "Error" "No CID available. Upload a file first.")
  else
    gmodify (setButtonLoading upd_registerBtn true);;
    gfinally
      (gtry_catch
         (response ← embed (apiRequest "/solana/register"
                              (mkOptions (Some "POST"%string) ∅
                                 (Some (registerRequestBody privateKey cid))));
          data ← embed (response_json response);
          (if negb (ok response) then
             error ← embed (prop data "error");
             GThrow (ErrorObject (toString (js_or error (JStr "Registration failed"))))
           else GRet tt);;
          gmodify (upd_main (set_privateKeyInput_value ""));;
          gmodify (upd_core (upd_state (set_isWalletVerified false)));;
          data_cid ← embed (prop data "cid");
          signature ← embed (prop data "signature");
          preview ← signaturePreview signature;
          network ← embed (prop data "network");
          explorer_url ← embed (prop data "explorer_url");
          gmodify (showResult upd_walletResult "success" "✅ Transaction Successful"
            ("CID: <code>" +:+ toString data_cid +:+ "</code>" +:+ br +:+
             "Signature: <code>" +:+ preview +:+ "...</code>" +:+ br +:+
             "Network: " +:+ toString network +:+ br +:+
             "<a href=" +:+ dq +:+ toString explorer_url +:+ dq +:+
             " target=" +:+ dq +:+ "_blank" +:+ dq +:+ ">View on Explorer</a>" +:+ br +:+
             "<small>Private key cleared from memory for security</small>")))
         (fun error =>
            gmodify (showResult upd_walletResult "error" "❌ Transaction Failed"
              (toString (message_of error)))))
      (gmodify (setButtonLoading upd_registerBtn false)).

(** window.addEventListener('beforeunload', ...), second revision *)
Definition beforeunload (f : Full) : Full :=
  upd_main (set_privateKeyInput_value "") f.

(** *** Access *)

(** function pasteCID() *)
Definition pasteCID (f : Full) : Full :=
  let lastCID := lastCID (state (core f)) in
  if truthy lastCID then
    upd_hideTimers S
      (showResult upd_accessResult "info" "CID Pasted" ("Using CID: " +:+ toString lastCID)
         (upd_main (set_cidInput_value (inputValue lastCID)) f))
  else
    showResult upd_accessResult "error" "Error" "No recent CID available" f.

(** the callback of the timer that [pasteCID] sets, two seconds later *)
Definition hideTimer (f : Full) : Full :=
  hideResult upd_accessResult (upd_hideTimers pred f).

Definition gatewayRequest (cid : string) : Request :=
  mkRequest "POST" "/ipfs/gateway-url" {[ "Content-Type" := "application/json" ]}
    (Some {[ "cid" := JStr cid ]}).

(** [await fetch(...)] called directly *)
Definition gfetch (req : Request) : GProc Response :=
  GFetch req (fun o => match o with
                       | Responded r => GRet r
                       | Rejected e => GThrow (ErrorObject e)
                       end).

(** async function openInBrowser() *)
Definition openInBrowser : GProc unit :=
  cid ← ggets (fun f => trim (cidInput_value (main f)));
  if String.eqb cid "" then
    gmodify (showResult upd_accessResult "error" "Error" "Please enter a CID")
  else
    gtry_catch
      (response ← gfetch (gatewayRequest cid);
       data ← embed (response_json response);
       (if negb (ok response) then
          error ← embed (prop data "error");
          GThrow (ErrorObject (toString (js_or error (JStr "Failed to get gateway URL"))))
        else GRet tt);;
       internals ← ggets tauri_internals;
       (if negb internals then
          gateway_url ← embed (prop data "gateway_url");
          gmodify (window_open gateway_url)
        else
          tauri_plugin;;
          gateway_url ← embed (prop data "gateway_url");
          shell_open gateway_url);;
       data_cid ← embed (prop data "cid");
       gateway_url ← embed (prop data "gateway_url");
       gmodify (showResult upd_accessResult "success" "✅ Opening in Browser"
         ("CID: " +:+ toString data_cid +:+ br +:+
          "URL: <a href=" +:+ dq +:+ toString gateway_url +:+ dq +:+
          " target=" +:+ dq +:+ "_blank" +:+ dq +:+ ">" +:+ toString gateway_url +:+ "</a>")))
      (fun error =>
         gmodify (showResult upd_accessResult "error" "❌ Error" (toString (message_of error)))).

Definition downloadRequestBody (cid : string) (downloadDir : JsVal) : Json :=
  {[ "cid" := JStr cid; "output_dir" := downloadDir ]}.

(** async function downloadFile() *)
Definition downloadFile : GProc unit :=
  cid ← ggets (fun f => trim (cidInput_value (main f)));
  if String.eqb cid "" then
    gmodify (showResult upd_accessResult "error" "Error" "Please enter a CID")
  else
    internals ← ggets tauri_internals;
    if negb internals then
      gmodify (showResult upd_accessResult "error" "Not a Desktop App"
        "Download requires desktop app. Please run: ./run.sh")
    else
      gmodify (setButtonLoading upd_downloadBtn true);;
      gfinally
        (gtry_catch
           (tauri_plugin;;
            downloadDir ← dialog_open true;
            if negb (truthy downloadDir) then
              gmodify (setButtonLoading upd_downloadBtn false)
            else
              response ← embed (apiRequest "/ipfs/download"
                                  (mkOptions (Some "POST"%string) ∅
                                     (Some (downloadRequestBody cid downloadDir))));
              data ← embed (response_json response);
              (if negb (ok response) then
                 error ← embed (prop data "error");
                 GThrow (ErrorObject (toString (js_or error (JStr "Download failed"))))
               else GRet tt);;
              filename ← embed (prop data "filename");
              path ← embed (prop data "path");
              gateway_url ← embed (prop data "gateway_url");
              gmodify (showResult upd_accessResult "success" "✅ Download Successful"
                ("File: " +:+ toString filename +:+ br +:+
                 "Location: " +:+ toString path +:+ br +:+
                 "<a href=" +:+ dq +:+ toString gateway_url +:+ dq +:+
                 " target=" +:+ dq +:+ "_blank" +:+ dq +:+ ">View on Gateway</a>")))
           (fun error =>
              gmodify (showResult upd_accessResult "error" "❌ Download Failed"
                (toString (message_of error)))))
        (gmodify (setButtonLoading upd_downloadBtn false)).

End MainApp.
Export MainApp.


Module MainStatements.

(** An element of the page, as a way to read it and a way to change it. *)
Definition lens {E : Type} (read : MainDom -> E)
    (change : (E -> E) -> MainDom -> MainDom) : Prop :=
  forall (g : E -> E) (d : MainDom), read (change g d) = g (read d).

(** the label says what a click on the button will do to the key *)
Definition keyLabelled (f : Full) : Prop :=
  (privateKeyInput_type (main f) = "text"%string /\
   toggleKeyBtn_textContent (main f) = "Hide"%string) \/
  (privateKeyInput_type (main f) = "password"%string /\
   toggleKeyBtn_textContent (main f) = "Show"%string).

End MainStatements.
Export MainStatements.

Module MainSamples.

Definition button (disabled : bool) (label : string) : Button :=
  mkButton disabled label false None.
Definition hiddenPanel : Panel := mkPanel ["result"%string] "" "".

(** A page as a markup may have it: the upload and the register button
    disabled, the key hidden. *)
Definition sampleMain : MainDom :=
  mkMainDom "No file selected" false
    (button true "Upload to IPFS") (button false "Verify Wallet")
    (button true "Register on Solana") (button false "Download")
    "" "password" "Show" "" hiddenPanel hiddenPanel hiddenPanel.

(** the page in the desktop shell / in a browser *)
Definition desktop (s : Store) (d : MainDom) : Full := mkFull s d true true [] 0.
Definition browser (s : Store) (d : MainDom) : Full := mkFull s d false false [] 0.

(** the operator logged in, with a file chosen / a key typed (with blanks
    around it) / a CID typed *)
Definition fileChosen : Full :=
  desktop (upd_state (set_selectedFilePath (JStr "/home/user/report.pdf")) loggedInPage)
    sampleMain.
Definition keyEntered : Full :=
  desktop loggedInPage (set_privateKeyInput_value " 5Kb8kLf9zgWQnogidDA76Mz " sampleMain).
Definition keyAndCid : Full :=
  desktop loggedInPage
    (set_cidInput_value "QmTyped" (set_privateKeyInput_value "5Kb8kLf9zgWQnogidDA76Mz" sampleMain)).
Definition cidEntered : Full := desktop loggedInPage (set_cidInput_value "QmTyped" sampleMain).
Definition cidEnteredBrowser : Full :=
  browser loggedInPage (set_cidInput_value "QmTyped" sampleMain).

Definition expired : Response :=
  mkResponse 401 (BodyObject {[ "error" := JStr "Unauthorized" ]}).
Definition registerNoSignature : Response :=
  mkResponse 200 (BodyObject {[ "cid" := JStr "QmTyped" ]}).
Definition gatewayOk : Response :=
  mkResponse 200 (BodyObject {[ "cid" := JStr "QmTyped";
                                "gateway_url" := JStr "http://127.0.0.1:8080/ipfs/QmTyped" ]}).

End MainSamples.
Export MainSamples.

Module HandlerStatements.

(** What a handler shows for a response that is not ok: [data.error], or
    the handler's own text where that is not truthy. *)
Definition errorText (b : Body) (fallback : string) : string :=
  toString (js_or (bodyField b "error") (JStr fallback)).

(** [data] can be read: the body is JSON and not null. *)
Definition readable (b : Body) : Prop := b <> BodyInvalid /\ b <> BodyNull.

(** The page once the logout that [apiRequest] starts on a 401 has run its
    first turn, and what that logout waits for. *)
Definition logoutStarted (f1 : Full) : Full := gstep_full (grun (embed handleLogout) f1).
Definition logoutPending (f1 : Full) : list (Waiting unit) :=
  gdetach (grun (embed handleLogout) f1).

(** the options of the POST requests of the handlers *)
Definition post (body : Json) : Options := mkOptions (Some "POST"%string) ∅ (Some body).

(** the request [apiRequest] sends for them from the page [f] *)
Definition postRequest (endpoint : string) (body : Json) (f : Full) : Request :=
  mkRequest "POST" endpoint (apiHeaders (authToken (state (core f))) (post body)) (Some body).

(** What a handler that has met a 401 leaves behind, seen on its result
    element and its button: the message, the button released, and the
    logout under way.  With a token on the page [f1] the logout request is
    out with it, and token and local storage are still there until it
    settles; without one the session is cleared and the login screen shown
    at once. *)
Definition sessionExpired (panel : MainDom -> Panel) (button : MainDom -> Button)
    (f1 : Full) (t : GStep unit) : Prop :=
  let token := authToken (state (core f1)) in
  greturned t = true /\
  shown (panel (main (gstep_full t))) = true /\
  panel_message (panel (main (gstep_full t))) = "Session expired. Please login again."%string /\
  btn_disabled (button (main (gstep_full t))) = false /\
  (truthy token = true ->
   gstep_requests t = [logoutRequest token] /\
   authToken (state (core (gstep_full t))) = token /\
   localStorage (core (gstep_full t)) = localStorage (core f1)) /\
  (truthy token = false ->
   gstep_requests t = [] /\
   sessionCleared (core (gstep_full t)) /\ loginShown (core (gstep_full t))).


End HandlerStatements.
Export HandlerStatements.

(* ===================================================================== *)
(** ** The logo of the login screen (second revision)                     *)
(* ===================================================================== *)

Module Logo.

(** The variables of the click handler that [setupLoginListeners] puts on
    the logo, and the two styles it assigns. *)
Record LogoState : Type := mkLogoState {
  clickCount : nat;
  clickTimer : bool;                   (* the timer set by the last click is pending *)
  secretResetBtn_display : string;
  loginLogo_color : string
}.

(** let clickCount = 0; let clickTimer = null, over the styles of the markup *)
Definition logoStart (display color : string) : LogoState :=
  mkLogoState 0 false display color.

(** the click handler: the count goes up, the pending timer is replaced by
    a new one, and at five the button is shown and the count starts again *)
Definition logoClick (l : LogoState) : LogoState :=
  let counted := mkLogoState (S (clickCount l)) true (secretResetBtn_display l)
                   (loginLogo_color l) in
  if Nat.eqb (clickCount counted) 5 then
    mkLogoState 0 (clickTimer counted) "block" "#D13438"
  else counted.

(** the callback of the timer, two seconds after the last click *)
Definition clickTimerFires (l : LogoState) : LogoState :=
  if clickTimer l then mkLogoState 0 false (secretResetBtn_display l) (loginLogo_color l)
  else l.

Inductive LogoEvent : Type :=
| Click
| TwoSecondsPass.

Definition logoStep (l : LogoState) (e : LogoEvent) : LogoState :=
  match e with
  | Click => logoClick l
  | TwoSecondsPass => clickTimerFires l
  end.

Definition logoRun (es : list LogoEvent) (l : LogoState) : LogoState :=
  fold_left logoStep es l.

End Logo.
Export Logo.

(** Facts read off a store that has been computed. *)
Ltac store_facts :=
  unfold sessionCleared, loginShown, mainAppShown; cbn;
  repeat split; try reflexivity; by simplify_map_eq.

Ltac kept :=
  unfold sessionAndScreenKept, sessionUnchanged; cbn; repeat split; reflexivity.

(* ===================================================================== *)
(** ** The frontend: logout and unauthorized responses                    *)
(* ===================================================================== *)

Section Logout.

(** With no token in [state], [handleLogout] sends nothing and clears at
    once. *)
Lemma handleLogout_no_token (s : Store) :
  truthy (authToken (state s)) = false ->
  exists s', run handleLogout s = Finished (Returned tt) s' [] /\
             sessionCleared s' /\ loginShown s'.
Proof.
  intros Hf. unfold handleLogout. cbn. rewrite Hf. cbn.
  eexists. split; [reflexivity|]. store_facts.
Qed.

(** With a token, it suspends at POST /auth/logout and clears when the
    request settles, whether it was answered or failed. *)
Lemma handleLogout_token (s : Store) :
  truthy (authToken (state s)) = true ->
  exists k, run handleLogout s = Blocked (logoutRequest (authToken (state s))) k s [] /\
            logsOutWhenSettled k.
Proof.
  intros Ht. unfold handleLogout. cbn. rewrite Ht. cbn.
  eexists. split; [reflexivity|].
  intros [r|e] s1; cbn; (eexists; split; [reflexivity|]); store_facts.
Qed.

Lemma handleLogout_loggingOut (s : Store) :
  loggingOut (step_store (run handleLogout s)) (detach (run handleLogout s)).
Proof.
  destruct (truthy (authToken (state s))) eqn:Ht.
  - destruct (handleLogout_token s Ht) as (k & -> & Hk). right. cbn. eauto.
  - destruct (handleLogout_no_token s Ht) as (s' & -> & Hc & Hl). left. cbn. auto.
Qed.

(** While the logout request is in flight, nothing has been cleared. *)
Lemma handleLogout_pending_store (s : Store) :
  truthy (authToken (state s)) = true -> step_store (run handleLogout s) = s.
Proof. intros Ht. destruct (handleLogout_token s Ht) as (k & -> & _). reflexivity. Qed.

(** [apiRequest] sends one request to the endpoint, with the bearer token
    when [state] has one, and changes nothing until it is answered. *)
Lemma apiRequest_sends (endpoint : string) (options : Options) (s : Store) :
  exists k,
    run (apiRequest endpoint options) s =
      Blocked (mkRequest (default "GET"%string (opt_method options)) endpoint
                 (apiHeaders (authToken (state s)) options) (opt_body options)) k s [] /\
    (forall e s1, run (k (Rejected e)) s1 = Finished (Thrown e) s1 []) /\
    (forall r s1, status r <> 401%Z -> run (k (Responded r)) s1 = Finished (Returned r) s1 []) /\
    (forall r s1, status r = 401%Z ->
       run (k (Responded r)) s1 =
         Finished (Thrown "Session expired. Please login again.")
           (step_store (run handleLogout s1)) (detach (run handleLogout s1) ++ [])).
Proof.
  unfold apiRequest. cbn. eexists. split; [reflexivity|]. split; [|split].
  - reflexivity.
  - intros r s1 Hne. cbn. destruct (Z.eqb_spec (status r) 401); [done|]. reflexivity.
  - intros r s1 He. cbn. rewrite He. cbn.
    destruct (run handleLogout s1); reflexivity.
Qed.

Lemma apiHeaders_bearer (token : JsVal) (options : Options) :
  truthy token = true ->
  apiHeaders token options !! "Authorization" = Some ("Bearer " +:+ toString token).
Proof. intros Ht. unfold apiHeaders. rewrite Ht. by simplify_map_eq. Qed.

End Logout.

(** C1. A response with status 401 to a request made through [apiRequest]
    (to any endpoint, those under /ipfs/ and /solana/ among them) makes
    [apiRequest] throw instead of returning the response, and starts
    [handleLogout]: with no token left in [state] the session is cleared and
    the login screen shown at once, otherwise a POST /auth/logout is in
    flight and the session is cleared and the login screen shown as soon as
    that request settles, whatever its outcome. *)
Theorem apiRequest_unauthorized (endpoint : string) (options : Options) (s : Store) (r : Response) :
  status r = 401%Z ->
  exists req k,
    run (apiRequest endpoint options) s = Blocked req k s [] /\
    req_url req = endpoint /\
    (truthy (authToken (state s)) = true ->
     req_headers req !! "Authorization" = Some ("Bearer " +:+ toString (authToken (state s)))) /\
    forall s1 : Store, exists s2 bg,
      run (k (Responded r)) s1 =
        Finished (Thrown "Session expired. Please login again.") s2 bg /\
      loggingOut s2 bg.
Proof.
  intros H401.
  destruct (apiRequest_sends endpoint options s) as (k & Hrun & _ & _ & Hk).
  eexists _, k. split; [exact Hrun|]. split; [reflexivity|]. split.
  - cbn. apply apiHeaders_bearer.
  - intros s1. eexists _, _. split; [apply Hk, H401|].
    rewrite app_nil_r. apply handleLogout_loggingOut.
Qed.

Lemma apiRequest_unauthorized_witness :
  exists req k,
    run (apiRequest "/ipfs/upload" noOptions) loggedInPage = Blocked req k loggedInPage [] /\
    req_url req = "/ipfs/upload"%string /\
    (truthy (authToken (state loggedInPage)) = true ->
     req_headers req !! "Authorization" =
       Some ("Bearer " +:+ toString (authToken (state loggedInPage)))) /\
    forall s1 : Store, exists s2 bg,
      run (k (Responded (mkResponse 401 BodyOther))) s1 =
        Finished (Thrown "Session expired. Please login again.") s2 bg /\
      loggingOut s2 bg.
Proof.
  apply (apiRequest_unauthorized "/ipfs/upload" noOptions loggedInPage (mkResponse 401 BodyOther)).
  reflexivity.
Defined.

(* ===================================================================== *)
(** ** The backend: session table                                         *)
(* ===================================================================== *)

Section SessionTable.
Import Backend.
Context `{PasswordHasher}.

Lemma sessions_login (who password : string) (now : Z) (e : Entropy) (srv : Server) :
  sessions (fst (login who password now e srv)) =
    if negb (is_locked who now srv) && credentials_ok who password srv
    then <[rnd_token e := mkSession who now (now + fixed_ttl)]> (sessions srv)
    else sessions srv.
Proof.
  unfold login. destruct (is_locked who now srv); cbn; [done|].
  destruct (credentials_ok who password srv); cbn; [done|].
  unfold record_failure. by destruct (_ <=? _)%nat.
Qed.

(** A request that keeps [token] leaves its session as it is, or purges it
    because it has expired. *)
Lemma sessions_apply_keeps (token : string) (op : Op) (now : Z) (e : Entropy) (srv : Server) :
  keeps token (op, now, e) ->
  sessions (apply op now e srv) !! token = sessions srv !! token \/
  (sessions (apply op now e srv) !! token = None /\
   exists sess, sessions srv !! token = Some sess /\ (expires_at sess <= now)%Z).
Proof.
  destruct op as [who password | t | t | |]; cbn; intros Hk.
  - left. rewrite sessions_login.
    destruct (_ && _); [|done]. by rewrite lookup_insert_ne.
  - left. by rewrite lookup_delete_ne.
  - unfold authenticate, validate.
    destruct (sessions srv !! t) as [sess|] eqn:Hs; cbn; [|by left].
    destruct (Z.leb_spec (expires_at sess) now); cbn; [|by left].
    destruct (decide (t = token)) as [->|Hne].
    + right. rewrite lookup_delete_eq. eauto.
    + left. by rewrite lookup_delete_ne.
  - by left.
  - done.
Qed.

(** A token without a session has none after a history that does not issue
    it. *)
Lemma sessions_history_absent (token : string) (ops : list (Op * Z * Entropy)) :
  Forall (keeps token) ops ->
  forall srv : Server,
    sessions srv !! token = None -> sessions (applyAll ops srv) !! token = None.
Proof.
  induction 1 as [|[[op now] e] ops Hk Hks IH]; intros srv Hnone; cbn; [done|].
  apply IH. destruct (sessions_apply_keeps token op now e srv Hk)
    as [Heq|[? (? & ? & _)]]; congruence.
Qed.

(** Over a history that keeps it, a session is still the one issued or is
    gone; it is still there if every request came before its expiry. *)
Lemma sessions_history (token : string) (sess : Session) (ops : list (Op * Z * Entropy)) :
  Forall (keeps token) ops ->
  forall srv : Server,
    sessions srv !! token = Some sess ->
    (sessions (applyAll ops srv) !! token = Some sess \/
     sessions (applyAll ops srv) !! token = None) /\
    (Forall (fun opd => (snd (fst opd) < expires_at sess)%Z) ops ->
     sessions (applyAll ops srv) !! token = Some sess).
Proof.
  induction 1 as [|[[op now] e] ops Hk Hks IH]; intros srv Hs; cbn.
  - auto.
  - destruct (sessions_apply_keeps token op now e srv Hk) as [Heq|[Hnone (sess' & Hs' & Hexp)]].
    + rewrite Hs in Heq. destruct (IH _ Heq) as [IH1 IH2]. split; [exact IH1|].
      intros Hall. apply IH2. by apply Forall_cons_1 in Hall as [_ ?].
    + assert (sess' = sess) as -> by congruence. split.
      * right. by apply sessions_history_absent.
      * intros Hall. apply Forall_cons_1 in Hall as [Hlt _]. cbn in Hlt. lia.
Qed.

Lemma validate_present (token : string) (sess : Session) (now : Z) (srv : Server) :
  sessions srv !! token = Some sess ->
  snd (validate token now srv) =
    if (expires_at sess <=? now)%Z then Err Unauthorized else Ok (session_username sess).
Proof. intros Hs. unfold validate. rewrite Hs. by destruct (_ <=? _)%Z. Qed.

Lemma validate_absent (token : string) (now : Z) (srv : Server) :
  sessions srv !! token = None -> snd (validate token now srv) = Err Unauthorized.
Proof. intros Hs. unfold validate. by rewrite Hs. Qed.

(** logout followed by authenticate: Unauthorized, and no later request
    short of a login drawing the same token changes that. *)
Lemma authenticate_after_logout (token : string) (srv : Server)
    (ops : list (Op * Z * Entropy)) (now : Z) :
  Forall (keeps token) ops ->
  snd (authenticate token now (applyAll ops (logout token srv))) = Err Unauthorized.
Proof.
  intros Hk. apply validate_absent, sessions_history_absent; [done|].
  cbn. apply lookup_delete_eq.
Qed.

Lemma logout_idempotent (token : string) (srv : Server) :
  logout token (logout token srv) = logout token srv.
Proof.
  unfold logout, revoke, set_sessions. cbn. f_equal.
  apply map_eq. intros t. destruct (decide (token = t)) as [->|Hne].
  - by rewrite !lookup_delete_eq.
  - by rewrite !lookup_delete_ne.
Qed.

End SessionTable.

(** C7. A session issued at [T0] carries expires_at = T0 + 24 hours.  After
    any history that neither revokes the token, nor resets, nor draws the
    same token again, validation succeeds with the session's user at every
    time before expires_at that is not earlier than the requests of the
    history, and fails with Unauthorized at every time from expires_at on;
    one second past the 24 hours it fails. *)
Theorem issued_token_lifetime `{Backend.PasswordHasher}
    (srv : Backend.Server) (who token : string) (T0 t : Z)
    (ops : list (Backend.Op * Z * Backend.Entropy)) :
  Forall (Backend.keeps token) ops ->
  let srv1 := Backend.issue who T0 token srv in
  (exists sess, Backend.sessions srv1 !! token = Some sess /\
                Backend.session_username sess = who /\
                Backend.issued_at sess = T0 /\
                Backend.expires_at sess = (T0 + 24 * 60 * 60)%Z) /\
  (Forall (fun opd => (snd (fst opd) <= t)%Z) ops -> (t < T0 + 24 * 60 * 60)%Z ->
   snd (Backend.validate token t (Backend.applyAll ops srv1)) = Backend.Ok who) /\
  ((T0 + 24 * 60 * 60 <= t)%Z ->
   snd (Backend.validate token t (Backend.applyAll ops srv1)) = Backend.Err Backend.Unauthorized) /\
  snd (Backend.validate token (T0 + 24 * 60 * 60 + 1) srv1) = Backend.Err Backend.Unauthorized.
Proof.
  intros Hk srv1.
  set (sess := Backend.mkSession who T0 (T0 + Backend.fixed_ttl)).
  assert (Hs : Backend.sessions srv1 !! token = Some sess) by apply lookup_insert_eq.
  destruct (sessions_history token sess ops Hk srv1 Hs) as [Hinv Hkeep].
  split; [|split; [|split]].
  - exists sess. repeat split; done.
  - intros Hbefore Hlt.
    rewrite (validate_present token sess).
    + cbn. unfold Backend.fixed_ttl. destruct (Z.leb_spec (T0 + 24 * 60 * 60) t); [lia|done].
    + apply Hkeep. eapply Forall_impl; [exact Hbefore|].
      intros [[op now] e]; cbn. unfold Backend.fixed_ttl. lia.
  - intros Hge. destruct Hinv as [Hin|Hout].
    + rewrite (validate_present token sess _ _ Hin). cbn. unfold Backend.fixed_ttl.
      destruct (Z.leb_spec (T0 + 24 * 60 * 60) t); [done|lia].
    + by apply validate_absent.
  - rewrite (validate_present token sess _ _ Hs). cbn. unfold Backend.fixed_ttl.
    destruct (Z.leb_spec (T0 + 24 * 60 * 60) (T0 + 24 * 60 * 60 + 1)); [done|lia].
Qed.

Lemma issued_token_lifetime_witness :
  Forall (Backend.keeps "tok-1") history1 /\
  snd (Backend.validate (H := Backend.plainHasher) "tok-1" 86499
         (Backend.applyAll history1 (Backend.issue "swiftpanda247" 100 "tok-1" provisioned)))
    = Backend.Ok "swiftpanda247"%string /\
  snd (Backend.validate (H := Backend.plainHasher) "tok-1" 90000
         (Backend.applyAll history1 (Backend.issue "swiftpanda247" 100 "tok-1" provisioned)))
    = Backend.Err Backend.Unauthorized.
Proof.
  assert (Hk : Forall (Backend.keeps "tok-1") history1).
  { repeat constructor; cbn; discriminate. }
  split; [exact Hk|]. split.
  - refine (proj1 (proj2 (issued_token_lifetime (H := Backend.plainHasher)
             provisioned "swiftpanda247" "tok-1" 100 86499 history1 Hk)) _ _).
    + repeat constructor; cbn; lia.
    + lia.
  - refine (proj1 (proj2 (proj2 (issued_token_lifetime (H := Backend.plainHasher)
             provisioned "swiftpanda247" "tok-1" 100 90000 history1 Hk))) _).
    lia.
Defined.

(* ===================================================================== *)
(** ** The backend: rate limiter and login                                *)
(* ===================================================================== *)

Section RateLimiter.
Import Backend.
Context `{PasswordHasher}.

Lemma counter_set (who : string) (c : LoginAttemptCounter) (srv : Server) :
  counter who (set_counter who c srv) = c.
Proof. unfold counter, set_counter. cbn. by rewrite lookup_insert_eq. Qed.

(** A wrong password for an identity that is not locked out is refused
    and counted; the fifth failure in a row locks. *)
Lemma login_wrong (who password : string) (now : Z) (e : Entropy) (srv : Server) :
  is_locked who now srv = false ->
  credentials_ok who password srv = false ->
  exists srv',
    login who password now e srv = (srv', Err InvalidCredentials) /\
    identity srv' = identity srv /\
    counter who srv' =
      (if (threshold <=? S (failure_count (counter who srv)))%nat
       then mkCounter 0 (Some (now + lockout_duration)%Z)
       else mkCounter (S (failure_count (counter who srv))) (locked_until (counter who srv))).
Proof.
  intros Hl Hc. unfold login. rewrite Hl, Hc. eexists. split; [reflexivity|].
  unfold record_failure. destruct (_ <=? _)%nat; by rewrite counter_set.
Qed.

Lemma credentials_ok_identity (who password : string) (srv srv' : Server) :
  identity srv' = identity srv ->
  credentials_ok who password srv' = credentials_ok who password srv.
Proof. intros Hi. unfold credentials_ok. by rewrite Hi. Qed.

Lemma is_locked_counter (who : string) (now : Z) (srv srv' : Server) :
  locked_until (counter who srv') = locked_until (counter who srv) ->
  is_locked who now srv' = is_locked who now srv.
Proof. intros Hc. unfold is_locked. by rewrite Hc. Qed.

(** Failures that stay below the threshold are each answered with
    InvalidCredentials and counted. *)
Lemma attempts_below_threshold (who : string) (tries : list (string * Z * Entropy)) :
  forall srv : Server,
    failure_count (counter who srv) + length tries < threshold ->
    Forall (fun a => credentials_ok who (fst (fst a)) srv = false) tries ->
    Forall (fun a => is_locked who (snd (fst a)) srv = false) tries ->
    exists srv',
      attempts who tries srv = (srv', replicate (length tries) (Err InvalidCredentials)) /\
      identity srv' = identity srv /\
      counter who srv' =
        mkCounter (failure_count (counter who srv) + length tries)
                  (locked_until (counter who srv)).
Proof.
  induction tries as [|[[password now] e] tries IH]; intros srv Hlt Hwrong Hfree; cbn.
  - exists srv. rewrite Nat.add_0_r. by destruct (counter who srv).
  - cbn in Hlt.
    apply Forall_cons_1 in Hwrong as [Hw Hwrong]. apply Forall_cons_1 in Hfree as [Hf Hfree].
    cbn in Hw, Hf.
    destruct (login_wrong who password now e srv Hf Hw) as (srv1 & -> & Hid & Hcnt).
    destruct (Nat.leb_spec threshold (S (failure_count (counter who srv)))); [lia|].
    destruct (IH srv1) as (srv' & -> & Hid' & Hcnt').
    + rewrite Hcnt. cbn. lia.
    + eapply Forall_impl; [exact Hwrong|]. intros a Ha. cbn in *.
      by rewrite (credentials_ok_identity _ _ _ _ Hid).
    + eapply Forall_impl; [exact Hfree|]. intros a Ha. cbn in *.
      rewrite (is_locked_counter who _ srv srv1); [done|]. by rewrite Hcnt.
    + exists srv'. split; [reflexivity|]. split; [congruence|].
      rewrite Hcnt', Hcnt. cbn. f_equal. lia.
Qed.

Lemma attempts_app (who : string) (l1 l2 : list (string * Z * Entropy)) (srv : Server) :
  attempts who (l1 ++ l2) srv =
    (fst (attempts who l2 (fst (attempts who l1 srv))),
     snd (attempts who l1 srv) ++ snd (attempts who l2 (fst (attempts who l1 srv)))).
Proof.
  revert srv. induction l1 as [|[[password now] e] l1 IH]; intros srv; cbn.
  - by destruct (attempts who l2 srv).
  - destruct (login who password now e srv) as [srv1 r].
    rewrite IH. by destruct (attempts who l1 srv1).
Qed.

(** While the lockout lasts every login is refused, and nothing changes. *)
Lemma login_locked (who password : string) (now until : Z) (e : Entropy) (srv : Server) :
  locked_until (counter who srv) = Some until -> (now < until)%Z ->
  login who password now e srv = (srv, Err (LockedOut (until - now))).
Proof.
  intros Hu Hlt. unfold login, is_locked. rewrite Hu. cbn.
  destruct (Z.ltb_spec now until); [done|lia].
Qed.

(** Once it is over, the right credentials are accepted and the counter
    is cleared. *)
Lemma login_right (who password : string) (now : Z) (e : Entropy) (srv : Server) :
  is_locked who now srv = false ->
  credentials_ok who password srv = true ->
  exists srv',
    login who password now e srv = (srv', Ok (rnd_token e)) /\
    counter who srv' = mkCounter 0 None /\
    sessions srv' !! rnd_token e = Some (mkSession who now (now + fixed_ttl)).
Proof.
  intros Hl Hc. unfold login. rewrite Hl, Hc. eexists. split; [reflexivity|]. split.
  - unfold issue, record_success, counter. cbn. by rewrite lookup_insert_eq.
  - cbn. by rewrite lookup_insert_eq.
Qed.

End RateLimiter.

(** C6. For an identity whose counter is at 0 and which is not locked out,
    five failed logins in a row are each answered InvalidCredentials and the
    fifth starts the lockout: until 15 minutes after it every login, with
    the right credentials too, is answered LockedOut and changes nothing;
    from then on a login with the right credentials succeeds and leaves
    failure_count at 0. *)
Theorem lockout_after_five_failures `{Backend.PasswordHasher}
    (srv : Backend.Server) (who good : string)
    (first4 : list (string * Z * Backend.Entropy)) (fifth : string * Z * Backend.Entropy) :
  Backend.credentials_ok who good srv = true ->
  Backend.failure_count (Backend.counter who srv) = 0 ->
  length first4 = 4 ->
  Forall (fun a => Backend.credentials_ok who (fst (fst a)) srv = false) (first4 ++ [fifth]) ->
  Forall (fun a => Backend.is_locked who (snd (fst a)) srv = false) (first4 ++ [fifth]) ->
  let last := snd (fst fifth) in
  exists srv5,
    Backend.attempts who (first4 ++ [fifth]) srv =
      (srv5, replicate 5 (Backend.Err Backend.InvalidCredentials)) /\
    (forall (password : string) (t : Z) (e : Backend.Entropy),
       (t < last + 15 * 60)%Z ->
       Backend.login who password t e srv5 =
         (srv5, Backend.Err (Backend.LockedOut (last + 15 * 60 - t)))) /\
    (forall (t : Z) (e : Backend.Entropy),
       (last + 15 * 60 <= t)%Z ->
       exists srv6,
         Backend.login who good t e srv5 = (srv6, Backend.Ok (Backend.rnd_token e)) /\
         Backend.failure_count (Backend.counter who srv6) = 0 /\
         Backend.locked_until (Backend.counter who srv6) = None).
Proof.
  intros Hgood Hzero Hlen Hwrong Hfree last.
  apply Forall_app in Hwrong as [Hwrong4 Hwrong5].
  apply Forall_app in Hfree as [Hfree4 Hfree5].
  apply Forall_cons_1 in Hwrong5 as [Hwrong5 _]. apply Forall_cons_1 in Hfree5 as [Hfree5 _].
  destruct fifth as [[password5 t5] e5]. cbn in Hwrong5, Hfree5, last.
  destruct (attempts_below_threshold who first4 srv) as (srv4 & Hrun4 & Hid4 & Hcnt4); auto.
  { rewrite Hzero, Hlen. unfold Backend.threshold. lia. }
  destruct (login_wrong who password5 t5 e5 srv4) as (srv5 & Hrun5 & Hid5 & Hcnt5).
  { rewrite (is_locked_counter who t5 srv srv4); [done|]. by rewrite Hcnt4. }
  { by rewrite (credentials_ok_identity _ _ _ _ Hid4). }
  rewrite Hcnt4, Hzero, Hlen in Hcnt5. cbn in Hcnt5.
  exists srv5. split; [|split].
  - rewrite attempts_app, Hrun4. cbn. rewrite Hrun5, Hlen. reflexivity.
  - intros password t e Hlt. apply login_locked; [by rewrite Hcnt5|].
    unfold Backend.lockout_duration. subst last. lia.
  - intros t e Hge.
    destruct (login_right who good t e srv5) as (srv6 & Hrun6 & Hcnt6 & _).
    + unfold Backend.is_locked. rewrite Hcnt5. cbn.
      destruct (Z.ltb_spec t (t5 + Backend.lockout_duration)); [|done].
      unfold Backend.lockout_duration in *. subst last. lia.
    + rewrite (credentials_ok_identity who good srv srv5); [done|congruence].
    + exists srv6. rewrite Hcnt6. auto.
Qed.

Lemma lockout_after_five_failures_witness :
  exists srv5,
    Backend.attempts (H := Backend.plainHasher) "swiftpanda247"
      (fourWrong ++ [("e"%string, 204%Z, draws2)]) withSession =
      (srv5, replicate 5 (Backend.Err Backend.InvalidCredentials)) /\
    (forall (password : string) (t : Z) (e : Backend.Entropy),
       (t < 204 + 15 * 60)%Z ->
       Backend.login "swiftpanda247" password t e srv5 =
         (srv5, Backend.Err (Backend.LockedOut (204 + 15 * 60 - t)))) /\
    (forall (t : Z) (e : Backend.Entropy),
       (204 + 15 * 60 <= t)%Z ->
       exists srv6,
         Backend.login "swiftpanda247" "k3Xp!9vQz#Lm2@Rt7&Wy" t e srv5 =
           (srv6, Backend.Ok (Backend.rnd_token e)) /\
         Backend.failure_count (Backend.counter "swiftpanda247" srv6) = 0 /\
         Backend.locked_until (Backend.counter "swiftpanda247" srv6) = None).
Proof.
  apply (lockout_after_five_failures (H := Backend.plainHasher) withSession
           "swiftpanda247" "k3Xp!9vQz#Lm2@Rt7&Wy" fourWrong ("e"%string, 204%Z, draws2)).
  - reflexivity.
  - reflexivity.
  - reflexivity.
  - repeat constructor.
  - repeat constructor.
Defined.

(* ===================================================================== *)
(** ** Logout, page and backend together                                  *)
(* ===================================================================== *)

Section LogoutEndToEnd.
Import Backend System.
Context `{PasswordHasher}.

Lemma bearer_logoutRequest (token : string) :
  bearer (logoutRequest (JStr token)) = Some token.
Proof.
  unfold bearer, logoutRequest. cbn [req_headers toString].
  rewrite lookup_singleton_eq. reflexivity.
Qed.

(** A logout request that reaches the backend revokes the session of its
    token and is answered with success. *)
Lemma serve_logout (now : Z) (e : Entropy) (token : string) (srv : Server) :
  serve now e (logoutRequest (JStr token)) srv =
    (logout token srv, mkResponse 200 (BodyObject {[ "success" := JBool true ]})).
Proof.
  unfold serve. cbn [req_url logoutRequest].
  rewrite bool_decide_eq_false_2 by discriminate.
  rewrite bool_decide_eq_true_2 by reflexivity.
  fold (logoutRequest (JStr token)). by rewrite bearer_logoutRequest.
Qed.

Lemma handleLogout_requests (s : Store) :
  step_requests (run handleLogout s) =
    if truthy (authToken (state s)) then [logoutRequest (authToken (state s))] else [].
Proof.
  destruct (truthy (authToken (state s))) eqn:Ht.
  - by destruct (handleLogout_token s Ht) as (k & -> & _).
  - by destruct (handleLogout_no_token s Ht) as (s' & -> & _).
Qed.

End LogoutEndToEnd.

(** C2, as the code has it.  From every store, [handleLogout] ends with
    state.authToken and state.username null, both stored keys removed and
    the login screen shown: at once and without a request when [state] has
    no token, otherwise when its POST /auth/logout settles, answered or
    failed.  A logout request that reaches the backend revokes the token,
    again and again with the same effect, and authenticating with it
    afterwards is Unauthorized; a request that fails on the way leaves the
    backend as it was. *)
Theorem handleLogout_clears_and_revokes `{Backend.PasswordHasher}
    (s : Store) (srv : Backend.Server) (now : Z) (e : Backend.Entropy) :
  let t := run handleLogout s in
  loggingOut (step_store t) (detach t) /\
  (truthy (authToken (state s)) = false -> step_requests t = []) /\
  (forall token : string,
     authToken (state s) = JStr token -> token <> ""%string ->
     step_requests t = [logoutRequest (JStr token)] /\
     System.server (System.deliver 0 now e
                      (System.user handleLogout (System.mkSystem (mkMachine s []) srv)))
       = Backend.logout token srv /\
     System.server (System.lose 0 "Failed to fetch"
                      (System.user handleLogout (System.mkSystem (mkMachine s []) srv)))
       = srv) /\
  (forall (token : string) (ops : list (Backend.Op * Z * Backend.Entropy)) (later : Z),
     Forall (Backend.keeps token) ops ->
     snd (Backend.authenticate token later (Backend.applyAll ops (Backend.logout token srv)))
       = Backend.Err Backend.Unauthorized) /\
  (forall token : string,
     Backend.logout token (Backend.logout token srv) = Backend.logout token srv).
Proof.
  intros t. split; [apply handleLogout_loggingOut|]. split; [|split; [|split]].
  - intros Hf. subst t. by rewrite handleLogout_requests, Hf.
  - intros token Htok Hne.
    assert (Ht : truthy (authToken (state s)) = true).
    { rewrite Htok. cbn. by apply negb_true_iff, String.eqb_neq. }
    split; [|split].
    + subst t. by rewrite handleLogout_requests, Ht, Htok.
    + unfold System.deliver, System.user, dispatch. cbn [System.page System.server store pending].
      destruct (handleLogout_token s Ht) as (k & -> & _). cbn. rewrite Htok.
      by rewrite serve_logout.
    + reflexivity.
  - intros token ops later Hk. by apply authenticate_after_logout.
  - intros token. apply logout_idempotent.
Qed.

Lemma handleLogout_clears_and_revokes_witness :
  step_requests (run handleLogout loggedInPage) = [logoutRequest (JStr "tok-1")] /\
  System.server (System.deliver 0 200 draws2 (System.user handleLogout sysLoggedIn))
    = Backend.logout "tok-1" withSession /\
  System.server (System.lose 0 "Failed to fetch" (System.user handleLogout sysLoggedIn))
    = withSession.
Proof.
  apply (proj1 (proj2 (proj2
    (handleLogout_clears_and_revokes (H := Backend.plainHasher)
       loggedInPage withSession 200 draws2))) "tok-1"%string).
  - reflexivity.
  - discriminate.
Defined.

(** The claim C2 as it is worded fails where the logout request fails before
    it reaches the backend: the page ends logged out, and the token still
    authenticates. *)
Lemma handleLogout_failed_request_counterexample :
  let sys := System.lose 0 "Failed to fetch" (System.user handleLogout sysLoggedIn) in
  authToken (state (store (System.page sys))) = JNull /\
  username (state (store (System.page sys))) = JNull /\
  localStorage (store (System.page sys)) !! "authToken" = None /\
  localStorage (store (System.page sys)) !! "username" = None /\
  loginShown (store (System.page sys)) /\
  pending (System.page sys) = [] /\
  snd (Backend.authenticate "tok-1" 200 (System.server sys)) = Backend.Ok "swiftpanda247"%string /\
  snd (Backend.authenticate "tok-1" 200 (System.server sys)) <> Backend.Err Backend.Unauthorized.
Proof.
  cbv zeta. repeat split; try (vm_compute; reflexivity).
  vm_compute. discriminate.
Qed.

(* ===================================================================== *)
(** ** The frontend: login and session restore                            *)
(* ===================================================================== *)

Section Login.

(** The health check sends GET /health; whatever comes of it, only the two
    status indicators and the console change. *)
Lemma checkHealth_run (s : Store) :
  run checkHealth s = Blocked healthRequest checkHealth_resumed s [].
Proof. reflexivity. Qed.

Lemma checkHealth_settles : healthSettles checkHealth_resumed.
Proof.
  intros [r|e] s1; cbn.
  - unfold response_json. destruct (body r) as [| | |obj]; cbn;
      (eexists; split; [reflexivity|]); kept.
  - eexists; split; [reflexivity|]; kept.
Qed.

Lemma showMainApp_run (s : Store) :
  run showMainApp s = Finished (Returned tt) (mainAppStore s) [(healthRequest, checkHealth_resumed)].
Proof. reflexivity. Qed.

Lemma mainAppStore_shown (s : Store) : mainAppShown (mainAppStore s).
Proof. split; reflexivity. Qed.


End Login.





Section Restore.

Lemma checkExistingSession_run (s : Store) :
  run checkExistingSession s =
    match localStorage s !! "authToken", localStorage s !! "username" with
    | Some tk, Some nm =>
        if negb (String.eqb tk "") && negb (String.eqb nm "") then
          Finished (Returned tt)
            (mainAppStore (upd_state (set_username (JStr nm))
                             (upd_state (set_authToken (JStr tk)) s)))
            [(healthRequest, checkHealth_resumed)]
        else Finished (Returned tt) s []
    | _, _ => Finished (Returned tt) s []
    end.
Proof.
  unfold checkExistingSession. cbn.
  destruct (localStorage s !! "authToken") as [tk|], (localStorage s !! "username") as [nm|];
    cbn; try reflexivity.
  - destruct (negb (tk =? "")%string), (negb (nm =? "")%string); reflexivity.
  - destruct (negb (tk =? "")%string); reflexivity.
Qed.

End Restore.

(** C10, as the code has it.  [checkExistingSession] restores the session
    (state.authToken and state.username set from local storage, main
    application shown) if and only if both keys are stored with values that
    are not empty.  It does so without asking the backend about the token:
    the one request it causes is the GET /health of [showMainApp], which
    carries no token and whose settling touches neither the session nor the
    screen.  So a token that the backend no longer accepts still opens the
    main application; a later request through [apiRequest] that is answered
    401 throws and logs the page out. *)
Theorem checkExistingSession_restores (s : Store) :
  let t := run checkExistingSession s in
  (nonEmptyItem (localStorage s) "authToken" /\ nonEmptyItem (localStorage s) "username" ->
   exists tk nm,
     localStorage s !! "authToken" = Some tk /\ localStorage s !! "username" = Some nm /\
     t = Finished (Returned tt)
           (mainAppStore (upd_state (set_username (JStr nm))
                            (upd_state (set_authToken (JStr tk)) s)))
           [(healthRequest, checkHealth_resumed)] /\
     authToken (state (step_store t)) = JStr tk /\
     username (state (step_store t)) = JStr nm /\
     mainAppShown (step_store t)) /\
  (~ (nonEmptyItem (localStorage s) "authToken" /\ nonEmptyItem (localStorage s) "username") ->
   t = Finished (Returned tt) s []) /\
  (forall req : Request, req ∈ step_requests t -> req = healthRequest) /\
  req_headers healthRequest = ∅ /\
  healthSettles checkHealth_resumed /\
  (forall (endpoint : string) (options : Options) (r : Response) (s1 s2 : Store),
     status r = 401%Z ->
     exists s3 bg,
       run (resumption (run (apiRequest endpoint options) s1) (Responded r)) s2 =
         Finished (Thrown "Session expired. Please login again.") s3 bg /\
       loggingOut s3 bg).
Proof.
  intros t. subst t. rewrite checkExistingSession_run.
  split; [|split; [|split; [|split; [|split]]]].
  - intros [(tk & Htk & Hne1) (nm & Hnm & Hne2)]. exists tk, nm.
    rewrite Htk, Hnm.
    apply String.eqb_neq in Hne1, Hne2. rewrite Hne1, Hne2. cbn.
    repeat split; reflexivity.
  - intros Hnot.
    destruct (localStorage s !! "authToken") as [tk|] eqn:Htk; [|reflexivity].
    destruct (localStorage s !! "username") as [nm|] eqn:Hnm; [|reflexivity].
    destruct (String.eqb_spec tk ""); [reflexivity|].
    destruct (String.eqb_spec nm ""); [reflexivity|].
    exfalso. apply Hnot. split; eexists; eauto.
  - intros req.
    destruct (localStorage s !! "authToken") as [tk|]; [|by intros ?%elem_of_nil].
    destruct (localStorage s !! "username") as [nm|]; [|by intros ?%elem_of_nil].
    destruct (_ && _); cbn; [|by intros ?%elem_of_nil].
    by intros ->%list_elem_of_singleton.
  - reflexivity.
  - apply checkHealth_settles.
  - intros endpoint options r s1 s2 H401.
    destruct (apiRequest_sends endpoint options s1) as (k & -> & _ & _ & Hk).
    cbn. eexists _, _. split; [apply Hk, H401|].
    rewrite app_nil_r. apply handleLogout_loggingOut.
Qed.

Lemma checkExistingSession_restores_witness :
  exists tk nm,
    localStorage returningPage !! "authToken" = Some tk /\
    localStorage returningPage !! "username" = Some nm /\
    run checkExistingSession returningPage =
      Finished (Returned tt)
        (mainAppStore (upd_state (set_username (JStr nm))
                         (upd_state (set_authToken (JStr tk)) returningPage)))
        [(healthRequest, checkHealth_resumed)] /\
    authToken (state (step_store (run checkExistingSession returningPage))) = JStr tk /\
    username (state (step_store (run checkExistingSession returningPage))) = JStr nm /\
    mainAppShown (step_store (run checkExistingSession returningPage)).
Proof.
  apply (proj1 (checkExistingSession_restores returningPage)).
  split; eexists; (split; [reflexivity|discriminate]).
Defined.

(** The claim C10 as it is worded fails on "without contacting the server":
    restoring the session sends a request to the backend. *)
Lemma checkExistingSession_contacts_server_counterexample :
  mainAppShown (step_store (run checkExistingSession returningPage)) /\
  step_requests (run checkExistingSession returningPage) =
    [mkRequest "GET" "/health" ∅ None] /\
  step_requests (run checkExistingSession returningPage) <> [].
Proof.
  split; [|split].
  - split; reflexivity.
  - reflexivity.
  - discriminate.
Qed.

(* ===================================================================== *)
(** ** First start and reset                                              *)
(* ===================================================================== *)

Section FirstTime.

Lemma checkFirstTimeSetup_run (s : Store) :
  run checkFirstTimeSetup s = Blocked firstTimeRequest checkFirstTimeSetup_resumed s [].
Proof. reflexivity. Qed.

(** What [checkFirstTimeSetup] does with a JSON object. *)
Lemma checkFirstTimeSetup_object (r : Response) (obj : Json) (s1 : Store) :
  body r = BodyObject obj ->
  run (checkFirstTimeSetup_resumed (Responded r)) s1 =
    Finished (Returned tt)
      (if truthy (get obj "is_first_time") && truthy (get obj "username") &&
          truthy (get obj "password")
       then credentialsShown (toString (get obj "username")) (toString (get obj "password")) s1
       else s1) [].
Proof.
  intros Hb. cbn. unfold response_json. rewrite Hb. cbn. unfold get.
  destruct (truthy (default JUndefined (obj !! "is_first_time"))); cbn; [|reflexivity].
  destruct (truthy (default JUndefined (obj !! "username"))); cbn; [|reflexivity].
  destruct (truthy (default JUndefined (obj !! "password"))); reflexivity.
Qed.

(** With any other outcome nothing is shown. *)
Lemma checkFirstTimeSetup_other (o : Outcome) (s1 : Store) :
  (forall r obj, o = Responded r -> body r <> BodyObject obj) ->
  exists s2, run (checkFirstTimeSetup_resumed o) s1 = Finished (Returned tt) s2 [] /\
             state s2 = state s1 /\ dom s2 = dom s1 /\ localStorage s2 = localStorage s1.
Proof.
  intros Hno. destruct o as [r|e]; cbn.
  - unfold response_json. destruct (body r) as [| | |obj] eqn:Hb; cbn;
      try (eexists; split; [reflexivity|]; repeat split; reflexivity).
    by destruct (Hno r obj).
  - eexists; split; [reflexivity|]; repeat split; reflexivity.
Qed.


End FirstTime.
Section RunLaws.

Lemma add_bg_nil {A : Type} (t : Step A) : add_bg [] t = t.
Proof. by destruct t. Qed.

Lemma add_bg_app {A : Type} (bg1 bg2 : list Pending) (t : Step A) :
  add_bg bg1 (add_bg bg2 t) = add_bg (bg1 ++ bg2) t.
Proof. destruct t; cbn; by rewrite app_assoc. Qed.

(** Running [p] and then [f]: the turn of [p], and that of [f] if [p] has
    returned without suspending. *)
Lemma run_bind {A B : Type} (p : Proc A) (f : A -> Proc B) (s : Store) :
  run (bind p f) s =
    match run p s with
    | Finished (Returned a) s' bg => add_bg bg (run (f a) s')
    | Finished (Thrown e) s' bg => Finished (Thrown e) s' bg
    | Blocked req k s' bg => Blocked req (fun o => bind (k o) f) s' bg
    end.
Proof.
  revert B f s. induction p as [A a|A e|A k IH|A s0 k IH|A req k IH|A child _ k IH];
    intros B f s; cbn.
  - by rewrite add_bg_nil.
  - reflexivity.
  - apply IH.
  - apply IH.
  - reflexivity.
  - rewrite IH. destruct (run k (step_store (run child s))) as [[a|e] s' bg|req k' s' bg]; cbn.
    + by rewrite add_bg_app.
    + reflexivity.
    + reflexivity.
Qed.

End RunLaws.

Section PageLoad.


Lemma init_resumed_bind (o : Outcome) :
  init_resumed o = bind (checkFirstTimeSetup_resumed o) (fun _ => checkExistingSession).
Proof. reflexivity. Qed.



End PageLoad.

Section FirstTimeBackend.
Import Backend System.
Context `{PasswordHasher}.










End FirstTimeBackend.



Section Reset.




(** Any other outcome is reported in an alert, without a reload. *)
Lemma resetApplication_failure (o : Outcome) (s1 : Store) :
  (forall r obj, o = Responded r -> body r = BodyObject obj -> truthy (get obj "success") = false) ->
  exists s2, run (resetApplication_resumed o) s1 = Finished (Returned tt) s2 [] /\
             reloads s2 = reloads s1.
Proof.
  intros Hno. destruct o as [r|e]; cbn; [|by eexists].
  unfold response_json. destruct (body r) as [| | |obj] eqn:Hb; cbn; try by eexists.
  specialize (Hno r obj eq_refl Hb). unfold get in Hno. rewrite Hno. cbn. by eexists.
Qed.

End Reset.



(* ===================================================================== *)
(** ** formatBytes                                                        *)
(* ===================================================================== *)

Section FormatBytes.

Lemma k_pow (i : N) : (k ^ i = 2 ^ (10 * i))%N.
Proof. unfold k. change 1024%N with (2 ^ 10)%N. by rewrite N.pow_mul_r. Qed.

(** The unit index is the largest [i] with [k ^ i <= bytes]. *)
Lemma unitIndex_spec (bytes : N) :
  (1 <= bytes)%N ->
  (k ^ unitIndex bytes <= bytes < k ^ (unitIndex bytes + 1))%N.
Proof.
  intros Hpos. unfold unitIndex. rewrite !k_pow.
  destruct (N.log2_spec bytes) as [Hlo Hhi]; [lia|].
  split.
  - etransitivity; [|exact Hlo]. apply N.pow_le_mono_r; [done|].
    apply N.Div0.mul_div_le.
  - eapply N.lt_le_trans; [exact Hhi|]. apply N.pow_le_mono_r; [done|].
    pose proof (N.mul_succ_div_gt (N.log2 bytes) 10 ltac:(done)). lia.
Qed.

Lemma unitIndex_small (bytes : N) :
  (1 <= bytes)%N -> (unitIndex bytes < 4 <-> bytes < k ^ 4)%N.
Proof.
  intros Hpos. unfold unitIndex. rewrite k_pow. change (10 * 4)%N with 40%N.
  rewrite (N.log2_lt_pow2 bytes 40) by lia.
  split; intros Hlt.
  - pose proof (N.mul_succ_div_gt (N.log2 bytes) 10 ltac:(done)). lia.
  - apply N.Div0.div_lt_upper_bound. lia.
Qed.

Lemma ln_k_pos : (0 < ln 1024)%R.
Proof. rewrite <- ln_1. apply ln_increasing; lra. Qed.

Lemma IZR_k_pow (i : N) : IZR (Z.of_N (k ^ i)) = (1024 ^ N.to_nat i)%R.
Proof.
  rewrite N2Z.inj_pow. unfold k. rewrite pow_IZR. f_equal.
  by rewrite N_nat_Z.
Qed.

Lemma ln_le (x y : R) : (0 < x)%R -> (x <= y)%R -> (ln x <= ln y)%R.
Proof.
  intros Hx [Hlt | ->]; [|lra]. left. by apply ln_increasing.
Qed.

(** [unitIndex] is the floor of the quotient of the logarithms, taken over
    the reals. *)
Lemma unitIndex_floor (bytes : N) :
  (1 <= bytes)%N ->
  (IZR (Z.of_N (unitIndex bytes)) <= ln (IZR (Z.of_N bytes)) / ln 1024
     < IZR (Z.of_N (unitIndex bytes)) + 1)%R.
Proof.
  intros Hpos. destruct (unitIndex_spec bytes Hpos) as [Hlo Hhi].
  set (i := unitIndex bytes) in *.
  pose proof ln_k_pos as HL.
  assert (Hb : (0 < IZR (Z.of_N bytes))%R) by (apply IZR_lt; lia).
  assert (Hi : IZR (Z.of_N i) = INR (N.to_nat i)).
  { by rewrite INR_IZR_INZ, N_nat_Z. }
  assert (Hlo' : (IZR (Z.of_N i) * ln 1024 <= ln (IZR (Z.of_N bytes)))%R).
  { rewrite Hi, <- ln_pow by lra. apply ln_le; [apply pow_lt; lra|].
    rewrite <- IZR_k_pow. apply IZR_le. lia. }
  assert (Hhi' : (ln (IZR (Z.of_N bytes)) < (IZR (Z.of_N i) + 1) * ln 1024)%R).
  { replace (IZR (Z.of_N i) + 1)%R with (INR (N.to_nat (i + 1))).
    - rewrite <- ln_pow by lra. apply ln_increasing; [done|].
      rewrite <- IZR_k_pow. apply IZR_lt. lia.
    - rewrite Hi, N2Nat.inj_add, plus_INR. reflexivity. }
  assert (Hq : (ln (IZR (Z.of_N bytes)) / ln 1024 * ln 1024 = ln (IZR (Z.of_N bytes)))%R).
  { field. lra. }
  split.
  - apply (Rmult_le_reg_r (ln 1024)); [done|]. by rewrite Hq.
  - apply (Rmult_lt_reg_r (ln 1024)); [done|]. by rewrite Hq.
Qed.

Lemma formatBytes_unit (bytes : N) :
  (1 <= bytes)%N ->
  formatBytes bytes =
    renderHundredths (hundredths bytes (unitIndex bytes)) +:+ " " +:+ unitName (unitIndex bytes).
Proof.
  intros Hpos. unfold formatBytes. destruct (N.eqb_spec bytes 0); [lia|done].
Qed.

End FormatBytes.

(** C9.  formatBytes(0) is '0 Bytes'.  For every byte count from 1 up to,
    but not including, 1024^4 the unit index, the floor of
    log(bytes) / log(1024) with the logarithms and the quotient taken
    exactly, is at most 3, a position of the sizes array, and the result
    ends in a space and one of Bytes, KB, MB, GB.  From 1024^4 on the index
    is at least 4, past the last position, and no unit is found. *)
Theorem formatBytes_unit_index (bytes : N) :
  formatBytes 0 = "0 Bytes"%string /\
  ((1 <= bytes)%N ->
   (IZR (Z.of_N (unitIndex bytes)) <= ln (IZR (Z.of_N bytes)) / ln 1024
      < IZR (Z.of_N (unitIndex bytes)) + 1)%R) /\
  ((1 <= bytes < 1024 ^ 4)%N ->
   N.to_nat (unitIndex bytes) < length sizes /\
   exists u : string,
     sizes !! N.to_nat (unitIndex bytes) = Some u /\
     endsWith (formatBytes bytes) (" " +:+ u)) /\
  ((1024 ^ 4 <= bytes)%N ->
   length sizes <= N.to_nat (unitIndex bytes) /\
   sizes !! N.to_nat (unitIndex bytes) = None /\
   endsWith (formatBytes bytes) " undefined").
Proof.
  split; [reflexivity|]. split; [apply unitIndex_floor|]. split.
  - intros [Hpos Hlt].
    assert (Hi : (unitIndex bytes < 4)%N) by by apply unitIndex_small.
    assert (Hlen : N.to_nat (unitIndex bytes) < length sizes) by (cbn; lia).
    split; [exact Hlen|].
    destruct (lookup_lt_is_Some_2 sizes _ Hlen) as [u Hu].
    exists u. split; [exact Hu|].
    rewrite formatBytes_unit by done. unfold unitName. rewrite Hu.
    eexists. reflexivity.
  - intros Hge.
    assert (Hpos : (1 <= bytes)%N) by (cbn in Hge; lia).
    assert (Hi : ~ (unitIndex bytes < 4)%N).
    { rewrite unitIndex_small by done. unfold k. lia. }
    assert (Hlen : length sizes <= N.to_nat (unitIndex bytes)) by (cbn; lia).
    split; [exact Hlen|].
    assert (Hnone : sizes !! N.to_nat (unitIndex bytes) = None) by by apply lookup_ge_None_2.
    split; [exact Hnone|].
    rewrite formatBytes_unit by done. unfold unitName. rewrite Hnone.
    exists (renderHundredths (hundredths bytes (unitIndex bytes))). reflexivity.
Qed.

Lemma formatBytes_unit_index_witness :
  N.to_nat (unitIndex 1536) < length sizes /\
  exists u : string,
    sizes !! N.to_nat (unitIndex 1536) = Some u /\
    endsWith (formatBytes 1536) (" " +:+ u).
Proof.
  apply (proj1 (proj2 (proj2 (formatBytes_unit_index 1536)))).
  split; [lia|]. reflexivity.
Defined.

(* ===================================================================== *)
(** ** Further properties of the frontend                                 *)
(* ===================================================================== *)

Section LogoutMore.

Lemma handleLogout_run_token (s : Store) :
  truthy (authToken (state s)) = true ->
  run handleLogout s = Blocked (logoutRequest (authToken (state s))) handleLogout_resumed s [].
Proof. intros Ht. unfold handleLogout. cbn. rewrite Ht. reflexivity. Qed.

Lemma handleLogout_run_no_token (s : Store) :
  truthy (authToken (state s)) = false ->
  run handleLogout s = Finished (Returned tt) (loggedOut s) [].
Proof. intros Ht. unfold handleLogout. cbn. rewrite Ht. reflexivity. Qed.

Lemma handleLogout_resumed_run (o : Outcome) (s : Store) :
  run (handleLogout_resumed o) s =
    Finished (Returned tt)
      (loggedOut (match o with
                  | Responded _ => s
                  | Rejected e => consoleLogged "Logout error:" e s
                  end)) [].
Proof. destruct o; reflexivity. Qed.

End LogoutMore.

Section InitMore.

(** Whatever becomes of the first-time request, the check leaves [state],
    local storage and the two screens as they are. *)
Lemma checkFirstTimeSetup_keeps_session (o : Outcome) (s1 : Store) :
  exists s2,
    run (checkFirstTimeSetup_resumed o) s1 = Finished (Returned tt) s2 [] /\
    state s2 = state s1 /\ localStorage s2 = localStorage s1 /\
    loginScreen_display (dom s2) = loginScreen_display (dom s1) /\
    mainApp_display (dom s2) = mainApp_display (dom s1).
Proof.
  destruct o as [r|e].
  - destruct (body r) as [| | |obj] eqn:Hb.
    4: { rewrite (checkFirstTimeSetup_object r obj s1 Hb). eexists. split; [reflexivity|].
         by destruct (_ && _). }
    all: destruct (checkFirstTimeSetup_other (Responded r) s1) as (s2 & Hrun & Hst & Hdom & Hls);
      [ intros r0 obj0 [= <-]; by rewrite Hb
      | exists s2; rewrite Hrun, Hst, Hdom, Hls; done ].
  - destruct (checkFirstTimeSetup_other (Rejected e) s1) as (s2 & Hrun & Hst & Hdom & Hls);
      [discriminate|].
    exists s2. rewrite Hrun, Hst, Hdom, Hls. done.
Qed.

Lemma init_resumed_run (o : Outcome) (s1 : Store) :
  exists s2,
    run (init_resumed o) s1 = run checkExistingSession s2 /\
    state s2 = state s1 /\ localStorage s2 = localStorage s1 /\
    loginScreen_display (dom s2) = loginScreen_display (dom s1) /\
    mainApp_display (dom s2) = mainApp_display (dom s1).
Proof.
  destruct (checkFirstTimeSetup_keeps_session o s1) as (s2 & Hrun & Hrest).
  exists s2. split; [|exact Hrest].
  rewrite init_resumed_bind, run_bind, Hrun. apply add_bg_nil.
Qed.

Lemma checkExistingSession_stored (s : Store) (tk nm : string) :
  localStorage s !! "authToken" = Some tk -> localStorage s !! "username" = Some nm ->
  tk <> ""%string -> nm <> ""%string ->
  run checkExistingSession s =
    Finished (Returned tt)
      (mainAppStore (upd_state (set_username (JStr nm)) (upd_state (set_authToken (JStr tk)) s)))
      [(healthRequest, checkHealth_resumed)].
Proof.
  intros Htk Hnm Hne1 Hne2. rewrite checkExistingSession_run, Htk, Hnm.
  apply String.eqb_neq in Hne1, Hne2. by rewrite Hne1, Hne2.
Qed.

Lemma checkExistingSession_not_stored (s : Store) :
  ~ sessionStoredLocally (localStorage s) ->
  run checkExistingSession s = Finished (Returned tt) s [].
Proof.
  intros Hnot. rewrite checkExistingSession_run.
  destruct (localStorage s !! "authToken") as [tk|] eqn:Htk; [|reflexivity].
  destruct (localStorage s !! "username") as [nm|] eqn:Hnm; [|reflexivity].
  destruct (String.eqb_spec tk ""); [reflexivity|].
  destruct (String.eqb_spec nm ""); [reflexivity|].
  exfalso. apply Hnot. split; eexists; eauto.
Qed.

End InitMore.

Section InitRestore.

(** What a page load restores does not depend on the first-time request. *)
Lemma init_resumed_restores (ls : gmap string string) (o : Outcome) :
  let t := run (init_resumed o) (freshPage ls) in
  (sessionStoredLocally ls ->
   exists tk nm,
     ls !! "authToken" = Some tk /\ ls !! "username" = Some nm /\
     authToken (state (step_store t)) = JStr tk /\
     username (state (step_store t)) = JStr nm /\
     mainAppShown (step_store t) /\
     step_requests t = [healthRequest]) /\
  (~ sessionStoredLocally ls ->
   state (step_store t) = initialState /\
   loginScreen_display (dom (step_store t)) = ""%string /\
   mainApp_display (dom (step_store t)) = ""%string /\
   step_requests t = []).
Proof.
  intros t. subst t.
  destruct (init_resumed_run o (freshPage ls)) as (s2 & -> & Hst & Hls & Hd1 & Hd2).
  split.
  - intros [(tk & Htk & Hne1) (nm & Hnm & Hne2)]. exists tk, nm.
    rewrite (checkExistingSession_stored s2 tk nm) by (by rewrite ?Hls).
    repeat split; try done.
  - intros Hnot. rewrite checkExistingSession_not_stored by by rewrite Hls.
    cbn. by rewrite Hst, Hd1, Hd2.
Qed.

End InitRestore.

(** X1. A page load restores the stored session whatever becomes of the
    first-time request that [init] awaits before: answered, answered with
    something unreadable, or failed.  With both keys stored and not empty
    the main application is shown with the stored token and user name and
    the health check is started; otherwise nothing is restored and nothing
    more is sent. *)
Theorem init_restores_session_after_any_first_time_outcome
    (ls : gmap string string) (o : Outcome) :
  let t := run (init_resumed o) (freshPage ls) in
  (sessionStoredLocally ls ->
   exists tk nm,
     ls !! "authToken" = Some tk /\ ls !! "username" = Some nm /\
     authToken (state (step_store t)) = JStr tk /\
     username (state (step_store t)) = JStr nm /\
     mainAppShown (step_store t) /\
     step_requests t = [healthRequest]) /\
  (~ sessionStoredLocally ls ->
   state (step_store t) = initialState /\
   loginScreen_display (dom (step_store t)) = ""%string /\
   mainApp_display (dom (step_store t)) = ""%string /\
   step_requests t = []).
Proof. apply init_resumed_restores. Qed.

Lemma init_restores_session_after_any_first_time_outcome_witness :
  exists tk nm,
    localStorage returningPage !! "authToken" = Some tk /\
    localStorage returningPage !! "username" = Some nm /\
    authToken (state (step_store
      (run (init_resumed (Rejected "Failed to fetch")) (freshPage (localStorage returningPage)))))
      = JStr tk /\
    username (state (step_store
      (run (init_resumed (Rejected "Failed to fetch")) (freshPage (localStorage returningPage)))))
      = JStr nm /\
    mainAppShown (step_store
      (run (init_resumed (Rejected "Failed to fetch")) (freshPage (localStorage returningPage)))) /\
    step_requests
      (run (init_resumed (Rejected "Failed to fetch")) (freshPage (localStorage returningPage)))
      = [healthRequest].
Proof.
  apply (proj1 (init_restores_session_after_any_first_time_outcome
                  (localStorage returningPage) (Rejected "Failed to fetch"))).
  split; eexists; (split; [reflexivity|discriminate]).
Defined.

(** X2. Once [handleLogout] has run to its end, a page load restores
    nothing: whatever the store the logout finished in and however its
    request and the first-time request of the new page settle, the new page
    has no token, keeps the login screen of the markup and sends nothing
    after the first-time check. *)
Theorem handleLogout_then_reload_restores_nothing (s : Store) (o lo : Outcome) :
  let t1 := run (init_resumed lo)
              (freshPage (localStorage (step_store (run (handleLogout_resumed o) s)))) in
  let t2 := run (init_resumed lo) (freshPage (localStorage (loggedOut s))) in
  run (handleLogout_resumed o) s =
    Finished (Returned tt)
      (loggedOut (match o with
                  | Responded _ => s
                  | Rejected e => consoleLogged "Logout error:" e s
                  end)) [] /\
  (state (step_store t1) = initialState /\ mainApp_display (dom (step_store t1)) = ""%string /\
   step_requests t1 = []) /\
  (state (step_store t2) = initialState /\ mainApp_display (dom (step_store t2)) = ""%string /\
   step_requests t2 = []).
Proof.
  intros t1 t2.
  assert (Hno : forall s0, ~ sessionStoredLocally (localStorage (loggedOut s0))).
  { intros s0 [(tk & Htk & _) _]. cbn in Htk. by simplify_map_eq. }
  split; [apply handleLogout_resumed_run|]. split.
  - subst t1. rewrite handleLogout_resumed_run. cbn [step_store].
    destruct (init_resumed_restores
                (localStorage (loggedOut (match o with
                                          | Responded _ => s
                                          | Rejected e => consoleLogged "Logout error:" e s
                                          end))) lo) as [_ H].
    destruct (H (Hno _)) as (? & ? & ? & ?). done.
  - subst t2.
    destruct (init_resumed_restores
                (localStorage (loggedOut s)) lo) as [_ H].
    destruct (H (Hno _)) as (? & ? & ? & ?). done.
Qed.

Section LoginMore.

Lemma handleLogin_run_filled (s : Store) :
  trim (usernameInput_value (dom s)) <> ""%string ->
  passwordInput_value (dom s) <> ""%string ->
  run handleLogin s =
    Blocked (loginRequest (trim (usernameInput_value (dom s))) (passwordInput_value (dom s)))
      handleLogin_resumed s [].
Proof.
  intros Hu Hp. apply String.eqb_neq in Hu, Hp.
  unfold handleLogin. cbn. rewrite Hu, Hp. reflexivity.
Qed.

Lemma handleLogin_resumed_unfold (o : Outcome) :
  handleLogin_resumed o =
    try_catch
      (response ← match o with Responded r => Ret r | Rejected e => Throw e end;
       data ← response_json response;
       success ← prop data "success";
       if truthy success then
         token ← prop data "token";
         modify (upd_state (set_authToken token));;
         uname ← prop data "username";
         modify (upd_state (set_username uname));;
         localStorage_setItem "authToken" token;;
         localStorage_setItem "username" uname;;
         showMainApp
       else
         error ← prop data "error";
         showLoginError (toString (js_or error (JStr "Login failed"))))
      (fun error =>
         console_error "Login error:" error;;
         showLoginError "Connection error. Please check if the server is running.").
Proof. reflexivity. Qed.

Lemma handleLogin_resumed_success (r : Response) (obj : Json) (s1 : Store) :
  body r = BodyObject obj -> truthy (get obj "success") = true ->
  run (handleLogin_resumed (Responded r)) s1 =
    Finished (Returned tt)
      (mainAppStore
         (upd_localStorage (insert "username" (toString (get obj "username")))
            (upd_localStorage (insert "authToken" (toString (get obj "token")))
               (upd_state (set_username (get obj "username"))
                  (upd_state (set_authToken (get obj "token")) s1)))))
      [(healthRequest, checkHealth_resumed)].
Proof.
  intros Hb Hs. rewrite handleLogin_resumed_unfold. cbn. unfold response_json. rewrite Hb. cbn.
  unfold get in Hs. rewrite Hs. reflexivity.
Qed.

Lemma handleLogin_resumed_unreadable (o : Outcome) (s1 : Store) :
  unreadable o ->
  exists err,
    run (handleLogin_resumed o) s1 =
      Finished (Returned tt)
        (loginErrorShown "Connection error. Please check if the server is running."
           (consoleLogged "Login error:" err s1)) [].
Proof.
  rewrite handleLogin_resumed_unfold. destruct o as [r|e]; cbn.
  - unfold response_json. intros [Hb | Hb]; rewrite Hb; cbn; by eexists.
  - intros _. by eexists.
Qed.

Lemma handleLogin_resumed_refused (r : Response) (s1 : Store) :
  body r <> BodyInvalid -> body r <> BodyNull ->
  truthy (bodyField (body r) "success") = false ->
  run (handleLogin_resumed (Responded r)) s1 =
    Finished (Returned tt)
      (loginErrorShown (toString (js_or (bodyField (body r) "error") (JStr "Login failed"))) s1)
      [].
Proof.
  intros Hi Hn Hs. rewrite handleLogin_resumed_unfold. cbn. unfold response_json.
  destruct (body r) as [| | |obj]; try done; cbn in *.
  unfold get in Hs. rewrite Hs. reflexivity.
Qed.

End LoginMore.

(** X3. Login and page load round trip.  After a login response that is
    taken for a success, the next page load restores the session exactly
    when the string forms of the response's token and username are not
    empty, and what it restores are those string forms: a token the
    response leaves out comes back as the string 'undefined'. *)
Theorem handleLogin_then_reload (r : Response) (obj : Json) (s1 : Store) (lo : Outcome) :
  body r = BodyObject obj ->
  truthy (get obj "success") = true ->
  let after := step_store (run (handleLogin_resumed (Responded r)) s1) in
  let t := run (init_resumed lo) (freshPage (localStorage after)) in
  let tk := toString (get obj "token") in
  let nm := toString (get obj "username") in
  localStorage after !! "authToken" = Some tk /\
  localStorage after !! "username" = Some nm /\
  (tk <> ""%string /\ nm <> ""%string ->
   authToken (state (step_store t)) = JStr tk /\
   username (state (step_store t)) = JStr nm /\
   mainAppShown (step_store t)) /\
  (~ (tk <> ""%string /\ nm <> ""%string) ->
   state (step_store t) = initialState /\ mainApp_display (dom (step_store t)) = ""%string) /\
  (get obj "token" = JUndefined -> nm <> ""%string ->
   authToken (state (step_store t)) = JStr "undefined").
Proof.
  intros Hb Hs after t tk nm.
  assert (Hls : localStorage after = <["username" := nm]> (<["authToken" := tk]> (localStorage s1))).
  { subst after. by rewrite (handleLogin_resumed_success r obj s1 Hb Hs). }
  assert (Htk : localStorage after !! "authToken" = Some tk) by (rewrite Hls; by simplify_map_eq).
  assert (Hnm : localStorage after !! "username" = Some nm) by (rewrite Hls; by simplify_map_eq).
  destruct (init_resumed_restores (localStorage after) lo) as [Hyes Hno]. fold t in Hyes, Hno.
  assert (Hrestore : tk <> ""%string /\ nm <> ""%string ->
     authToken (state (step_store t)) = JStr tk /\
     username (state (step_store t)) = JStr nm /\ mainAppShown (step_store t)).
  { intros [Hne1 Hne2].
    destruct Hyes as (tk' & nm' & Htk' & Hnm' & Ha & Hu & Hm & _).
    { split; eexists; eauto. }
    rewrite Htk in Htk'. rewrite Hnm in Hnm'. by simplify_eq. }
  split; [exact Htk|]. split; [exact Hnm|]. split; [exact Hrestore|]. split.
  - intros Hnot. destruct Hno as (Hst & _ & Hd & _); [|done].
    intros [(tk' & Htk' & Hne1) (nm' & Hnm' & Hne2)].
    rewrite Htk in Htk'. rewrite Hnm in Hnm'. simplify_eq. by apply Hnot.
  - intros Hundef Hne. destruct Hrestore as (Ha & _); [|].
    + split; [|done]. subst tk. rewrite Hundef. discriminate.
    + rewrite Ha. subst tk. by rewrite Hundef.
Qed.

Lemma handleLogin_then_reload_witness :
  let after := step_store (run (handleLogin_resumed (Responded loginOk)) filledForm) in
  let t := run (init_resumed (Rejected "Failed to fetch")) (freshPage (localStorage after)) in
  authToken (state (step_store t)) = JStr (toString (get loginOkBody "token")) /\
  username (state (step_store t)) = JStr (toString (get loginOkBody "username")) /\
  mainAppShown (step_store t).
Proof.
  refine (proj1 (proj2 (proj2
    (handleLogin_then_reload loginOk loginOkBody filledForm (Rejected "Failed to fetch") _ _))) _).
  - reflexivity.
  - reflexivity.
  - split; discriminate.
Defined.

(** X4. What [handleLogin] does when no success comes back.  A failed
    request, a body that is not JSON and a JSON null all end in the
    console and in the message 'Connection error. Please check if the
    server is running.'; any other body whose [success] is not truthy (a
    JSON array or number among them) shows its [error] if that is truthy
    and 'Login failed' otherwise.  In all these cases [state] and local
    storage stay as they are and nothing more is sent. *)
Theorem handleLogin_without_success (o : Outcome) (s1 : Store) :
  let t := run (handleLogin_resumed o) s1 in
  (unreadable o ->
   exists err,
     t = Finished (Returned tt)
           (loginErrorShown "Connection error. Please check if the server is running."
              (consoleLogged "Login error:" err s1)) []) /\
  (forall r, o = Responded r -> body r <> BodyInvalid -> body r <> BodyNull ->
             truthy (bodyField (body r) "success") = false ->
   t = Finished (Returned tt)
         (loginErrorShown
            (if truthy (bodyField (body r) "error") then toString (bodyField (body r) "error")
             else "Login failed") s1) []) /\
  (accepted o = false ->
   state (step_store t) = state s1 /\ localStorage (step_store t) = localStorage s1 /\
   step_requests t = []).
Proof.
  intros t. split; [|split].
  - intros Hu. apply (handleLogin_resumed_unreadable o s1 Hu).
  - intros r -> Hi Hn Hs. subst t. rewrite (handleLogin_resumed_refused r s1 Hi Hn Hs).
    unfold js_or. by destruct (truthy (bodyField (body r) "error")).
  - intros Hacc. destruct o as [r|e].
    + destruct (body r) as [| | |obj] eqn:Hb.
      1,2: destruct (handleLogin_resumed_unreadable (Responded r) s1) as (err & Hrun);
        [cbn; rewrite Hb; auto | subst t; rewrite Hrun; done].
      all: subst t; rewrite handleLogin_resumed_refused;
        [done | by rewrite Hb | by rewrite Hb | cbn in Hacc; by rewrite Hb in *].
    + destruct (handleLogin_resumed_unreadable (Rejected e) s1 I) as (err & Hrun).
      subst t. rewrite Hrun. done.
Qed.

Lemma handleLogin_without_success_witness :
  run (handleLogin_resumed (Responded loginRefused)) filledForm =
    Finished (Returned tt)
      (loginErrorShown
         (if truthy (bodyField (body loginRefused) "error")
          then toString (bodyField (body loginRefused) "error")
          else "Login failed") filledForm) [].
Proof.
  refine (proj1 (proj2 (handleLogin_without_success (Responded loginRefused) filledForm))
            loginRefused _ _ _ _).
  - reflexivity.
  - discriminate.
  - discriminate.
  - reflexivity.
Defined.

Section ApiRequestMore.

Lemma apiRequest_run (endpoint : string) (options : Options) (s : Store) :
  run (apiRequest endpoint options) s =
    Blocked (mkRequest (default "GET"%string (opt_method options)) endpoint
               (apiHeaders (authToken (state s)) options) (opt_body options))
      apiRequest_resumed s [].
Proof. reflexivity. Qed.

Lemma apiRequest_resumed_run (o : Outcome) (s1 : Store) :
  run (apiRequest_resumed o) s1 =
    match o with
    | Rejected e => Finished (Thrown e) s1 []
    | Responded r =>
        if (status r =? 401)%Z
        then add_bg (detach (run handleLogout s1))
               (Finished (Thrown "Session expired. Please login again.")
                  (step_store (run handleLogout s1)) [])
        else Finished (Returned r) s1 []
    end.
Proof. destruct o as [r|e]; cbn; [|reflexivity]. by destruct (status r =? 401)%Z. Qed.

End ApiRequestMore.

(** X5. [apiRequest] hands every response whose status is not 401 back to
    its caller, error statuses such as 403 or 500 included, and rethrows a
    failed fetch; in neither case does it change the store or start a
    logout.  Before the request settles the store is as it was. *)
Theorem apiRequest_passes_through (endpoint : string) (options : Options) (s s1 : Store) :
  run (apiRequest endpoint options) s =
    Blocked (mkRequest (default "GET"%string (opt_method options)) endpoint
               (apiHeaders (authToken (state s)) options) (opt_body options))
      apiRequest_resumed s [] /\
  (forall r : Response, status r <> 401%Z ->
     run (apiRequest_resumed (Responded r)) s1 = Finished (Returned r) s1 []) /\
  (forall e : string, run (apiRequest_resumed (Rejected e)) s1 = Finished (Thrown e) s1 []).
Proof.
  split; [apply apiRequest_run|]. split.
  - intros r Hne. rewrite apiRequest_resumed_run.
    by destruct (Z.eqb_spec (status r) 401).
  - intros e. by rewrite apiRequest_resumed_run.
Qed.

Lemma apiRequest_passes_through_witness :
  run (apiRequest_resumed (Responded (mkResponse 500 BodyInvalid))) loggedInPage =
    Finished (Returned (mkResponse 500 BodyInvalid)) loggedInPage [].
Proof.
  apply (proj1 (proj2 (apiRequest_passes_through "/ipfs/upload" noOptions
                         loggedInPage loggedInPage))).
  discriminate.
Defined.

(** X6. The headers [apiRequest] sends.  The token of [state], when there
    is one, always decides the Authorization header, whatever the caller
    passes in options.headers; without a token the caller's Authorization
    header, if any, goes out as it is.  Content-Type is the caller's if
    given and application/json otherwise, and every other header of the
    caller is sent unchanged. *)
Theorem apiRequest_headers (token : JsVal) (options : Options) (key : string) :
  let headers := apiHeaders token options in
  (truthy token = true ->
   headers !! "Authorization" = Some ("Bearer " +:+ toString token)) /\
  (truthy token = false ->
   headers !! "Authorization" = opt_headers options !! "Authorization") /\
  headers !! "Content-Type" =
    Some (default "application/json"%string (opt_headers options !! "Content-Type")) /\
  (key <> "Authorization"%string -> key <> "Content-Type"%string ->
   headers !! key = opt_headers options !! key).
Proof.
  intros headers. subst headers. unfold apiHeaders.
  assert (Hunion : forall k0 : string,
    (opt_headers options ∪ ({[ "Content-Type" := "application/json"%string ]} : gmap string string))
      !! k0 =
    match opt_headers options !! k0 with
    | Some v => Some v
    | None => if decide (k0 = "Content-Type"%string) then Some "application/json"%string else None
    end).
  { intros k0. destruct (opt_headers options !! k0) as [v|] eqn:Hk.
    - by apply lookup_union_Some_l.
    - rewrite lookup_union_r by done.
      destruct (decide (k0 = "Content-Type"%string)) as [->|Hne].
      + by rewrite lookup_singleton_eq.
      + by rewrite lookup_singleton_ne. }
  split; [|split; [|split]].
  - intros ->. by rewrite lookup_insert_eq.
  - intros ->. rewrite Hunion. destruct (opt_headers options !! "Authorization"); [done|].
    by rewrite decide_False.
  - destruct (truthy token).
    + rewrite lookup_insert_ne by done. rewrite Hunion.
      by destruct (opt_headers options !! "Content-Type").
    + rewrite Hunion. by destruct (opt_headers options !! "Content-Type").
  - intros Hne1 Hne2. destruct (truthy token).
    + rewrite lookup_insert_ne by done. rewrite Hunion.
      destruct (opt_headers options !! key); [done|]. by rewrite decide_False.
    + rewrite Hunion. destruct (opt_headers options !! key); [done|]. by rewrite decide_False.
Qed.

Lemma apiRequest_headers_witness :
  apiHeaders (JStr "tok-1")
    (mkOptions None {[ "Authorization" := "Bearer other"%string ]} None) !! "Authorization" =
    Some ("Bearer " +:+ toString (JStr "tok-1")).
Proof.
  apply (proj1 (apiRequest_headers (JStr "tok-1")
                  (mkOptions None {[ "Authorization" := "Bearer other"%string ]} None) "X")).
  reflexivity.
Defined.

(** X7. The two status indicators after a health check: each shows
    'Connected' exactly when the request was answered with a JSON object
    whose field for it is truthy.  A failed request, an unreadable body and
    a body without the fields all show 'Disconnected' for both; [state],
    local storage and the screens are not touched. *)
Theorem checkHealth_indicators (o : Outcome) (s1 : Store) :
  let t := run (checkHealth_resumed o) s1 in
  ipfsStatus (dom (step_store t)) = Some (truthy (outcomeField o "ipfs_connected")) /\
  solanaStatus (dom (step_store t)) = Some (truthy (outcomeField o "solana_connected")) /\
  sessionAndScreenKept s1 (step_store t) /\
  step_requests t = [].
Proof.
  intros t. subst t. destruct o as [r|e]; cbn.
  - unfold response_json. destruct (body r) as [| | |obj]; cbn; repeat split; reflexivity.
  - repeat split; reflexivity.
Qed.

Section ResetMore.

Lemma resetApplication_resumed_run (o : Outcome) (s1 : Store) :
  exists s2,
    run (resetApplication_resumed o) s1 = Finished (Returned tt) s2 [] /\
    state s2 = state s1 /\ dom s2 = dom s1 /\ localStorage s2 = localStorage s1.
Proof.
  destruct o as [r|e]; cbn; [|by eexists].
  unfold response_json. destruct (body r) as [| | |obj]; cbn; try by eexists.
  destruct (truthy (default JUndefined (obj !! "success"))); cbn; by eexists.
Qed.

End ResetMore.

(** X8. [resetApplication] never touches the session.  Whatever the user
    answers and however the request settles, [state], the DOM and local
    storage are as before.  So after a successful reset the reload finds
    the old token and user name in local storage and opens the main
    application with them. *)
Theorem resetApplication_keeps_stored_session
    (s s1 : Store) (confirmed doubleConfirmed : bool) (finalCheck : option string)
    (o lo : Outcome) :
  let t := run (resetApplication confirmed doubleConfirmed finalCheck) s in
  let after := step_store (run (resetApplication_resumed o) s1) in
  let loaded := run (init_resumed lo) (freshPage (localStorage after)) in
  (state (step_store t) = state s /\ dom (step_store t) = dom s /\
   localStorage (step_store t) = localStorage s) /\
  (state after = state s1 /\ dom after = dom s1 /\ localStorage after = localStorage s1) /\
  (sessionStoredLocally (localStorage s1) ->
   exists tk nm,
     localStorage s1 !! "authToken" = Some tk /\ localStorage s1 !! "username" = Some nm /\
     authToken (state (step_store loaded)) = JStr tk /\
     username (state (step_store loaded)) = JStr nm /\
     mainAppShown (step_store loaded)).
Proof.
  intros t after loaded.
  destruct (resetApplication_resumed_run o s1) as (s2 & Hrun & Hst & Hdom & Hls).
  assert (Hafter : after = s2) by (subst after; by rewrite Hrun).
  split; [|split].
  - subst t. unfold resetApplication.
    destruct confirmed; cbn; [|done]. destruct doubleConfirmed; cbn; [|done].
    case_bool_decide; cbn; done.
  - by rewrite Hafter.
  - intros Hstored. subst loaded. rewrite Hafter, Hls.
    destruct (init_resumed_restores (localStorage s1) lo) as [Hyes _].
    destruct (Hyes Hstored) as (tk & nm & ? & ? & ? & ? & ? & _). eauto 10.
Qed.

Lemma resetApplication_keeps_stored_session_witness :
  exists tk nm,
    localStorage loggedInPage !! "authToken" = Some tk /\
    localStorage loggedInPage !! "username" = Some nm /\
    authToken (state (step_store
      (run (init_resumed (Rejected "Failed to fetch"))
         (freshPage (localStorage
            (step_store (run (resetApplication_resumed
               (Responded (mkResponse 200 (BodyObject {[ "success" := JBool true ]}))))
               loggedInPage))))))) = JStr tk /\
    username (state (step_store
      (run (init_resumed (Rejected "Failed to fetch"))
         (freshPage (localStorage
            (step_store (run (resetApplication_resumed
               (Responded (mkResponse 200 (BodyObject {[ "success" := JBool true ]}))))
               loggedInPage))))))) = JStr nm /\
    mainAppShown (step_store
      (run (init_resumed (Rejected "Failed to fetch"))
         (freshPage (localStorage
            (step_store (run (resetApplication_resumed
               (Responded (mkResponse 200 (BodyObject {[ "success" := JBool true ]}))))
               loggedInPage)))))).
Proof.
  apply (proj2 (proj2 (resetApplication_keeps_stored_session loggedInPage loggedInPage
                         true true (Some "RESET"%string)
                         (Responded (mkResponse 200 (BodyObject {[ "success" := JBool true ]})))
                         (Rejected "Failed to fetch")))).
  split; eexists; (split; [reflexivity|discriminate]).
Defined.

(** X9. What [resetApplication] reports.  Refusing one of the two
    confirmations ends it silently; passing them and typing anything but
    RESET, or cancelling the prompt, alerts 'Reset cancelled.'.  A response
    whose [success] is not truthy alerts 'Reset failed: ' followed by its
    [error], or by 'Unknown error' when that is not truthy; a failed request
    alerts 'Reset failed: ' followed by the failure and logs it.  None of
    these reloads the page. *)
Theorem resetApplication_reports
    (s s1 : Store) (confirmed doubleConfirmed : bool) (finalCheck : option string) :
  (confirmed = false \/ doubleConfirmed = false ->
   run (resetApplication confirmed doubleConfirmed finalCheck) s = Finished (Returned tt) s []) /\
  (finalCheck <> Some "RESET"%string ->
   run (resetApplication true true finalCheck) s =
     Finished (Returned tt) (alerted "Reset cancelled." s) []) /\
  (forall r obj, body r = BodyObject obj -> truthy (get obj "success") = false ->
   run (resetApplication_resumed (Responded r)) s1 =
     Finished (Returned tt)
       (alerted ("Reset failed: " +:+
                 (if truthy (get obj "error") then toString (get obj "error")
                  else "Unknown error")) s1) []) /\
  (forall e : string,
   run (resetApplication_resumed (Rejected e)) s1 =
     Finished (Returned tt)
       (alerted ("Reset failed: " +:+ e) (consoleLogged "Reset error:" e s1)) []).
Proof.
  split; [|split; [|split]].
  - intros [-> | ->]; unfold resetApplication; cbn; [done|]. by destruct confirmed.
  - intros Hne. unfold resetApplication. cbn. by rewrite bool_decide_eq_false_2.
  - intros r obj Hb Hs. cbn. unfold response_json. rewrite Hb. cbn.
    unfold get in *. rewrite Hs. cbn. unfold js_or.
    by destruct (truthy (default JUndefined (obj !! "error"))).
  - intros e. reflexivity.
Qed.

Lemma resetApplication_reports_witness :
  run (resetApplication true true (Some "reset"%string)) loggedInPage =
    Finished (Returned tt) (alerted "Reset cancelled." loggedInPage) [].
Proof.
  apply (proj1 (proj2 (resetApplication_reports loggedInPage loggedInPage true true
                         (Some "reset"%string)))).
  discriminate.
Defined.

Lemma Store_eq (s1 s2 : Store) :
  state s1 = state s2 -> dom s1 = dom s2 -> localStorage s1 = localStorage s2 ->
  alerts s1 = alerts s2 -> consoleErrors s1 = consoleErrors s2 -> reloads s1 = reloads s2 ->
  s1 = s2.
Proof. destruct s1, s2. cbn [state dom localStorage alerts consoleErrors reloads]. congruence. Qed.

Lemma loggedOut_state (s : Store) :
  state (loggedOut s) = set_username JNull (set_authToken JNull (state s)).
Proof. by destruct s. Qed.

Lemma loggedOut_dom (s : Store) :
  dom (loggedOut s) =
    set_loginResult_className "login-result"
      (set_passwordInput_value ""
         (set_usernameInput_value ""
            (set_mainApp_display "none" (set_loginScreen_display "flex" (dom s))))).
Proof. by destruct s. Qed.

Lemma loggedOut_localStorage (s : Store) :
  localStorage (loggedOut s) = delete "username" (delete "authToken" (localStorage s)).
Proof. by destruct s. Qed.

Lemma loggedOut_rest (s : Store) :
  alerts (loggedOut s) = alerts s /\ consoleErrors (loggedOut s) = consoleErrors s /\
  reloads (loggedOut s) = reloads s.
Proof. by destruct s. Qed.

Lemma loggedOut_idemp (s : Store) : loggedOut (loggedOut s) = loggedOut s.
Proof.
  destruct (loggedOut_rest s) as (Ha & Hc & Hr).
  destruct (loggedOut_rest (loggedOut s)) as (Ha' & Hc' & Hr').
  apply Store_eq; try congruence.
  - rewrite !loggedOut_state. by destruct (state s).
  - rewrite !loggedOut_dom. by destruct (dom s).
  - rewrite !loggedOut_localStorage.
    apply map_eq. intros key.
    destruct (decide (key = "username"%string)) as [->|Hu]; [by rewrite !lookup_delete_eq|].
    destruct (decide (key = "authToken"%string)) as [->|Hk].
    + rewrite !(lookup_delete_ne _ "username") by done. by rewrite !lookup_delete_eq.
    + by repeat (rewrite lookup_delete_ne by done).
Qed.

(** X10. Logging out twice is logging out once: after [handleLogout] has
    run to its end a second call sends no request and leaves the store
    exactly as the first one left it. *)
Theorem handleLogout_twice (s : Store) :
  run handleLogout (loggedOut s) = Finished (Returned tt) (loggedOut s) [] /\
  step_requests (run handleLogout (loggedOut s)) = [].
Proof.
  assert (Hrun : run handleLogout (loggedOut s) = Finished (Returned tt) (loggedOut s) []).
  { rewrite handleLogout_run_no_token by (by rewrite loggedOut_state).
    by rewrite loggedOut_idemp. }
  by rewrite Hrun.
Qed.

Section FormatBytesMore.

Lemma renderHundredths_whole (n : N) : renderHundredths (100 * n) = pretty n.
Proof.
  unfold renderHundredths.
  replace (100 * n / 100)%N with n by (rewrite N.mul_comm, N.div_mul; lia).
  replace ((100 * n) mod 100)%N with 0%N; [done|].
  by rewrite N.mul_comm, N.Div0.mod_mul.
Qed.



End FormatBytesMore.

(** X11. Below 1024 a byte count is shown as it is, followed by ' Bytes':
    no rounding and no fraction. *)
Theorem formatBytes_below_1024 (bytes : N) :
  (1 <= bytes < 1024)%N -> formatBytes bytes = pretty bytes +:+ " Bytes".
Proof.
  intros [Hlo Hhi]. rewrite formatBytes_unit by done.
  assert (Hi : unitIndex bytes = 0%N).
  { unfold unitIndex. apply N.div_small.
    apply N.log2_lt_pow2; [lia|]. change (2 ^ 10)%N with 1024%N. lia. }
  rewrite Hi. unfold hundredths. change (k ^ 0)%N with 1%N.
  replace ((200 * bytes + 1) / (2 * 1))%N with (100 * bytes)%N.
  - by rewrite renderHundredths_whole.
  - apply N.div_unique with 1%N; lia.
Qed.

Lemma formatBytes_below_1024_witness : formatBytes 1023 = pretty 1023%N +:+ " Bytes".
Proof. apply (formatBytes_below_1024 1023). lia. Defined.


Section EmbedLaws.

Lemma upd_core_id (f : Full) : upd_core (fun _ => core f) f = f.
Proof. by destruct f. Qed.

Lemma gadd_bg_nil {A : Type} (t : GStep A) : gadd_bg [] t = t.
Proof. by destruct t. Qed.

Lemma gadd_bg_app {A : Type} (bg1 bg2 : list (Waiting unit)) (t : GStep A) :
  gadd_bg bg1 (gadd_bg bg2 t) = gadd_bg (bg1 ++ bg2) t.
Proof. destruct t; cbn; by rewrite app_assoc. Qed.

Lemma embedStep_add_bg {A : Type} (f : Full) (bg : list Pending) (t : Step A) :
  embedStep f (add_bg bg t) = gadd_bg (embedPending <$> bg) (embedStep f t).
Proof. destruct t; cbn; by rewrite fmap_app. Qed.

Lemma gdetach_embedStep (f : Full) (t : Step unit) :
  gdetach (embedStep f t) = embedPending <$> detach t.
Proof. destruct t; cbn; [done|]. by rewrite fmap_app. Qed.

Lemma gstep_full_embedStep {A : Type} (f : Full) (t : Step A) :
  gstep_full (embedStep f t) = upd_core (fun _ => step_store t) f.
Proof. by destruct t. Qed.

(** A function of the login code runs on the whole page as it runs on its
    [core]: the rest of the page stays as it is. *)
Lemma grun_embed {A : Type} (p : Proc A) (f : Full) :
  grun (embed p) f = embedStep f (run p (core f)).
Proof.
  revert f. induction p as [A a|A e|A k IH|A s k IH|A req k IH|A child IHc k IH]; intros f; cbn.
  - by rewrite upd_core_id.
  - by rewrite upd_core_id.
  - apply IH.
  - rewrite IH. cbn. by destruct (run k s).
  - by rewrite upd_core_id.
  - rewrite IHc, gdetach_embedStep, gstep_full_embedStep, IH. cbn.
    rewrite embedStep_add_bg. by destruct (run k (step_store (run child (core f)))).
Qed.

(** Running [p] and then [g]. *)
Lemma grun_gbind {A B : Type} (p : GProc A) (g : A -> GProc B) (f : Full) :
  grun (gbind p g) f =
    match grun p f with
    | GFinished (GReturned a) f' bg => gadd_bg bg (grun (g a) f')
    | GFinished (GThrown e) f' bg => GFinished (GThrown e) f' bg
    | GBlocked w f' bg => GBlocked (wmap (fun q => gbind q g) w) f' bg
    end.
Proof.
  revert f. induction p as [A a|A e|A k IH|A s k IH|A req k IH|A d k IH|A u k IH|A child _ k IH];
    intros f; cbn.
  - by rewrite gadd_bg_nil.
  - reflexivity.
  - apply IH.
  - apply IH.
  - reflexivity.
  - reflexivity.
  - reflexivity.
  - rewrite IH. destruct (grun k (gstep_full (grun child f))) as [[a|e] f' bg|w f' bg]; cbn.
    + by rewrite gadd_bg_app.
    + reflexivity.
    + reflexivity.
Qed.

(** Running [p] inside try ... catch. *)
Lemma grun_gtry_catch {A : Type} (p : GProc A) (h : Raised -> GProc A) (f : Full) :
  grun (gtry_catch p h) f =
    match grun p f with
    | GFinished (GReturned a) f' bg => GFinished (GReturned a) f' bg
    | GFinished (GThrown e) f' bg => gadd_bg bg (grun (h e) f')
    | GBlocked w f' bg => GBlocked (wmap (fun q => gtry_catch q h) w) f' bg
    end.
Proof.
  revert f. induction p as [A a|A e|A k IH|A s k IH|A req k IH|A d k IH|A u k IH|A child _ k IH];
    intros f; cbn.
  - reflexivity.
  - by rewrite gadd_bg_nil.
  - apply IH.
  - apply IH.
  - reflexivity.
  - reflexivity.
  - reflexivity.
  - rewrite IH. destruct (grun k (gstep_full (grun child f))) as [[a|e] f' bg|w f' bg]; cbn.
    + reflexivity.
    + by rewrite gadd_bg_app.
    + reflexivity.
Qed.

(** Running [p] inside try ... finally. *)
Lemma grun_gfinally {A : Type} (p : GProc A) (fin : GProc unit) (f : Full) :
  grun (gfinally p fin) f =
    match grun p f with
    | GFinished (GReturned a) f' bg => gadd_bg bg (grun (gbind fin (fun _ => GRet a)) f')
    | GFinished (GThrown e) f' bg => gadd_bg bg (grun (gbind fin (fun _ => GThrow e)) f')
    | GBlocked w f' bg => GBlocked (wmap (fun q => gfinally q fin) w) f' bg
    end.
Proof.
  revert f. induction p as [A a|A e|A k IH|A s k IH|A req k IH|A d k IH|A u k IH|A child _ k IH];
    intros f; cbn.
  - by rewrite gadd_bg_nil.
  - by rewrite gadd_bg_nil.
  - apply IH.
  - apply IH.
  - reflexivity.
  - reflexivity.
  - reflexivity.
  - rewrite IH. destruct (grun k (gstep_full (grun child f))) as [[a|e] f' bg|w f' bg]; cbn.
    + by rewrite gadd_bg_app.
    + by rewrite gadd_bg_app.
    + reflexivity.
Qed.

Lemma grun_gmodify (g : Full -> Full) (f : Full) :
  grun (gmodify g) f = GFinished (GReturned tt) (g f) [].
Proof. reflexivity. Qed.

Lemma grun_ggets {A : Type} (g : Full -> A) (f : Full) :
  grun (ggets g) f = GFinished (GReturned (g f)) f [].
Proof. reflexivity. Qed.

End EmbedLaws.

(* ===================================================================== *)
(** * The main application                                                *)
(* ===================================================================== *)

Ltac page_simpl :=
  cbn [core main tauri_internals tauri_global tabs hideTimers
       upd_core upd_main upd_tabs upd_hideTimers
       state dom localStorage alerts consoleErrors reloads upd_state upd_dom upd_localStorage
       selectedFilePath lastCID isWalletVerified authToken username
       set_selectedFilePath set_lastCID set_isWalletVerified set_authToken set_username
       selectedFileName_textContent selectedFileName_selected uploadBtn verifyWalletBtn
       registerBtn downloadBtn privateKeyInput_value privateKeyInput_type
       toggleKeyBtn_textContent cidInput_value uploadResult walletResult accessResult
       set_selectedFileName upd_uploadBtn upd_verifyWalletBtn upd_registerBtn upd_downloadBtn
       set_privateKeyInput_value set_privateKeyInput_type set_toggleKeyBtn_textContent
       set_cidInput_value upd_uploadResult upd_walletResult upd_accessResult
       btn_disabled btn_textContent btn_spinner btn_originalText
       set_btn_disabled set_btn_originalText set_btn_innerHTML_loading set_btn_textContent
       panel_classes panel_title panel_message set_panel_classes set_panel_innerHTML
       showResult hideResult setButtonLoading window_open gconsole_error consoleLogged].

Section Helpers.

Lemma lens_uploadBtn : lens uploadBtn upd_uploadBtn.
Proof. by intros g d. Qed.
Lemma lens_verifyWalletBtn : lens verifyWalletBtn upd_verifyWalletBtn.
Proof. by intros g d. Qed.
Lemma lens_registerBtn : lens registerBtn upd_registerBtn.
Proof. by intros g d. Qed.
Lemma lens_downloadBtn : lens downloadBtn upd_downloadBtn.
Proof. by intros g d. Qed.

End Helpers.

(** X13. [setButtonLoading] on any button.  Switched on, the button is
    disabled and shows the spinner and ' Processing...'; switched off again
    it is enabled, the spinner is gone and the label is back: unless the
    label was empty, then ' Processing...' stays.  Switched on twice (the
    button having been enabled in between) the label is lost: ' Processing...'
    is what switching off restores.  Switching off a button that was never
    switched on leaves its label. *)
Theorem setButtonLoading_round_trip
    (read : MainDom -> Button) (button : (Button -> Button) -> MainDom -> MainDom) (f : Full) :
  lens read button ->
  let b := read (main f) in
  let on := setButtonLoading button true f in
  let off := setButtonLoading button false on in
  let twice := setButtonLoading button false (setButtonLoading button true on) in
  (btn_disabled (read (main on)) = true /\ btn_spinner (read (main on)) = true /\
   btn_textContent (read (main on)) = " Processing..."%string) /\
  (btn_disabled (read (main off)) = false /\ btn_spinner (read (main off)) = false /\
   btn_textContent (read (main off)) =
     if String.eqb (btn_textContent b) "" then " Processing..."%string else btn_textContent b) /\
  btn_textContent (read (main twice)) = " Processing..."%string /\
  (btn_originalText b = None ->
   btn_textContent (read (main (setButtonLoading button false f))) = btn_textContent b) /\
  core off = core f.
Proof.
  intros Hlens. cbn zeta. unfold setButtonLoading. page_simpl.
  rewrite !Hlens. page_simpl. repeat split.
  by intros ->.
Qed.

Lemma setButtonLoading_round_trip_witness :
  btn_textContent (uploadBtn (main (setButtonLoading upd_uploadBtn false
     (setButtonLoading upd_uploadBtn true (desktop (freshPage ∅) sampleMain))))) =
    "Upload to IPFS"%string.
Proof.
  exact (proj2 (proj2 (proj1 (proj2
    (setButtonLoading_round_trip uploadBtn upd_uploadBtn (desktop (freshPage ∅) sampleMain)
       lens_uploadBtn))))).
Defined.

Section Results.

Lemma not_shown_filter (l : list string) :
  bool_decide ("show"%string ∈ filter (fun c => c <> "show"%string) l) = false.
Proof.
  apply bool_decide_eq_false_2. intros Hin. apply list_elem_of_filter in Hin. by destruct Hin.
Qed.

Lemma truthy_inputValue (v : JsVal) : truthy v = true -> inputValue v = toString v.
Proof. by destruct v. Qed.

End Results.

(** X14. [pasteCID] and its timer.  With a CID in [state] the input gets
    its string form, 'CID Pasted' is shown and a timer is set; without one
    'No recent CID available' is shown, the input stays and no timer is
    set.  When the timer fires it hides whatever the result element shows
    by then: a message that another handler has put there in the meantime
    is hidden with it (its text stays in the element). *)
Theorem pasteCID_timer_hides_later_message (f : Full) (type title message : string) :
  let cid := lastCID (state (core f)) in
  let pasted := pasteCID f in
  let later := showResult upd_accessResult type title message pasted in
  (truthy cid = true ->
   cidInput_value (main pasted) = toString cid /\
   shown (accessResult (main pasted)) = true /\
   panel_title (accessResult (main pasted)) = "CID Pasted"%string /\
   panel_message (accessResult (main pasted)) = ("Using CID: " +:+ toString cid)%string /\
   hideTimers pasted = S (hideTimers f) /\
   shown (accessResult (main later)) = true /\
   shown (accessResult (main (hideTimer later))) = false /\
   panel_message (accessResult (main (hideTimer later))) = message /\
   hideTimers (hideTimer later) = hideTimers f) /\
  (truthy cid = false ->
   cidInput_value (main pasted) = cidInput_value (main f) /\
   shown (accessResult (main pasted)) = true /\
   panel_classes (accessResult (main pasted)) = ["result"; "error"; "show"]%string /\
   panel_message (accessResult (main pasted)) = "No recent CID available"%string /\
   hideTimers pasted = hideTimers f).
Proof.
  cbn zeta. unfold pasteCID, hideTimer, shown. split; intros Ht; rewrite Ht; page_simpl.
  - rewrite truthy_inputValue by done. rewrite not_shown_filter.
    repeat split; apply bool_decide_eq_true_2; set_solver.
  - repeat split.
Qed.

Lemma pasteCID_timer_hides_later_message_witness :
  shown (accessResult (main (hideTimer
    (showResult upd_accessResult "error" "Error" "Please enter a CID"
       (pasteCID (desktop (upd_state (set_lastCID (JStr "Qm1")) (freshPage ∅)) sampleMain)))))) =
    false.
Proof.
  refine (proj1 (proj2 (proj2 (proj2 (proj2 (proj2 (proj2 (proj1
    (pasteCID_timer_hides_later_message
       (desktop (upd_state (set_lastCID (JStr "Qm1")) (freshPage ∅)) sampleMain)
       "error" "Error" "Please enter a CID") _))))))));
  reflexivity.
Defined.

(** X15. [toggleKeyVisibility] never touches the key and always leaves the
    label telling what the next click does: 'Hide' beside a key in clear,
    'Show' beside a hidden one, whatever type and label were before (any
    type but 'password' counts as in clear and is hidden).  From then on
    two clicks bring the same input type and label back. *)
Theorem toggleKeyVisibility_label (f : Full) :
  let once := toggleKeyVisibility f in
  let thrice := toggleKeyVisibility (toggleKeyVisibility once) in
  keyLabelled once /\
  (privateKeyInput_type (main f) <> "password"%string ->
   privateKeyInput_type (main once) = "password"%string) /\
  privateKeyInput_type (main thrice) = privateKeyInput_type (main once) /\
  toggleKeyBtn_textContent (main thrice) = toggleKeyBtn_textContent (main once) /\
  privateKeyInput_value (main once) = privateKeyInput_value (main f) /\
  core once = core f.
Proof.
  cbn zeta. unfold keyLabelled, toggleKeyVisibility.
  destruct (String.eqb_spec (privateKeyInput_type (main f)) "password") as [E|E]; page_simpl.
  - repeat split; [by left|done].
  - repeat split; by right.
Qed.

Lemma toggleKeyVisibility_label_witness :
  privateKeyInput_type
    (main (toggleKeyVisibility (desktop (freshPage ∅)
       (set_privateKeyInput_type "text" sampleMain)))) = "password"%string.
Proof.
  refine (proj1 (proj2 (toggleKeyVisibility_label
    (desktop (freshPage ∅) (set_privateKeyInput_type "text" sampleMain)))) _).
  discriminate.
Defined.

Ltac gsimpl :=
  cbn [grun gbind gtry_catch gfinally embed ggets gmodify gadd_bg gdetach gstep_full resume
       greturned waits_for_dialog waits_for_shell gstep_requests waiting_request
       mbind mret GProc_bind GProc_ret Proc_bind Proc_ret bind try_catch gets modify fetch
       apiRequest response_json prop dialog_open shell_open tauri_plugin gfetch
       status body app negb omap option_list].

Section SelectFile.

Lemma split_last (sep : ascii) (s : string) :
  exists (l : list string) (x prefix : string),
    split sep s = l ++ [x] /\
    ~ In sep (list_ascii_of_string x) /\
    s = prefix +:+ x /\
    (l = [] -> prefix = ""%string) /\
    (l <> [] -> exists p, prefix = p +:+ String sep "").
Proof.
  induction s as [|c r (l & x & prefix & Hs & Hx & Hr & Hnil & Hcons)].
  - exists [], ""%string, ""%string. cbn. repeat split; [tauto|done..].
  - cbn [split]. destruct (Ascii.eqb_spec c sep) as [->|Hc].
    + exists (""%string :: l), x, (String sep prefix). rewrite Hs. repeat split; [done| |done|].
      * by rewrite Hr.
      * intros _. destruct l as [|y l0].
        -- exists ""%string. by rewrite Hnil.
        -- destruct Hcons as [p ->]; [done|]. by exists (String sep p).
    + rewrite Hs. destruct l as [|y l0]; cbn [app].
      * exists [], (String c x), ""%string. rewrite Hr, Hnil by done. repeat split; [|done..].
        cbn. intros [E|E]; [by apply Hc|by apply Hx].
      * exists (String c y :: l0), x, (String c prefix). repeat split; [done| |done|].
        -- by rewrite Hr.
        -- intros _. destruct Hcons as [p ->]; [done|]. by exists (String c p).
Qed.

(** The file name shown is what follows the last slash of the path. *)
Lemma fileName_spec (path : string) :
  ~ In "/"%char (list_ascii_of_string (fileName path)) /\
  exists dir : string,
    path = dir +:+ fileName path /\ (dir = ""%string \/ endsWith dir "/").
Proof.
  destruct (split_last "/" path) as (l & x & prefix & Hs & Hx & Hr & Hnil & Hcons).
  assert (Hf : fileName path = x) by (unfold fileName; rewrite Hs; apply last_last).
  rewrite Hf. split; [done|]. exists prefix. split; [done|].
  destruct l as [|y l0]; [left; by apply Hnil|right].
  destruct Hcons as [p ->]; [done|]. by exists p.
Qed.

End SelectFile.
Section SelectFileRun.

Lemma selectFile_browser (f : Full) :
  tauri_internals f = false ->
  grun selectFile f =
    GFinished (GReturned tt)
      (showResult upd_uploadResult "error" "Not a Desktop App"
         "This application must be run as a desktop app using ./run.sh, not in a web browser. Please close the browser and run: ./run.sh" f) [].
Proof. intros H. unfold selectFile. gsimpl. rewrite H. reflexivity. Qed.

Lemma selectFile_no_plugins (f : Full) :
  tauri_internals f = true -> tauri_global f = false ->
  grun selectFile f =
    GFinished (GReturned tt)
      (showResult upd_uploadResult "error" "File Selection Error" "TypeError"
         (gconsole_error "File selection error:" (ErrorObject "TypeError") f)) [].
Proof. intros H1 H2. unfold selectFile. gsimpl. rewrite H1. gsimpl. rewrite H2. reflexivity. Qed.

Lemma selectFile_desktop (f : Full) :
  tauri_internals f = true -> tauri_global f = true ->
  exists k,
    grun selectFile f = GBlocked (WDialog false k) f [] /\
    (forall path f1, path <> ""%string ->
       grun (k (Picked (JStr path))) f1 =
         GFinished (GReturned tt)
           (upd_main (upd_uploadBtn (set_btn_disabled false))
              (upd_main (fun d => set_selectedFileName (selectedFileName_textContent d) true d)
                 (upd_main (fun d => set_selectedFileName (fileName path)
                                       (selectedFileName_selected d) d)
                    (upd_core (upd_state (set_selectedFilePath (JStr path))) f1)))) []) /\
    (forall v f1, truthy v = false -> grun (k (Picked v)) f1 = GFinished (GReturned tt) f1 []) /\
    (forall error f1,
       grun (k (DialogFailed error)) f1 =
         GFinished (GReturned tt)
           (showResult upd_uploadResult "error" "File Selection Error"
              (toString (js_or (message_of error) (JStr (String_of error))))
              (gconsole_error "File selection error:" error f1)) []).
Proof.
  intros H1 H2. unfold selectFile. gsimpl. rewrite H1. gsimpl. rewrite H2. gsimpl.
  eexists. split; [reflexivity|]. split; [|split].
  - intros path f1 Hp. gsimpl. cbn [truthy]. destruct (String.eqb_spec path ""); [done|].
    reflexivity.
  - intros v f1 Hv. gsimpl. rewrite Hv. reflexivity.
  - intros error f1. reflexivity.
Qed.

End SelectFileRun.

(** X16. [selectFile].  In a browser it asks for nothing and shows 'Not a
    Desktop App'.  In the desktop shell it opens the dialog for one file
    and leaves the page as it is until the dialog is answered.  A path
    chosen becomes [state.selectedFilePath], the upload button is enabled,
    and the name shown is what follows the last slash of the path: it holds
    no slash, and the path is a directory part, empty or ending in a slash,
    followed by it.  A cancelled dialog changes nothing.  A failed dialog is
    shown as 'File Selection Error', with the message of an Error object
    and with a rejection string as it is, and selects nothing. *)
Theorem selectFile_shows_file_name (f f1 : Full) (path : string) (error : Raised) :
  let t := grun selectFile f in
  let picked := gstep_full (resume t (Chosen (Picked (JStr path))) f1) in
  let failed := gstep_full (resume t (Chosen (DialogFailed error)) f1) in
  (tauri_internals f = false ->
   greturned t = true /\ waits_for_dialog t = None /\
   panel_title (uploadResult (main (gstep_full t))) = "Not a Desktop App"%string /\
   core (gstep_full t) = core f) /\
  (tauri_internals f = true -> tauri_global f = true ->
   waits_for_dialog t = Some false /\ gstep_full t = f /\
   (path <> ""%string ->
    selectedFilePath (state (core picked)) = JStr path /\
    selectedFileName_textContent (main picked) = fileName path /\
    selectedFileName_selected (main picked) = true /\
    btn_disabled (uploadBtn (main picked)) = false /\
    ~ In "/"%char (list_ascii_of_string (fileName path)) /\
    exists dir : string,
      path = dir +:+ fileName path /\ (dir = ""%string \/ endsWith dir "/")) /\
   (forall v, truthy v = false ->
      resume t (Chosen (Picked v)) f1 = GFinished (GReturned tt) f1 []) /\
   panel_title (uploadResult (main failed)) = "File Selection Error"%string /\
   panel_message (uploadResult (main failed)) =
     match error with
     | ErrorObject m => if String.eqb m "" then "Error"%string else m
     | RaisedString s => s
     end /\
   state (core failed) = state (core f1)).
Proof.
  cbn zeta. split.
  - intros H. rewrite (selectFile_browser f H). by page_simpl.
  - intros H1 H2. destruct (selectFile_desktop f H1 H2) as (k & -> & Hp & Hc & Hf).
    gsimpl. split; [done|]. split; [done|]. split; [|split].
    + intros Hne. rewrite (Hp path f1 Hne). gsimpl. page_simpl.
      destruct (fileName_spec path) as [Hno Hdir]. by repeat split.
    + intros v Hv. apply Hc, Hv.
    + rewrite Hf. gsimpl. page_simpl. repeat split.
      destruct error as [m|s]; unfold js_or; cbn [message_of String_of truthy].
      * by destruct (String.eqb m "").
      * reflexivity.
Qed.

Lemma selectFile_shows_file_name_witness :
  selectedFileName_textContent
    (main (gstep_full
       (resume (grun selectFile (desktop (freshPage ∅) sampleMain))
          (Chosen (Picked (JStr "/home/user/report.pdf")))
          (desktop (freshPage ∅) sampleMain)))) = "report.pdf"%string.
Proof.
  refine (proj1 (proj2 (proj1 (proj2 (proj2
    (proj2 (selectFile_shows_file_name (desktop (freshPage ∅) sampleMain)
              (desktop (freshPage ∅) sampleMain) "/home/user/report.pdf"
              (RaisedString "")) eq_refl eq_refl))) _))).
  discriminate.
Defined.
Section UploadFile.

Lemma uploadFile_no_file (size : option N) (f : Full) :
  truthy (selectedFilePath (state (core f))) = false ->
  grun (uploadFile size) f =
    GFinished (GReturned tt)
      (showResult upd_uploadResult "error" "Error" "Please select a file first" f) [].
Proof. intros H. unfold uploadFile. gsimpl. rewrite H. reflexivity. Qed.

Lemma uploadFile_turns (size : option N) (f : Full) :
  truthy (selectedFilePath (state (core f))) = true ->
  exists k,
    grun (uploadFile size) f =
      GBlocked
        (WFetch (postRequest "/ipfs/upload" {[ "file_path" := selectedFilePath (state (core f)) ]} f) k)
        (setButtonLoading upd_uploadBtn true f) [] /\
    (forall e f1,
       grun (k (Rejected e)) f1 =
         GFinished (GReturned tt)
           (setButtonLoading upd_uploadBtn false
              (showResult upd_uploadResult "error" "❌ Upload Failed" e f1)) []) /\
    (forall r f1, status r = 401%Z ->
       grun (k (Responded r)) f1 =
         GFinished (GReturned tt)
           (setButtonLoading upd_uploadBtn false
              (showResult upd_uploadResult "error" "❌ Upload Failed"
                 "Session expired. Please login again." (logoutStarted f1)))
           (logoutPending f1 ++ [])) /\
    (forall r f1, status r <> 401%Z -> ~ readable (body r) ->
       exists err,
         grun (k (Responded r)) f1 =
           GFinished (GReturned tt)
             (setButtonLoading upd_uploadBtn false
                (showResult upd_uploadResult "error" "❌ Upload Failed" err f1)) []) /\
    (forall r f1, status r <> 401%Z -> readable (body r) -> ok r = false ->
       grun (k (Responded r)) f1 =
         GFinished (GReturned tt)
           (setButtonLoading upd_uploadBtn false
              (showResult upd_uploadResult "error" "❌ Upload Failed"
                 (errorText (body r) "Upload failed") f1)) []) /\
    (forall r f1, status r <> 401%Z -> readable (body r) -> ok r = true ->
       grun (k (Responded r)) f1 =
         GFinished (GReturned tt)
           (setButtonLoading upd_uploadBtn false
              (showResult upd_uploadResult "success" "✅ Upload Successful"
                 ("File: " +:+ toString (bodyField (body r) "filename") +:+ br +:+
                  "CID: <code>" +:+ toString (bodyField (body r) "cid") +:+ "</code>" +:+ br +:+
                  "Size: " +:+ formatSize size +:+ br +:+
                  "<a href=" +:+ dq +:+ toString (bodyField (body r) "gateway_url") +:+ dq +:+
                  " target=" +:+ dq +:+ "_blank" +:+ dq +:+ ">View on Gateway</a>")
                 (upd_main (upd_registerBtn (set_btn_disabled false))
                    (upd_main (set_cidInput_value (inputValue (bodyField (body r) "cid")))
                       (upd_core (upd_state (set_lastCID (bodyField (body r) "cid"))) f1)))))
           []).
Proof.
  intros H. unfold uploadFile. gsimpl. rewrite H. gsimpl.
  eexists. split; [reflexivity|]. split; [|split; [|split; [|split]]].
  - intros e f1. reflexivity.
  - intros [st b] f1 Hs. cbn [status] in Hs. subst st. reflexivity.
  - intros [st b] f1 Hs Hb. cbn [status body] in *. gsimpl. cbn [status].
    destruct (Z.eqb_spec st 401) as [E|E]; [done|]. gsimpl.
    destruct b as [| | |o]; cbn [body]; gsimpl.
    + by eexists.
    + destruct (ok _); gsimpl; by eexists.
    + exfalso. apply Hb. by split.
    + exfalso. apply Hb. by split.
  - intros [st b] f1 Hs Hb Hok. cbn [status body] in *. gsimpl. cbn [status].
    destruct (Z.eqb_spec st 401) as [E|E]; [done|]. gsimpl. rewrite Hok.
    destruct Hb as [Hb1 Hb2]. destruct b as [| | |o]; try done; reflexivity.
  - intros [st b] f1 Hs Hb Hok. cbn [status body] in *. gsimpl. cbn [status].
    destruct (Z.eqb_spec st 401) as [E|E]; [done|]. gsimpl. rewrite Hok.
    destruct Hb as [Hb1 Hb2]. destruct b as [| | |o]; try done; reflexivity.
Qed.

End UploadFile.
Section VerifyWallet.


Lemma verifyWallet_turns (balance : option string) (f : Full) :
  trim (privateKeyInput_value (main f)) <> ""%string ->
  let failed (message : string) (f1 : Full) :=
    GFinished (GReturned tt)
      (setButtonLoading upd_verifyWalletBtn false
         (showResult upd_walletResult "error" "❌ Validation Failed" message
            (upd_core (upd_state (set_isWalletVerified false)) f1))) in
  let accepted (f1 : Full) :=
    upd_main (upd_registerBtn (set_btn_disabled (negb (truthy (lastCID (state (core f1)))))))
      (upd_core (upd_state (set_isWalletVerified true)) f1) in
  exists k,
    grun (verifyWallet balance) f =
      GBlocked
        (WFetch (postRequest "/solana/validate-wallet"
                   {[ "private_key" := JStr (trim (privateKeyInput_value (main f))) ]} f) k)
        (setButtonLoading upd_verifyWalletBtn true f) [] /\
    (forall e f1, grun (k (Rejected e)) f1 = failed e f1 []) /\
    (forall r f1, status r = 401%Z ->
       grun (k (Responded r)) f1 =
         failed "Session expired. Please login again." (logoutStarted f1)
           (logoutPending f1 ++ [])) /\
    (forall r f1, status r <> 401%Z -> body r = BodyInvalid \/ (body r = BodyNull /\ ok r = false) ->
       exists err, grun (k (Responded r)) f1 = failed err f1 []) /\
    (forall r f1, status r <> 401%Z -> readable (body r) -> ok r = false ->
       grun (k (Responded r)) f1 = failed (errorText (body r) "Validation failed") f1 []) /\
    (forall r f1, status r <> 401%Z -> ok r = true -> body r <> BodyInvalid ->
       body r = BodyNull \/ balance = None ->
       exists err, grun (k (Responded r)) f1 = failed err (accepted f1) []) /\
    (forall r f1 text, status r <> 401%Z -> ok r = true -> readable (body r) ->
       balance = Some text ->
       grun (k (Responded r)) f1 =
         GFinished (GReturned tt)
           (setButtonLoading upd_verifyWalletBtn false
              (showResult upd_walletResult "success" "✅ Wallet Verified"
                 ("Balance: " +:+ text +:+ " SOL" +:+ br +:+
                  "Network: " +:+ toString (bodyField (body r) "network") +:+ br +:+
                  "Public Key: " +:+ toString (bodyField (body r) "public_key_preview") +:+ br +:+
                  "Status: Connected")
                 (accepted f1))) []).
Proof.
  intros H failed accepted. unfold verifyWallet. gsimpl.
  destruct (String.eqb_spec (trim (privateKeyInput_value (main f))) "") as [E0|_]; [done|].
  gsimpl. eexists. split; [reflexivity|]. split; [|split; [|split; [|split; [|split]]]].
  - intros e f1. reflexivity.
  - intros [st b] f1 Hs. cbn [status] in Hs. subst st. reflexivity.
  - intros [st b] f1 Hs Hb. cbn [status body] in *. gsimpl. cbn [status].
    destruct (Z.eqb_spec st 401) as [E|E]; [done|]. gsimpl.
    destruct Hb as [->|[-> Hok]]; [by eexists|]. rewrite Hok. by eexists.
  - intros [st b] f1 Hs Hb Hok. cbn [status body] in *. gsimpl. cbn [status].
    destruct (Z.eqb_spec st 401) as [E|E]; [done|]. gsimpl. rewrite Hok.
    destruct Hb as [Hb1 Hb2]. destruct b as [| | |o]; try done; reflexivity.
  - intros [st b] f1 Hs Hok Hb1 Hb. cbn [status body] in *. gsimpl. cbn [status].
    destruct (Z.eqb_spec st 401) as [E|E]; [done|]. gsimpl. rewrite Hok.
    destruct b as [| | |o]; try done.
    + by eexists.
    + destruct Hb as [Hb | ->]; [done|]. by eexists.
    + destruct Hb as [Hb | ->]; [done|]. by eexists.
  - intros [st b] f1 text Hs Hok Hb ->. cbn [status body] in *. gsimpl. cbn [status].
    destruct (Z.eqb_spec st 401) as [E|E]; [done|]. gsimpl. rewrite Hok.
    destruct Hb as [Hb1 Hb2]. destruct b as [| | |o]; try done; reflexivity.
Qed.

End VerifyWallet.
Section Register.


Lemma registerOnSolana1_turns (f : Full) :
  let cid := js_or (lastCID (state (core f))) (JStr (trim (cidInput_value (main f)))) in
  trim (privateKeyInput_value (main f)) <> ""%string -> truthy cid = true ->
  let failed (message : string) (f1 : Full) :=
    GFinished (GReturned tt)
      (setButtonLoading upd_registerBtn false
         (showResult upd_walletResult "error" "❌ Transaction Failed" message f1)) in
  let answered (f1 : Full) : Full := f1 in
  exists k,
    grun registerOnSolana1 f =
      GBlocked
        (WFetch (postRequest "/solana/register"
                   (registerRequestBody (trim (privateKeyInput_value (main f))) cid) f) k)
        (setButtonLoading upd_registerBtn true f) [] /\
    (forall e f1, grun (k (Rejected e)) f1 = failed e f1 []) /\
    (forall r f1, status r = 401%Z ->
       grun (k (Responded r)) f1 =
         failed "Session expired. Please login again." (logoutStarted f1)
           (logoutPending f1 ++ [])) /\
    (forall r f1, status r <> 401%Z -> body r = BodyInvalid \/ (body r = BodyNull /\ ok r = false) ->
       exists err, grun (k (Responded r)) f1 = failed err f1 []) /\
    (forall r f1, status r <> 401%Z -> readable (body r) -> ok r = false ->
       grun (k (Responded r)) f1 = failed (errorText (body r) "Registration failed") f1 []) /\
    (forall r f1, status r <> 401%Z -> ok r = true -> body r <> BodyInvalid ->
       body r = BodyNull \/ (forall s, bodyField (body r) "signature" <> JStr s) ->
       exists err, grun (k (Responded r)) f1 = failed err (answered f1) []) /\
    (forall r f1 s, status r <> 401%Z -> ok r = true ->
       bodyField (body r) "signature" = JStr s ->
       grun (k (Responded r)) f1 =
         GFinished (GReturned tt)
           (setButtonLoading upd_registerBtn false
              (showResult upd_walletResult "success" "✅ Transaction Successful"
                 ("CID: <code>" +:+ toString (bodyField (body r) "cid") +:+ "</code>" +:+ br +:+
                  "Signature: <code>" +:+ substring 0 20 s +:+ "...</code>" +:+ br +:+
                  "Network: " +:+ toString (bodyField (body r) "network") +:+ br +:+
                  "<a href=" +:+ dq +:+ toString (bodyField (body r) "explorer_url") +:+ dq +:+
                  " target=" +:+ dq +:+ "_blank" +:+ dq +:+ ">View on Explorer</a>")
                 (answered f1))) []).
Proof.
  intros cid H Hc failed answered. unfold registerOnSolana1. gsimpl.
  destruct (String.eqb_spec (trim (privateKeyInput_value (main f))) "") as [E0|_]; [done|].
  fold cid. rewrite Hc. gsimpl.
  eexists. split; [reflexivity|]. split; [|split; [|split; [|split; [|split]]]].
  - intros e f1. reflexivity.
  - intros [st b] f1 Hs. cbn [status] in Hs. subst st. reflexivity.
  - intros [st b] f1 Hs Hb. cbn [status body] in *. gsimpl. cbn [status].
    destruct (Z.eqb_spec st 401) as [E|E]; [done|]. gsimpl.
    destruct Hb as [->|[-> Hok]]; [by eexists|]. rewrite Hok. by eexists.
  - intros [st b] f1 Hs Hb Hok. cbn [status body] in *. gsimpl. cbn [status].
    destruct (Z.eqb_spec st 401) as [E|E]; [done|]. gsimpl. rewrite Hok.
    destruct Hb as [Hb1 Hb2]. destruct b as [| | |o]; try done; reflexivity.
  - intros [st b] f1 Hs Hok Hb1 Hb. cbn [status body] in *. gsimpl. cbn [status].
    destruct (Z.eqb_spec st 401) as [E|E]; [done|]. gsimpl. rewrite Hok.
    destruct b as [| | |o]; try done.
    + by eexists.
    + by eexists.
    + destruct Hb as [Hb|Hb]; [done|]. gsimpl. cbn [bodyField] in Hb.
      unfold get in Hb. destruct (default JUndefined (o !! "signature")) as [| | |s];
        try (by eexists). by destruct (Hb s).
  - intros [st b] f1 s Hs Hok Hsig. cbn [status body] in *. gsimpl. cbn [status].
    destruct (Z.eqb_spec st 401) as [E|E]; [done|]. gsimpl. rewrite Hok.
    destruct b as [| | |o]; try done. gsimpl. cbn [bodyField] in *. unfold get in *.
    rewrite Hsig. reflexivity.
Qed.


Lemma registerOnSolana_turns (f : Full) :
  let cid := js_or (lastCID (state (core f))) (JStr (trim (cidInput_value (main f)))) in
  trim (privateKeyInput_value (main f)) <> ""%string -> truthy cid = true ->
  let failed (message : string) (f1 : Full) :=
    GFinished (GReturned tt)
      (setButtonLoading upd_registerBtn false
         (showResult upd_walletResult "error" "❌ Transaction Failed" message f1)) in
  let answered (f1 : Full) : Full := 
    upd_core (upd_state (set_isWalletVerified false))
      (upd_main (set_privateKeyInput_value "") f1) in
  exists k,
    grun registerOnSolana f =
      GBlocked
        (WFetch (postRequest "/solana/register"
                   (registerRequestBody (trim (privateKeyInput_value (main f))) cid) f) k)
        (setButtonLoading upd_registerBtn true f) [] /\
    (forall e f1, grun (k (Rejected e)) f1 = failed e f1 []) /\
    (forall r f1, status r = 401%Z ->
       grun (k (Responded r)) f1 =
         failed "Session expired. Please login again." (logoutStarted f1)
           (logoutPending f1 ++ [])) /\
    (forall r f1, status r <> 401%Z -> body r = BodyInvalid \/ (body r = BodyNull /\ ok r = false) ->
       exists err, grun (k (Responded r)) f1 = failed err f1 []) /\
    (forall r f1, status r <> 401%Z -> readable (body r) -> ok r = false ->
       grun (k (Responded r)) f1 = failed (errorText (body r) "Registration failed") f1 []) /\
    (forall r f1, status r <> 401%Z -> ok r = true -> body r <> BodyInvalid ->
       body r = BodyNull \/ (forall s, bodyField (body r) "signature" <> JStr s) ->
       exists err, grun (k (Responded r)) f1 = failed err (answered f1) []) /\
    (forall r f1 s, status r <> 401%Z -> ok r = true ->
       bodyField (body r) "signature" = JStr s ->
       grun (k (Responded r)) f1 =
         GFinished (GReturned tt)
           (setButtonLoading upd_registerBtn false
              (showResult upd_walletResult "success" "✅ Transaction Successful"
                 ("CID: <code>" +:+ toString (bodyField (body r) "cid") +:+ "</code>" +:+ br +:+
                  "Signature: <code>" +:+ substring 0 20 s +:+ "...</code>" +:+ br +:+
                  "Network: " +:+ toString (bodyField (body r) "network") +:+ br +:+
                  "<a href=" +:+ dq +:+ toString (bodyField (body r) "explorer_url") +:+ dq +:+
                  " target=" +:+ dq +:+ "_blank" +:+ dq +:+ ">View on Explorer</a>" +:+ br +:+
                  "<small>Private key cleared from memory for security</small>")
                 (answered f1))) []).
Proof.
  intros cid H Hc failed answered. unfold registerOnSolana. gsimpl.
  destruct (String.eqb_spec (trim (privateKeyInput_value (main f))) "") as [E0|_]; [done|].
  fold cid. rewrite Hc. gsimpl.
  eexists. split; [reflexivity|]. split; [|split; [|split; [|split; [|split]]]].
  - intros e f1. reflexivity.
  - intros [st b] f1 Hs. cbn [status] in Hs. subst st. reflexivity.
  - intros [st b] f1 Hs Hb. cbn [status body] in *. gsimpl. cbn [status].
    destruct (Z.eqb_spec st 401) as [E|E]; [done|]. gsimpl.
    destruct Hb as [->|[-> Hok]]; [by eexists|]. rewrite Hok. by eexists.
  - intros [st b] f1 Hs Hb Hok. cbn [status body] in *. gsimpl. cbn [status].
    destruct (Z.eqb_spec st 401) as [E|E]; [done|]. gsimpl. rewrite Hok.
    destruct Hb as [Hb1 Hb2]. destruct b as [| | |o]; try done; reflexivity.
  - intros [st b] f1 Hs Hok Hb1 Hb. cbn [status body] in *. gsimpl. cbn [status].
    destruct (Z.eqb_spec st 401) as [E|E]; [done|]. gsimpl. rewrite Hok.
    destruct b as [| | |o]; try done.
    + by eexists.
    + by eexists.
    + destruct Hb as [Hb|Hb]; [done|]. gsimpl. cbn [bodyField] in Hb.
      unfold get in Hb. destruct (default JUndefined (o !! "signature")) as [| | |s];
        try (by eexists). by destruct (Hb s).
  - intros [st b] f1 s Hs Hok Hsig. cbn [status body] in *. gsimpl. cbn [status].
    destruct (Z.eqb_spec st 401) as [E|E]; [done|]. gsimpl. rewrite Hok.
    destruct b as [| | |o]; try done. gsimpl. cbn [bodyField] in *. unfold get in *.
    rewrite Hsig. reflexivity.
Qed.

End Register.
Section Access.

Lemma openInBrowser_turns (f : Full) :
  let cid := trim (cidInput_value (main f)) in
  let failed (message : string) (f1 : Full) :=
    GFinished (GReturned tt) (showResult upd_accessResult "error" "❌ Error" message f1) [] in
  let opening (r : Response) (f1 : Full) :=
    GFinished (GReturned tt)
      (showResult upd_accessResult "success" "✅ Opening in Browser"
         ("CID: " +:+ toString (bodyField (body r) "cid") +:+ br +:+
          "URL: <a href=" +:+ dq +:+ toString (bodyField (body r) "gateway_url") +:+ dq +:+
          " target=" +:+ dq +:+ "_blank" +:+ dq +:+ ">" +:+
          toString (bodyField (body r) "gateway_url") +:+ "</a>") f1) [] in
  (cid = ""%string ->
   grun openInBrowser f =
     GFinished (GReturned tt)
       (showResult upd_accessResult "error" "Error" "Please enter a CID" f) []) /\
  (cid <> ""%string ->
   exists k,
     grun openInBrowser f = GBlocked (WFetch (gatewayRequest cid) k) f [] /\
     (forall e f1, grun (k (Rejected e)) f1 = failed e f1) /\
     (forall r f1, ~ readable (body r) ->
        exists err, grun (k (Responded r)) f1 = failed err f1) /\
     (forall r f1, readable (body r) -> ok r = false ->
        grun (k (Responded r)) f1 =
          failed (errorText (body r) "Failed to get gateway URL") f1) /\
     (forall r f1, readable (body r) -> ok r = true -> tauri_internals f1 = false ->
        grun (k (Responded r)) f1 =
          opening r (window_open (bodyField (body r) "gateway_url") f1)) /\
     (forall r f1, readable (body r) -> ok r = true -> tauri_internals f1 = true ->
        tauri_global f1 = false ->
        exists err, grun (k (Responded r)) f1 = failed err f1) /\
     (forall r f1, readable (body r) -> ok r = true -> tauri_internals f1 = true ->
        tauri_global f1 = true ->
        exists k2,
          grun (k (Responded r)) f1 =
            GBlocked (WShell (bodyField (body r) "gateway_url") k2) f1 [] /\
          (forall f2, grun (k2 ShellOpened) f2 = opening r f2) /\
          (forall error f2,
             grun (k2 (ShellFailed error)) f2 = failed (toString (message_of error)) f2))).
Proof.
  intros cid failed opening. unfold openInBrowser. gsimpl. fold cid.
  destruct (String.eqb_spec cid "") as [E0|E0].
  - split; [reflexivity|done].
  - split; [done|]. intros _. gsimpl.
    eexists. split; [reflexivity|]. split; [|split; [|split; [|split; [|split]]]].
    + intros e f1. reflexivity.
    + intros [st b] f1 Hb. gsimpl.
      destruct b as [| | |o]; gsimpl.
      * by eexists.
      * destruct (ok _); gsimpl; [|by eexists].
        destruct (tauri_internals f1); gsimpl; [|by eexists].
        destruct (tauri_global f1); gsimpl; by eexists.
      * exfalso. apply Hb. by split.
      * exfalso. apply Hb. by split.
    + intros [st b] f1 [Hb1 Hb2] Hok. gsimpl. cbn [body] in *.
      destruct b as [| | |o]; try done; gsimpl; rewrite Hok; reflexivity.
    + intros [st b] f1 [Hb1 Hb2] Hok Hi. gsimpl. cbn [body] in *.
      destruct b as [| | |o]; try done; gsimpl; rewrite Hok; gsimpl; rewrite Hi; reflexivity.
    + intros [st b] f1 [Hb1 Hb2] Hok Hi Hg. gsimpl. cbn [body] in *.
      destruct b as [| | |o]; try done; gsimpl; rewrite Hok; gsimpl; rewrite Hi; gsimpl;
        rewrite Hg; by eexists.
    + intros [st b] f1 [Hb1 Hb2] Hok Hi Hg. gsimpl. cbn [body] in *.
      destruct b as [| | |o]; try done; gsimpl; rewrite Hok; gsimpl; rewrite Hi; gsimpl;
        rewrite Hg; gsimpl; (eexists; split; [reflexivity|]; split; [|intros error f2]; reflexivity).
Qed.


Lemma downloadFile_turns (f : Full) :
  let cid := trim (cidInput_value (main f)) in
  cid <> ""%string -> tauri_internals f = true -> tauri_global f = true ->
  let failed (message : string) (f1 : Full) :=
    GFinished (GReturned tt)
      (setButtonLoading upd_downloadBtn false
         (showResult upd_accessResult "error" "❌ Download Failed" message f1)) in
  exists k,
    grun downloadFile f = GBlocked (WDialog true k) (setButtonLoading upd_downloadBtn true f) [] /\
    (forall error f1,
       grun (k (DialogFailed error)) f1 = failed (toString (message_of error)) f1 []) /\
    (forall v f1, truthy v = false ->
       grun (k (Picked v)) f1 =
         GFinished (GReturned tt)
           (setButtonLoading upd_downloadBtn false (setButtonLoading upd_downloadBtn false f1))
           []) /\
    (forall dir f1, truthy dir = true ->
       exists k2,
         grun (k (Picked dir)) f1 =
           GBlocked (WFetch (postRequest "/ipfs/download" (downloadRequestBody cid dir) f1) k2)
             f1 [] /\
         (forall e f2, grun (k2 (Rejected e)) f2 = failed e f2 []) /\
         (forall r f2, status r = 401%Z ->
            grun (k2 (Responded r)) f2 =
              failed "Session expired. Please login again." (logoutStarted f2)
                (logoutPending f2 ++ [])) /\
         (forall r f2, status r <> 401%Z -> ~ readable (body r) ->
            exists err, grun (k2 (Responded r)) f2 = failed err f2 []) /\
         (forall r f2, status r <> 401%Z -> readable (body r) -> ok r = false ->
            grun (k2 (Responded r)) f2 = failed (errorText (body r) "Download failed") f2 []) /\
         (forall r f2, status r <> 401%Z -> readable (body r) -> ok r = true ->
            grun (k2 (Responded r)) f2 =
              GFinished (GReturned tt)
                (setButtonLoading upd_downloadBtn false
                   (showResult upd_accessResult "success" "✅ Download Successful"
                      ("File: " +:+ toString (bodyField (body r) "filename") +:+ br +:+
                       "Location: " +:+ toString (bodyField (body r) "path") +:+ br +:+
                       "<a href=" +:+ dq +:+ toString (bodyField (body r) "gateway_url") +:+
                       dq +:+ " target=" +:+ dq +:+ "_blank" +:+ dq +:+
                       ">View on Gateway</a>") f2)) [])).
Proof.
  intros cid E0 Hi Hg failed. unfold downloadFile. gsimpl. fold cid.
  destruct (String.eqb_spec cid "") as [|_]; [done|]. gsimpl. rewrite Hi. gsimpl. page_simpl.
  rewrite Hg. gsimpl.
  eexists. split; [reflexivity|]. split; [|split].
  - intros error f1. reflexivity.
  - intros v f1 Hv. gsimpl. rewrite Hv. reflexivity.
  - intros dir f1 Hd. gsimpl. rewrite Hd. gsimpl.
    eexists. split; [reflexivity|]. split; [|split; [|split; [|split]]].
    + intros e f2. reflexivity.
    + intros [st b] f2 Hs. cbn [status] in Hs. subst st. reflexivity.
    + intros [st b] f2 Hs Hb. cbn [status body] in *. gsimpl.
      destruct (Z.eqb_spec st 401) as [E|E]; [done|]. gsimpl.
      destruct b as [| | |o]; gsimpl.
      * by eexists.
      * destruct (ok _); gsimpl; by eexists.
      * exfalso. apply Hb. by split.
      * exfalso. apply Hb. by split.
    + intros [st b] f2 Hs [Hb1 Hb2] Hok. cbn [status body] in *. gsimpl.
      destruct (Z.eqb_spec st 401) as [E|E]; [done|]. gsimpl. rewrite Hok.
      destruct b as [| | |o]; try done; reflexivity.
    + intros [st b] f2 Hs [Hb1 Hb2] Hok. cbn [status body] in *. gsimpl.
      destruct (Z.eqb_spec st 401) as [E|E]; [done|]. gsimpl. rewrite Hok.
      destruct b as [| | |o]; try done; reflexivity.
Qed.

End Access.
Section LogoutStarted.

Lemma logoutStarted_token (f1 : Full) :
  truthy (authToken (state (core f1))) = true ->
  logoutStarted f1 = f1 /\
  logoutPending f1 =
    [WFetch (logoutRequest (authToken (state (core f1))))
       (fun o => embed (handleLogout_resumed o))].
Proof.
  intros Ht. unfold logoutStarted, logoutPending.
  rewrite grun_embed, handleLogout_run_token by done. cbn [embedStep gstep_full gdetach].
  by rewrite upd_core_id.
Qed.

Lemma logoutStarted_no_token (f1 : Full) :
  truthy (authToken (state (core f1))) = false ->
  logoutStarted f1 = upd_core (fun _ => loggedOut (core f1)) f1 /\ logoutPending f1 = [].
Proof.
  intros Ht. unfold logoutStarted, logoutPending.
  by rewrite grun_embed, handleLogout_run_no_token by done.
Qed.

Lemma logoutStarted_main (f1 : Full) : main (logoutStarted f1) = main f1.
Proof.
  unfold logoutStarted. rewrite grun_embed, gstep_full_embedStep. reflexivity.
Qed.

Lemma logoutStarted_rest (f1 : Full) :
  tauri_internals (logoutStarted f1) = tauri_internals f1 /\
  tauri_global (logoutStarted f1) = tauri_global f1 /\
  tabs (logoutStarted f1) = tabs f1 /\ hideTimers (logoutStarted f1) = hideTimers f1.
Proof.
  unfold logoutStarted. rewrite grun_embed, gstep_full_embedStep. by repeat split.
Qed.

(** A logout changes nothing of [state] but the token and the user name. *)
Lemma logoutStarted_state (f1 : Full) :
  selectedFilePath (state (core (logoutStarted f1))) = selectedFilePath (state (core f1)) /\
  lastCID (state (core (logoutStarted f1))) = lastCID (state (core f1)) /\
  isWalletVerified (state (core (logoutStarted f1))) = isWalletVerified (state (core f1)).
Proof.
  destruct (truthy (authToken (state (core f1)))) eqn:Ht.
  - destruct (logoutStarted_token f1 Ht) as [-> _]. by repeat split.
  - destruct (logoutStarted_no_token f1 Ht) as [-> _]. cbn [core upd_core].
    rewrite loggedOut_state. by destruct (state (core f1)).
Qed.

(** The mark a 401 leaves, for a handler whose last turn ended as [t]. *)
Lemma sessionExpired_intro (panel : MainDom -> Panel) (button : MainDom -> Button)
    (f1 done : Full) (t : GStep unit) :
  t = GFinished (GReturned tt) done (logoutPending f1 ++ []) ->
  authToken (state (core done)) = authToken (state (core (logoutStarted f1))) ->
  username (state (core done)) = username (state (core (logoutStarted f1))) ->
  dom (core done) = dom (core (logoutStarted f1)) ->
  localStorage (core done) = localStorage (core (logoutStarted f1)) ->
  shown (panel (main done)) = true ->
  panel_message (panel (main done)) = "Session expired. Please login again."%string ->
  btn_disabled (button (main done)) = false ->
  sessionExpired panel button f1 t.
Proof.
  intros -> Htk Hun Hdom Hls Hs Hm Hb. unfold sessionExpired.
  cbn [greturned gstep_full gstep_requests].
  do 4 (split; [done|]). split; intros Ht.
  - destruct (logoutStarted_token f1 Ht) as [E1 E2]. rewrite E1 in *. by rewrite E2, Htk, Hls.
  - destruct (logoutStarted_no_token f1 Ht) as [E1 E2]. rewrite E1 in *.
    cbn [core upd_core] in *. rewrite E2. split; [done|].
    unfold sessionCleared, loginShown. rewrite Htk, Hun, Hdom, Hls.
    rewrite loggedOut_state, loggedOut_dom, loggedOut_localStorage.
    repeat split.
    + rewrite lookup_delete_ne by done. by rewrite lookup_delete_eq.
    + by rewrite lookup_delete_eq.
Qed.

End LogoutStarted.

Ltac shown_tac := unfold shown; page_simpl; apply bool_decide_eq_true_2; set_solver.

Section Outcomes.

(** The ways a response can be, for a handler that goes through
    [apiRequest]. *)
Lemma response_cases (r : Response) :
  status r = 401%Z \/
  (status r <> 401%Z /\ ~ readable (body r)) \/
  (status r <> 401%Z /\ readable (body r) /\ ok r = false) \/
  (status r <> 401%Z /\ readable (body r) /\ ok r = true).
Proof.
  destruct (Z.eq_dec (status r) 401%Z) as [E|E]; [by left|right].
  unfold readable. destruct (body r) as [| | |o].
  - left. split; [done|]. by intros [? _].
  - left. split; [done|]. by intros [_ ?].
  - right. destruct (ok r); [right|left]; by repeat split.
  - right. destruct (ok r); [right|left]; by repeat split.
Qed.

End Outcomes.

(** X17. [uploadFile] around its request.  Without a file selected it sends
    nothing and shows 'Please select a file first', the button as it was.
    With one it sends one POST /ipfs/upload whose body is the path, and the
    button is disabled with the spinner while the request is out.  However
    the request settles, answered with any status and any body or failed,
    and whatever has happened to the page meanwhile, the call returns
    without throwing, a result is on display, the button is enabled again
    without the spinner, and the selected path and the wallet flag are
    untouched. *)
Theorem uploadFile_guard_and_button (size : option N) (f f1 : Full) (o : Outcome) :
  let path := selectedFilePath (state (core f)) in
  let t := grun (uploadFile size) f in
  let t1 := resume t (Fetched o) f1 in
  (truthy path = false ->
   greturned t = true /\ gstep_requests t = [] /\
   panel_message (uploadResult (main (gstep_full t))) = "Please select a file first"%string /\
   uploadBtn (main (gstep_full t)) = uploadBtn (main f) /\
   core (gstep_full t) = core f) /\
  (truthy path = true ->
   gstep_requests t = [postRequest "/ipfs/upload" {[ "file_path" := path ]} f] /\
   btn_disabled (uploadBtn (main (gstep_full t))) = true /\
   btn_spinner (uploadBtn (main (gstep_full t))) = true /\
   core (gstep_full t) = core f /\
   greturned t1 = true /\
   shown (uploadResult (main (gstep_full t1))) = true /\
   btn_disabled (uploadBtn (main (gstep_full t1))) = false /\
   btn_spinner (uploadBtn (main (gstep_full t1))) = false /\
   selectedFilePath (state (core (gstep_full t1))) = selectedFilePath (state (core f1)) /\
   isWalletVerified (state (core (gstep_full t1))) = isWalletVerified (state (core f1))).
Proof.
  cbn zeta. split; intros Hp.
  - rewrite (uploadFile_no_file size f Hp). gsimpl. by page_simpl.
  - destruct (uploadFile_turns size f Hp) as (k & -> & Hrej & H401 & Hun & Hnok & Hok).
    gsimpl. page_simpl. do 4 (split; [done|]).
    destruct o as [r|e].
    + destruct (response_cases r) as [E|[[E Hb]|[(E & Hb & Ho)|(E & Hb & Ho)]]].
      * rewrite (H401 r f1 E). gsimpl. page_simpl. rewrite logoutStarted_main.
        destruct (logoutStarted_state f1) as (-> & _ & ->). repeat split; try shown_tac.
      * destruct (Hun r f1 E Hb) as [err ->]. gsimpl. page_simpl. repeat split; try shown_tac.
      * rewrite (Hnok r f1 E Hb Ho). gsimpl. page_simpl. repeat split; try shown_tac.
      * rewrite (Hok r f1 E Hb Ho). gsimpl. page_simpl. repeat split; try shown_tac.
    + rewrite (Hrej e f1). gsimpl. page_simpl. repeat split; try shown_tac.
Qed.

Lemma uploadFile_guard_and_button_witness :
  btn_disabled
    (uploadBtn (main (gstep_full
       (resume (grun (uploadFile None) fileChosen) (Fetched (Rejected "Failed to fetch"))
          fileChosen)))) = false.
Proof.
  exact (proj1 (proj2 (proj2 (proj2 (proj2 (proj2 (proj2
    (proj2 (uploadFile_guard_and_button None fileChosen fileChosen (Rejected "Failed to fetch"))
       eq_refl)))))))).
Defined.



(** X19. A 401 in the handlers that go through [apiRequest].  For
    [uploadFile], [verifyWallet], [registerOnSolana] and [downloadFile]
    alike, a response of status 401, whatever its body, ends the call
    without throwing with 'Session expired. Please login again.' on the
    handler's result element and the handler's button released, and starts
    the logout: with a token on the page its request goes out with that
    token, token and local storage staying until it settles; without one
    the session is cleared and the login screen shown at once.
    [verifyWallet] also takes the wallet for unverified, and
    [registerOnSolana] keeps the private key in its input. *)
Theorem handlers_session_expired
    (size : option N) (balance : option string) (f f0 f1 : Full) (r : Response) (dir : JsVal) :
  status r = 401%Z ->
  let key := trim (privateKeyInput_value (main f)) in
  let verified := resume (grun (verifyWallet balance) f) (Fetched (Responded r)) f1 in
  let registered := resume (grun registerOnSolana f) (Fetched (Responded r)) f1 in
  (truthy (selectedFilePath (state (core f))) = true ->
   sessionExpired uploadResult uploadBtn f1
     (resume (grun (uploadFile size) f) (Fetched (Responded r)) f1)) /\
  (key <> ""%string ->
   sessionExpired walletResult verifyWalletBtn f1 verified /\
   isWalletVerified (state (core (gstep_full verified))) = false) /\
  (key <> ""%string ->
   truthy (js_or (lastCID (state (core f))) (JStr (trim (cidInput_value (main f))))) = true ->
   sessionExpired walletResult registerBtn f1 registered /\
   privateKeyInput_value (main (gstep_full registered)) = privateKeyInput_value (main f1)) /\
  (trim (cidInput_value (main f)) <> ""%string ->
   tauri_internals f = true -> tauri_global f = true -> truthy dir = true ->
   sessionExpired accessResult downloadBtn f1
     (resume (resume (grun downloadFile f) (Chosen (Picked dir)) f0)
        (Fetched (Responded r)) f1)).
Proof.
  intros Hs. cbn zeta. split; [|split; [|split]].
  - intros Hp. destruct (uploadFile_turns size f Hp) as (k & -> & _ & H401 & _).
    gsimpl. eapply sessionExpired_intro; [apply (H401 r f1 Hs)|..];
      page_simpl; rewrite ?logoutStarted_main; try done; shown_tac.
  - intros Hk. destruct (verifyWallet_turns balance f Hk) as (k & -> & _ & H401 & _).
    gsimpl. split.
    + eapply sessionExpired_intro; [apply (H401 r f1 Hs)|..];
        page_simpl; rewrite ?logoutStarted_main; try done; shown_tac.
    + rewrite (H401 r f1 Hs). gsimpl. by page_simpl.
  - intros Hk Hc. destruct (registerOnSolana_turns f Hk Hc) as (k & -> & _ & H401 & _).
    gsimpl. split.
    + eapply sessionExpired_intro; [apply (H401 r f1 Hs)|..];
        page_simpl; rewrite ?logoutStarted_main; try done; shown_tac.
    + rewrite (H401 r f1 Hs). gsimpl. page_simpl. by rewrite logoutStarted_main.
  - intros Hc Hi Hg Hd.
    destruct (downloadFile_turns f Hc Hi Hg) as (k & -> & _ & _ & Hdir).
    gsimpl. destruct (Hdir dir f0 Hd) as (k2 & -> & _ & H401 & _).
    gsimpl. eapply sessionExpired_intro; [apply (H401 r f1 Hs)|..];
      page_simpl; rewrite ?logoutStarted_main; try done; shown_tac.
Qed.

Lemma handlers_session_expired_witness :
  sessionExpired uploadResult uploadBtn fileChosen
    (resume (grun (uploadFile None) fileChosen) (Fetched (Responded expired)) fileChosen).
Proof.
  exact (proj1 (handlers_session_expired None None fileChosen fileChosen fileChosen expired
                  JNull eq_refl) eq_refl).
Defined.




Section RegisterCases.

Lemma register_cases (r : Response) :
  status r = 401%Z \/
  (status r <> 401%Z /\ (body r = BodyInvalid \/ (body r = BodyNull /\ ok r = false))) \/
  (status r <> 401%Z /\ readable (body r) /\ ok r = false) \/
  (status r <> 401%Z /\ ok r = true /\ body r <> BodyInvalid /\
   (body r = BodyNull \/ forall s, bodyField (body r) "signature" <> JStr s)) \/
  (status r <> 401%Z /\ ok r = true /\ body r <> BodyInvalid /\
   exists s, bodyField (body r) "signature" = JStr s).
Proof.
  destruct (Z.eq_dec (status r) 401%Z) as [E|E]; [by left|right].
  destruct (body r) as [| | |o] eqn:Hb.
  - left. split; [done|]. by left.
  - destruct (ok r).
    + right. right. left. repeat split; try done. by left.
    + left. split; [done|]. by right.
  - destruct (ok r).
    + right. right. left. repeat split; try done. by right.
    + right. left. by repeat split.
  - destruct (ok r); [|right; left; by repeat split].
    right. right. destruct (bodyField (BodyObject o) "signature") as [| | |s] eqn:Hsig.
    + left. repeat split; try done. by right.
    + left. repeat split; try done. by right.
    + left. repeat split; try done. by right.
    + right. repeat split; try done. by exists s.
Qed.

End RegisterCases.

(** X22. The private key after a registration.  The first revision of
    [registerOnSolana] never touches the key input or the wallet flag.  The
    second empties the input and takes the wallet for unverified exactly
    when the request was answered with a response that is ok (and not 401)
    and whose body is JSON, and leaves both alone otherwise: after a failed
    request, a 401 or an error status the key is still in the input.  It
    does so before the answer is rendered, so the key is gone as well when
    the answer has no signature and 'Transaction Failed' is what is shown.
    The register button is released in every case. *)
Theorem registerOnSolana_clears_key (f f1 : Full) (o : Outcome) :
  trim (privateKeyInput_value (main f)) <> ""%string ->
  truthy (js_or (lastCID (state (core f))) (JStr (trim (cidInput_value (main f))))) = true ->
  let after1 := gstep_full (resume (grun registerOnSolana1 f) (Fetched o) f1) in
  let after := gstep_full (resume (grun registerOnSolana f) (Fetched o) f1) in
  let answered :=
    exists r, o = Responded r /\ status r <> 401%Z /\ ok r = true /\ body r <> BodyInvalid in
  (privateKeyInput_value (main after1) = privateKeyInput_value (main f1) /\
   isWalletVerified (state (core after1)) = isWalletVerified (state (core f1))) /\
  (answered ->
   privateKeyInput_value (main after) = ""%string /\
   isWalletVerified (state (core after)) = false) /\
  (~ answered ->
   privateKeyInput_value (main after) = privateKeyInput_value (main f1) /\
   isWalletVerified (state (core after)) = isWalletVerified (state (core f1))) /\
  (answered ->
   (forall r s, o = Responded r -> bodyField (body r) "signature" <> JStr s) ->
   panel_title (walletResult (main after)) = "❌ Transaction Failed"%string) /\
  btn_disabled (registerBtn (main after)) = false /\
  btn_disabled (registerBtn (main after1)) = false.
Proof.
  intros Hk Hc. cbn zeta.
  destruct (registerOnSolana1_turns f Hk Hc)
    as (k1 & -> & Hrej1 & H4011 & Hbad1 & Hnok1 & Hhalf1 & Hok1).
  destruct (registerOnSolana_turns f Hk Hc)
    as (k & -> & Hrej & H401 & Hbad & Hnok & Hhalf & Hok).
  gsimpl. destruct o as [r|e].
  - destruct (register_cases r)
      as [E|[[E Hb]|[(E & Hb & Ho)|[(E & Ho & Hi & Hb)|(E & Ho & Hi & s & Hsig)]]]].
    + rewrite (H4011 r f1 E), (H401 r f1 E). gsimpl. page_simpl.
      rewrite logoutStarted_main. destruct (logoutStarted_state f1) as (_ & _ & ->).
      split; [by split|]. split; [|split; [|split; [|by split]]].
      * intros (r' & [= <-] & Hne & _). done.
      * intros _. by split.
      * intros (r' & [= <-] & Hne & _). done.
    + destruct (Hbad1 r f1 E Hb) as [err1 ->]. destruct (Hbad r f1 E Hb) as [err ->].
      gsimpl. page_simpl.
      split; [by split|]. split; [|split; [|split; [|by split]]].
      * intros (r' & [= <-] & _ & Ho & Hi). destruct Hb as [Hb|[_ Hb]]; congruence.
      * intros _. by split.
      * intros (r' & [= <-] & _ & Ho & Hi). destruct Hb as [Hb|[_ Hb]]; congruence.
    + rewrite (Hnok1 r f1 E Hb Ho), (Hnok r f1 E Hb Ho). gsimpl. page_simpl.
      split; [by split|]. split; [|split; [|split; [|by split]]].
      * intros (r' & [= <-] & _ & Ho' & _). congruence.
      * intros _. by split.
      * intros (r' & [= <-] & _ & Ho' & _). congruence.
    + destruct (Hhalf1 r f1 E Ho Hi Hb) as [err1 ->].
      destruct (Hhalf r f1 E Ho Hi Hb) as [err ->].
      gsimpl. page_simpl.
      split; [by split|]. split; [|split; [|split; [|by split]]].
      * intros _. by split.
      * intros Hna. exfalso. apply Hna. by exists r.
      * by intros _ _.
    + rewrite (Hok1 r f1 s E Ho Hsig), (Hok r f1 s E Ho Hsig). gsimpl. page_simpl.
      split; [by split|]. split; [|split; [|split; [|by split]]].
      * intros _. by split.
      * intros Hna. exfalso. apply Hna. by exists r.
      * intros _ Hno. by destruct (Hno r s eq_refl).
  - rewrite (Hrej1 e f1), (Hrej e f1). gsimpl. page_simpl.
    split; [by split|]. split; [|split; [|split; [|by split]]].
    + intros (r' & Hr & _). done.
    + intros _. by split.
    + intros (r' & Hr & _). done.
Qed.

Lemma registerOnSolana_clears_key_witness :
  privateKeyInput_value
    (main (gstep_full (resume (grun registerOnSolana keyAndCid)
                         (Fetched (Responded registerNoSignature)) keyAndCid))) = ""%string /\
  panel_title
    (walletResult (main (gstep_full (resume (grun registerOnSolana keyAndCid)
                                       (Fetched (Responded registerNoSignature)) keyAndCid)))) =
    "❌ Transaction Failed"%string.
Proof.
  assert (Hanswered : exists r, Responded registerNoSignature = Responded r /\
            status r <> 401%Z /\ ok r = true /\ body r <> BodyInvalid).
  { exists registerNoSignature. split; [reflexivity|]. split; [discriminate|].
    split; [reflexivity|discriminate]. }
  split.
  - refine (proj1 (proj1 (proj2
      (registerOnSolana_clears_key keyAndCid keyAndCid (Responded registerNoSignature)
         _ eq_refl)) Hanswered)).
    discriminate.
  - refine (proj1 (proj2 (proj2 (proj2
      (registerOnSolana_clears_key keyAndCid keyAndCid (Responded registerNoSignature)
         _ eq_refl)))) Hanswered _).
    + discriminate.
    + intros r s [= <-]. discriminate.
Defined.
Section OpenInBrowser.


End OpenInBrowser.



(** X24. How [openInBrowser] opens the gateway URL of a response that is ok
    and readable.  In a browser it opens the URL in a new tab at once and
    reports success.  In the desktop shell it hands the URL to the shell
    plugin and reports nothing until that call settles: success when it
    succeeds, and when it fails the [message] of what it was rejected with,
    which for a rejection with a string is the text 'undefined'.  No tab is
    opened in the shell, and without the plugin object an error is shown. *)
Theorem openInBrowser_opens (f f1 f2 : Full) (r : Response) (error : Raised) :
  trim (cidInput_value (main f)) <> ""%string -> readable (body r) -> ok r = true ->
  let url := bodyField (body r) "gateway_url" in
  let t1 := resume (grun openInBrowser f) (Fetched (Responded r)) f1 in
  let opened := gstep_full (resume t1 (Shelled ShellOpened) f2) in
  let failed := gstep_full (resume t1 (Shelled (ShellFailed error)) f2) in
  let success : string :=
    "CID: " +:+ toString (bodyField (body r) "cid") +:+ br +:+
    "URL: <a href=" +:+ dq +:+ toString url +:+ dq +:+
    " target=" +:+ dq +:+ "_blank" +:+ dq +:+ ">" +:+ toString url +:+ "</a>" in
  (tauri_internals f1 = false ->
   greturned t1 = true /\ waits_for_shell t1 = None /\
   tabs (gstep_full t1) = tabs f1 ++ [url] /\
   panel_title (accessResult (main (gstep_full t1))) = "✅ Opening in Browser"%string /\
   panel_message (accessResult (main (gstep_full t1))) = success) /\
  (tauri_internals f1 = true -> tauri_global f1 = true ->
   waits_for_shell t1 = Some url /\ gstep_full t1 = f1 /\
   tabs opened = tabs f2 /\
   panel_title (accessResult (main opened)) = "✅ Opening in Browser"%string /\
   panel_message (accessResult (main opened)) = success /\
   tabs failed = tabs f2 /\
   panel_title (accessResult (main failed)) = "❌ Error"%string /\
   panel_message (accessResult (main failed)) =
     match error with
     | ErrorObject m => m
     | RaisedString _ => "undefined"%string
     end) /\
  (tauri_internals f1 = true -> tauri_global f1 = false ->
   greturned t1 = true /\ waits_for_shell t1 = None /\ tabs (gstep_full t1) = tabs f1 /\
   panel_title (accessResult (main (gstep_full t1))) = "❌ Error"%string).
Proof.
  intros E Hb Ho. cbn zeta.
  destruct (openInBrowser_turns f) as [_ Hturns]. cbn zeta in *.
  destruct (Hturns E) as (k & -> & _ & _ & _ & Hbrowser & Hnoplugin & Hshell). gsimpl.
  split; [|split].
  - intros Hi. rewrite (Hbrowser r f1 Hb Ho Hi). gsimpl. by page_simpl.
  - intros Hi Hg. destruct (Hshell r f1 Hb Ho Hi Hg) as (k2 & -> & Hopened & Hfailed).
    gsimpl. rewrite Hopened, Hfailed. gsimpl. page_simpl. repeat split. by destruct error.
  - intros Hi Hg. destruct (Hnoplugin r f1 Hb Ho Hi Hg) as [err ->]. gsimpl. by page_simpl.
Qed.

Lemma openInBrowser_opens_witness :
  tabs (gstep_full (resume (grun openInBrowser cidEnteredBrowser) (Fetched (Responded gatewayOk))
                      cidEnteredBrowser)) =
    [JStr "http://127.0.0.1:8080/ipfs/QmTyped"] /\
  panel_message
    (accessResult (main (gstep_full
       (resume (resume (grun openInBrowser cidEntered) (Fetched (Responded gatewayOk)) cidEntered)
          (Shelled (ShellFailed (RaisedString "program not allowed"))) cidEntered)))) =
    "undefined"%string.
Proof.
  split.
  - refine (proj1 (proj2 (proj2 (proj1
      (openInBrowser_opens cidEnteredBrowser cidEnteredBrowser cidEnteredBrowser gatewayOk
         (RaisedString "") _ _ eq_refl) eq_refl)))); [discriminate|split; discriminate].
  - refine (proj2 (proj2 (proj2 (proj2 (proj2 (proj2 (proj2 (proj1 (proj2
      (openInBrowser_opens cidEntered cidEntered cidEntered gatewayOk
         (RaisedString "program not allowed") _ _ eq_refl)) eq_refl eq_refl))))))));
      [discriminate|split; discriminate].
Defined.


Section LogoClicks.

Lemma repeat_click_shorter (a b : nat) (es l2 : list LogoEvent) :
  a < b -> repeat Click a ++ TwoSecondsPass :: es <> repeat Click b ++ l2.
Proof.
  revert b. induction a as [|a IH]; intros b Hlt Heq.
  - destruct b as [|b]; [lia|]. discriminate Heq.
  - destruct b as [|b]; [lia|]. cbn in Heq. injection Heq as Heq.
    apply (IH b); [lia|done].
Qed.

Lemma five_clicks_skip (c : nat) (es l1 l2 : list LogoEvent) :
  c <= 4 ->
  repeat Click c ++ TwoSecondsPass :: es = l1 ++ repeat Click 5 ++ l2 ->
  exists l1', es = l1' ++ repeat Click 5 ++ l2.
Proof.
  revert l1. induction c as [|c IH]; intros l1 Hc Heq.
  - destruct l1 as [|x l1]; [discriminate Heq|]. injection Heq as _ Heq. by exists l1.
  - destruct l1 as [|x l1].
    + cbn in Heq. injection Heq as Heq.
      by destruct (repeat_click_shorter c 4 es l2 ltac:(lia)).
    + cbn in Heq. injection Heq as _ Heq. apply (IH l1); [lia|done].
Qed.

Lemma repeat_click_snoc (c : nat) (es : list LogoEvent) :
  repeat Click c ++ Click :: es = repeat Click (S c) ++ es.
Proof. induction c as [|c IH]; [done|]. cbn. by rewrite IH. Qed.

Lemma logoRun_stays (es : list LogoEvent) (l : LogoState) :
  secretResetBtn_display l = "block"%string ->
  secretResetBtn_display (logoRun es l) = "block"%string.
Proof.
  revert l. induction es as [|e es IH]; intros l Hl; [done|].
  change (logoRun (e :: es) l) with (logoRun es (logoStep l e)).
  apply IH. destruct e; cbn [logoStep].
  - unfold logoClick. cbn [clickCount clickTimer]. by destruct (Nat.eqb _ _).
  - unfold clickTimerFires. by destruct (clickTimer l).
Qed.

Lemma logoRun_cons (e : LogoEvent) (es : list LogoEvent) (l : LogoState) :
  logoRun (e :: es) l = logoRun es (logoStep l e).
Proof. reflexivity. Qed.

(** A state with [c] clicks counted goes on as if [c] clicks had just been
    made. *)
Lemma logoRun_five (es : list LogoEvent) (l : LogoState) :
  secretResetBtn_display l <> "block"%string ->
  clickCount l <= 4 ->
  (0 < clickCount l -> clickTimer l = true) ->
  secretResetBtn_display (logoRun es l) = "block"%string <->
  exists l1 l2, repeat Click (clickCount l) ++ es = l1 ++ repeat Click 5 ++ l2.
Proof.
  revert l. induction es as [|e es IH]; intros l Hd Hc Ht.
  - cbn. split; [done|]. intros (l1 & l2 & Heq). apply (f_equal length) in Heq.
    rewrite !length_app, !repeat_length in Heq. cbn in Heq. lia.
  - rewrite logoRun_cons. destruct e; cbn [logoStep].
    + unfold logoClick. cbn [clickCount clickTimer].
      rewrite repeat_click_snoc.
      destruct (Nat.eqb_spec (S (clickCount l)) 5) as [E|E].
      * split; [|intros _; by apply logoRun_stays].
        intros _. exists [], es. by rewrite E.
      * apply (IH (mkLogoState (S (clickCount l)) true (secretResetBtn_display l)
                     (loginLogo_color l))); cbn; [done|lia|done].
    + assert (Hrun : secretResetBtn_display (logoRun es (clickTimerFires l)) = "block"%string <->
                     exists l1 l2, es = l1 ++ repeat Click 5 ++ l2).
      { unfold clickTimerFires. destruct (clickTimer l) eqn:Htimer.
        - apply (IH (mkLogoState 0 false (secretResetBtn_display l) (loginLogo_color l)));
            cbn; [done|lia|lia].
        - assert (Hzero : clickCount l = 0).
          { destruct (clickCount l) as [|n] eqn:Hn; [done|].
            assert (false = true) by (apply Ht; lia). done. }
          assert (Ht' : 0 < clickCount l -> clickTimer l = true) by (rewrite Hzero; lia).
          rewrite (IH l Hd Hc Ht'), Hzero. reflexivity. }
      rewrite Hrun. split.
      * intros (l1 & l2 & ->).
        exists (repeat Click (clickCount l) ++ TwoSecondsPass :: l1), l2.
        by rewrite <- app_assoc.
      * intros (l1 & l2 & Heq). destruct (five_clicks_skip _ _ _ _ Hc Heq) as [l1' ->].
        by exists l1', l2.
Qed.

End LogoClicks.

(** X26. The logo of the login screen uncovers the reset button after five
    clicks in a row and not before: whatever the clicks and the pauses of
    two seconds, the button is shown exactly when the events hold five
    clicks with no such pause between them, and then the logo is red.  A
    pause starts the count again, and so does the fifth click. *)
Theorem logo_five_clicks (display color : string) (es : list LogoEvent) :
  display <> "block"%string ->
  let final := logoRun es (logoStart display color) in
  (secretResetBtn_display final = "block"%string <->
   exists l1 l2, es = l1 ++ repeat Click 5 ++ l2) /\
  (secretResetBtn_display final <> "block"%string ->
   secretResetBtn_display final = display /\ loginLogo_color final = color) /\
  clickCount final <= 4.
Proof.
  intros Hd. cbn zeta.
  split; [|].
  - apply (logoRun_five es (logoStart display color)); cbn; [done|lia|lia].
  - assert (Hinv : forall es l, clickCount l <= 4 ->
              clickCount (logoRun es l) <= 4 /\
              (secretResetBtn_display (logoRun es l) <> "block"%string ->
               secretResetBtn_display (logoRun es l) = secretResetBtn_display l /\
               loginLogo_color (logoRun es l) = loginLogo_color l)).
    { clear. induction es as [|e es IH]; intros l Hc; [done|].
      rewrite logoRun_cons.
      assert (Hstep : clickCount (logoStep l e) <= 4 /\
                (secretResetBtn_display (logoStep l e) = "block"%string \/
                 secretResetBtn_display (logoStep l e) = secretResetBtn_display l /\
                 loginLogo_color (logoStep l e) = loginLogo_color l)).
      { destruct e; cbn.
        - unfold logoClick. cbn [clickCount clickTimer].
          destruct (Nat.eqb_spec (S (clickCount l)) 5); cbn; [split; [lia|by left]|].
          split; [lia|by right].
        - unfold clickTimerFires. destruct (clickTimer l); cbn; (split; [lia|by right]). }
      destruct Hstep as [Hc' Hs]. destruct (IH _ Hc') as [IH1 IH2]. split; [done|].
      intros Hnb. destruct Hs as [Hb|[Hs1 Hs2]].
      - exfalso. apply Hnb. by apply logoRun_stays.
      - destruct (IH2 Hnb) as [-> ->]. done. }
    destruct (Hinv es (logoStart display color)) as [H1 H2]; [cbn; lia|].
    split; [|done]. intros Hnb. by apply H2.
Qed.

Lemma logo_five_clicks_witness :
  secretResetBtn_display
    (logoRun [Click; Click; TwoSecondsPass; Click; Click; Click; Click; Click]
       (logoStart "none" "")) = "block"%string.
Proof.
  refine (proj2 (proj1 (logo_five_clicks "none" ""
            [Click; Click; TwoSecondsPass; Click; Click; Click; Click; Click] _)) _).
  - discriminate.
  - by exists [Click; Click; TwoSecondsPass], [].
Defined.
Section LogoutKeeps.

Lemma mainAppStore_state (s : Store) : state (mainAppStore s) = state s.
Proof. by destruct s. Qed.

Lemma mainAppStore_dom (s : Store) :
  loginScreen_display (dom (mainAppStore s)) = "none"%string /\
  mainApp_display (dom (mainAppStore s)) = "block"%string.
Proof. by destruct s. Qed.

Lemma loggedOut_consoleLogged_state (label e : string) (s : Store) :
  state (loggedOut (consoleLogged label e s)) = state (loggedOut s) /\
  dom (loggedOut (consoleLogged label e s)) = dom (loggedOut s) /\
  localStorage (loggedOut (consoleLogged label e s)) = localStorage (loggedOut s).
Proof. by destruct s. Qed.

End LogoutKeeps.

(** X27. What a logout leaves on the page.  [handleLogout] sends its
    request and, when that has settled either way, clears token, user name
    and both stored keys and shows the login screen; everything of the main
    application stays: the private key typed into its input, the CID input,
    the last CID, the selected file and the wallet flag.  A login that
    follows on the same page shows the main application with all of it
    still there. *)
Theorem handleLogout_keeps_main_application
    (f f1 : Full) (o : Outcome) (r : Response) (obj : Json) :
  truthy (authToken (state (core f))) = true ->
  body r = BodyObject obj -> truthy (get obj "success") = true ->
  let t := grun (embed handleLogout) f in
  let out := gstep_full (resume t (Fetched o) f1) in
  let back := gstep_full (grun (embed (handleLogin_resumed (Responded r))) out) in
  gstep_requests t = [logoutRequest (authToken (state (core f)))] /\
  gstep_full t = f /\
  sessionCleared (core out) /\ loginShown (core out) /\
  (main out = main f1 /\
   privateKeyInput_value (main out) = privateKeyInput_value (main f1) /\
   lastCID (state (core out)) = lastCID (state (core f1)) /\
   selectedFilePath (state (core out)) = selectedFilePath (state (core f1)) /\
   isWalletVerified (state (core out)) = isWalletVerified (state (core f1))) /\
  (mainAppShown (core back) /\
   authToken (state (core back)) = get obj "token" /\
   main back = main f1 /\
   privateKeyInput_value (main back) = privateKeyInput_value (main f1) /\
   lastCID (state (core back)) = lastCID (state (core f1)) /\
   selectedFilePath (state (core back)) = selectedFilePath (state (core f1)) /\
   isWalletVerified (state (core back)) = isWalletVerified (state (core f1))).
Proof.
  intros Ht Hb Hs. cbn zeta.
  rewrite grun_embed, (handleLogout_run_token _ Ht). cbn [embedStep resume gstep_requests
    gstep_full waiting_request omap option_list app fmap list_fmap].
  rewrite upd_core_id. do 2 (split; [done|]).
  rewrite grun_embed, handleLogout_resumed_run. cbn [embedStep gstep_full].
  set (s' := match o with
             | Responded _ => core f1
             | Rejected e => consoleLogged "Logout error:" e (core f1)
             end).
  assert (Hst : state (loggedOut s') = state (loggedOut (core f1)) /\
                dom (loggedOut s') = dom (loggedOut (core f1)) /\
                localStorage (loggedOut s') = localStorage (loggedOut (core f1))).
  { subst s'. destruct o; [done|]. apply loggedOut_consoleLogged_state. }
  destruct Hst as (Hst & Hdom & Hls).
  rewrite grun_embed, (handleLogin_resumed_success r obj _ Hb Hs).
  cbn [embedStep gstep_full core main upd_core].
  unfold sessionCleared, loginShown, mainAppShown.
  rewrite mainAppStore_state. destruct (mainAppStore_dom
    (upd_localStorage (insert "username" (toString (get obj "username")))
       (upd_localStorage (insert "authToken" (toString (get obj "token")))
          (upd_state (set_username (get obj "username"))
             (upd_state (set_authToken (get obj "token")) (loggedOut s')))))) as [-> ->].
  cbn [state upd_state upd_localStorage].
  rewrite Hst, Hdom, Hls, loggedOut_state, loggedOut_dom, loggedOut_localStorage.
  destruct (state (core f1)) as [sel cid ver tok usr]. cbn.
  repeat split.
  - rewrite lookup_delete_ne by done. by rewrite lookup_delete_eq.
  - by rewrite lookup_delete_eq.
Qed.

Lemma handleLogout_keeps_main_application_witness :
  privateKeyInput_value
    (main (gstep_full (resume (grun (embed handleLogout) keyEntered)
                         (Fetched (Rejected "Failed to fetch")) keyEntered))) =
    " 5Kb8kLf9zgWQnogidDA76Mz "%string.
Proof.
  exact (proj1 (proj2 (proj1 (proj2 (proj2 (proj2 (proj2
    (handleLogout_keeps_main_application keyEntered keyEntered (Rejected "Failed to fetch")
       loginOk loginOkBody eq_refl eq_refl eq_refl)))))))).
Defined.
Section RegisterButton.


End RegisterButton.



(** X29. Leaving the page.  The handler of [beforeunload] empties the key
    input and touches nothing else: token and user name stay in local
    storage, so the page that is loaded next restores the session, whatever
    becomes of its first-time request, and comes up with the main
    application on display. *)
Theorem beforeunload_clears_key_only (f : Full) (lo : Outcome) :
  let left := beforeunload f in
  let next := step_store (run (init_resumed lo) (freshPage (localStorage (core left)))) in
  privateKeyInput_value (main left) = ""%string /\
  core left = core f /\
  cidInput_value (main left) = cidInput_value (main f) /\
  tabs left = tabs f /\
  (sessionStoredLocally (localStorage (core f)) ->
   exists tk nm,
     localStorage (core f) !! "authToken" = Some tk /\
     localStorage (core f) !! "username" = Some nm /\
     authToken (state next) = JStr tk /\ username (state next) = JStr nm /\
     mainAppShown next).
Proof.
  cbn zeta. unfold beforeunload. page_simpl. do 4 (split; [done|]).
  intros Hs.
  destruct (proj1 (init_resumed_restores (localStorage (core f)) lo) Hs)
    as (tk & nm & Htk & Hnm & Ha & Hu & Hshown & _).
  by exists tk, nm.
Qed.

Lemma beforeunload_clears_key_only_witness :
  exists tk nm,
    localStorage (core keyEntered) !! "authToken" = Some tk /\
    localStorage (core keyEntered) !! "username" = Some nm /\
    authToken (state (step_store (run (init_resumed (Rejected "offline"))
                 (freshPage (localStorage (core (beforeunload keyEntered))))))) = JStr tk /\
    username (state (step_store (run (init_resumed (Rejected "offline"))
                 (freshPage (localStorage (core (beforeunload keyEntered))))))) = JStr nm /\
    mainAppShown (step_store (run (init_resumed (Rejected "offline"))
                 (freshPage (localStorage (core (beforeunload keyEntered)))))).
Proof.
  refine (proj2 (proj2 (proj2 (proj2
    (beforeunload_clears_key_only keyEntered (Rejected "offline"))))) _).
  split.
  - exists "tok-1"%string. split; [reflexivity|discriminate].
  - exists "swiftpanda247"%string. split; [reflexivity|discriminate].
Defined.
